(** * weight-log: record store, save/merge, range report, summary, diff, CSV

    A shallow embedding of the JavaScript sources of the application:

    - [src/db.js]            the IndexedDB record service      (module [Db]);
    - [src/unnamed/part_000] the UI controller built around
      [handleSave] / [loadDataForDate] / [renderSummary]       (module [Part000]);
      the controller bundled after [src/db.js] has the same save, load,
      export and report functions;
    - [src/unnamed/part_001] the rewritten UI controller built
      around [saveCurrent] / [exportCSV] / [clampDateRange]    (module [Part001]);
    - the date helpers, default and quick ranges of the two controllers
      (modules [Dates000], [Dates001]) and the graph of part_001
      (module [Graph001]).

    The host language is modelled in modules [JS], [JSDate] and [JSCal].
    JavaScript numbers are IEEE doubles; here a number is either [NaN] or
    an exact rational, so that every arithmetic step is the mathematically
    exact one (binary rounding error, infinities and the exponent notation
    of very large or very small numbers are outside the model).  An input
    element is the text it holds.  Asynchronous store operations are taken
    as atomic steps that run to completion. *)

From Stdlib Require Import ZArith QArith Qabs Qround Bool List Lia.
From Stdlib Require Import Ascii String DecimalString DecimalPos.
From Stdlib Require Import Sorted Permutation OrderedTypeEx.
Import ListNotations.

Local Open Scope Z_scope.

(* ================================================================== *)
(** * The host language *)
(* ================================================================== *)

Module JS.

(** ** Numbers *)

Inductive number : Type :=
| NaN
| Fin (q : Q).

Definition isNaN (n : number) : bool :=
  match n with NaN => true | Fin _ => false end.

Definition Qltb (a b : Q) : bool := negb (Qle_bool b a).

(** [a < b], [a <= b], [a > b], [a >= b]: false as soon as one side is NaN. *)
Definition lt (a b : number) : bool :=
  match a, b with Fin x, Fin y => Qltb x y | _, _ => false end.
Definition le (a b : number) : bool :=
  match a, b with Fin x, Fin y => Qle_bool x y | _, _ => false end.
Definition gt (a b : number) : bool := lt b a.
Definition ge (a b : number) : bool := le b a.

(** [a === b] on numbers. *)
Definition eqb (a b : number) : bool :=
  match a, b with Fin x, Fin y => Qeq_bool x y | _, _ => false end.

Definition lift2 (f : Q -> Q -> Q) (a b : number) : number :=
  match a, b with Fin x, Fin y => Fin (Qred (f x y)) | _, _ => NaN end.

Definition add : number -> number -> number := lift2 Qplus.
Definition sub : number -> number -> number := lift2 Qminus.
Definition mul : number -> number -> number := lift2 Qmult.

(** Division; a zero divisor yields an infinity or NaN in JavaScript, both
    outside the finite numbers, rendered here as [NaN]. *)
Definition div (a b : number) : number :=
  match a, b with
  | Fin x, Fin y => if Qeq_bool y 0 then NaN else Fin (Qred (x / y))
  | _, _ => NaN
  end.

Definition ofZ (z : Z) : number := Fin (inject_Z z).
Definition ofNat (n : nat) : number := ofZ (Z.of_nat n).

(** [Math.round]: the nearest integer, ties towards +infinity. *)
Definition Math_round (a : number) : number :=
  match a with
  | NaN => NaN
  | Fin x => ofZ (Qfloor (x + (1 # 2)))
  end.

Definition Math_min2 (a b : number) : number :=
  match a, b with
  | Fin x, Fin y => if Qle_bool x y then a else b
  | _, _ => NaN
  end.
Definition Math_max2 (a b : number) : number :=
  match a, b with
  | Fin x, Fin y => if Qle_bool x y then b else a
  | _, _ => NaN
  end.

(** [Math.min(...xs)] and [Math.max(...xs)] on a non-empty argument list
    [x :: xs] (the callers guard the empty case). *)
Definition Math_min (x : number) (xs : list number) : number :=
  fold_left Math_min2 xs x.
Definition Math_max (x : number) (xs : list number) : number :=
  fold_left Math_max2 xs x.

(** [Number.isFinite]. *)
Definition Number_isFinite (n : number) : bool := negb (isNaN n).

(** Truncation towards zero. *)
Definition Qtrunc (x : Q) : Z :=
  if Qle_bool 0 x then Qfloor x else Qceiling x.

(** ** Number to string *)

Definition string_of_Z (z : Z) : string :=
  NilZero.string_of_int (Z.to_int z).

Definition digit_char (d : Z) : ascii :=
  ascii_of_nat (48 + Z.to_nat d).

(** Digits after the decimal point of [r / d] (with [0 <= r < d]), until
    the expansion ends or the fuel runs out. *)
Fixpoint frac_digits (fuel : nat) (r d : Z) : string :=
  match fuel with
  | O => EmptyString
  | S fuel' =>
      if r =? 0 then EmptyString
      else String (digit_char ((r * 10) / d))
                  (frac_digits fuel' ((r * 10) mod d) d)
  end.

(** [String(n)] / [n.toString()]: the decimal expansion of the number. *)
Definition NumberToString (n : number) : string :=
  match n with
  | NaN => "NaN"
  | Fin q =>
      let d := Z.pos (Qden q) in
      let a := Z.abs (Qnum q) in
      let f := frac_digits 20 (a mod d) d in
      let sign := if Qnum q <? 0 then "-"%string else ""%string in
      let int := string_of_Z (a / d) in
      (sign ++ int ++ (match f with EmptyString => "" | _ => "." ++ f end))%string
  end.

(** [n.toFixed(1)]: one digit after the point, the nearest tenth of the
    absolute value with ties taking the larger candidate, sign kept. *)
Definition toFixed1 (n : number) : string :=
  match n with
  | NaN => "NaN"
  | Fin q =>
      let t := Qfloor (Qabs q * 10 + (1 # 2)) in
      let sign := if Qltb q 0 then "-"%string else ""%string in
      let int := string_of_Z (t / 10) in
      let dec := string_of_Z (t mod 10) in
      (sign ++ int ++ "." ++ dec)%string
  end.

(** ** String to number *)

Definition isWhiteSpace (c : ascii) : bool :=
  match nat_of_ascii c with
  | 9%nat | 10%nat | 11%nat | 12%nat | 13%nat | 32%nat => true
  | _ => false
  end.

Definition digit_of (c : ascii) : option Z :=
  let n := Z.of_nat (nat_of_ascii c) in
  if (48 <=? n) && (n <=? 57) then Some (n - 48) else None.

Fixpoint trimStart (s : string) : string :=
  match s with
  | String c s' => if isWhiteSpace c then trimStart s' else s
  | EmptyString => EmptyString
  end.

Fixpoint allWhiteSpace (s : string) : bool :=
  match s with
  | String c s' => isWhiteSpace c && allWhiteSpace s'
  | EmptyString => true
  end.

(** Reads the longest run of decimal digits: accumulated value, number of
    digits read, and the remaining text. *)
Fixpoint scanDigits (s : string) (acc : Z) (cnt : nat) : Z * nat * string :=
  match s with
  | String c s' =>
      match digit_of c with
      | Some d => scanDigits s' (acc * 10 + d) (S cnt)
      | None => (acc, cnt, s)
      end
  | EmptyString => (acc, cnt, s)
  end.

(** An optional sign: [true] for a minus sign. *)
Definition scanSign (s : string) : bool * string :=
  match s with
  | String "-" s' => (true, s')
  | String "+" s' => (false, s')
  | _ => (false, s)
  end.

(** An optional exponent part [e|E [+|-] digits]; taken only when at least
    one digit follows. *)
Definition scanExponent (s : string) : Z * string :=
  match s with
  | String c s' =>
      if (Ascii.eqb c "e" || Ascii.eqb c "E")%bool then
        let '(neg, s1) := scanSign s' in
        let '(e, cnt, rest) := scanDigits s1 0 0 in
        match cnt with
        | O => (0, s)
        | _ => ((if neg then - e else e), rest)
        end
      else (0, s)
  | EmptyString => (0, s)
  end.

Definition pow10 (e : Z) : Q :=
  if 0 <=? e then inject_Z (10 ^ e) else / inject_Z (10 ^ (- e)).

(** The longest prefix that is a signed decimal literal
    [digits [. digits] [exponent]] or [. digits [exponent]]; its value and
    the text after it.  [None] when no such prefix exists. *)
Definition scanDecimal (s : string) : option (Q * string) :=
  let '(neg, s0) := scanSign s in
  let '(ip, icnt, s1) := scanDigits s0 0 0 in
  let '(fp, fcnt, s2) :=
    match s1 with
    | String "." s1' =>
        let '(f, c, r) := scanDigits s1' 0 0 in
        match icnt, c with
        | O, O => (0, O, s1)
        | _, _ => (f, c, r)
        end
    | _ => (0, O, s1)
    end in
  match icnt, fcnt with
  | O, O => None
  | _, _ =>
      let '(e, s3) := scanExponent s2 in
      let m := (inject_Z ip + inject_Z fp / inject_Z (10 ^ Z.of_nat fcnt))%Q in
      let v := (m * pow10 e)%Q in
      Some (Qred (if neg then - v else v), s3)
  end.

(** [parseFloat(s)] on a string. *)
Definition parseFloat_string (s : string) : number :=
  match scanDecimal (trimStart s) with
  | Some (q, _) => Fin q
  | None => NaN
  end.

(** [parseInt(s, 10)] on a string. *)
Definition parseInt_string (s : string) : number :=
  let '(neg, s0) := scanSign (trimStart s) in
  let '(v, cnt, _) := scanDigits s0 0 0 in
  match cnt with
  | O => NaN
  | _ => ofZ (if neg then - v else v)
  end.

(** [Number(s)] on a string: the whole text, white space trimmed, must be
    a decimal literal; the empty text is [0].  (The hexadecimal, octal and
    binary literal forms are not covered.) *)
Definition StringToNumber (s : string) : number :=
  let t := trimStart s in
  match t with
  | EmptyString => ofZ 0
  | _ =>
      match scanDecimal t with
      | Some (q, rest) => if allWhiteSpace rest then Fin q else NaN
      | None => NaN
      end
  end.

(** ** Values held by record fields and state *)

Inductive value : Type :=
| Null
| Undefined
| Num (n : number)
| Str (s : string).

(** [v === null || v === undefined]. *)
Definition isNullish (v : value) : bool :=
  match v with Null | Undefined => true | _ => false end.

(** [a ?? b]. *)
Definition coalesce (a b : value) : value :=
  if isNullish a then b else a.

(** Truthiness, as in [v ? _ : _] and [v || _]. *)
Definition ToBoolean (v : value) : bool :=
  match v with
  | Null | Undefined => false
  | Num NaN => false
  | Num (Fin q) => negb (Qeq_bool q 0)
  | Str s => negb (String.eqb s "")
  end.

(** [a || b]. *)
Definition or (a b : value) : value :=
  if ToBoolean a then a else b.

(** [String(v)], also the conversion applied by template literals and by
    assignment to an input's [value]. *)
Definition ToString (v : value) : string :=
  match v with
  | Null => "null"
  | Undefined => "undefined"
  | Num n => NumberToString n
  | Str s => s
  end.

(** [Number(v)]. *)
Definition ToNumber (v : value) : number :=
  match v with
  | Null => ofZ 0
  | Undefined => NaN
  | Num n => n
  | Str s => StringToNumber s
  end.

(** [parseFloat(v)]: the argument is converted to a string first; on a
    number that conversion followed by the parse gives the number back. *)
Definition parseFloat (v : value) : number :=
  match v with
  | Null | Undefined => NaN
  | Num n => n
  | Str s => parseFloat_string s
  end.

(** [parseInt(v, 10)]: on a number, the digits before the decimal point of
    its string form, that is, its truncation. *)
Definition parseInt (v : value) : number :=
  match v with
  | Null | Undefined => NaN
  | Num NaN => NaN
  | Num (Fin q) => ofZ (Qtrunc q)
  | Str s => parseInt_string s
  end.

(** An element of [Array.prototype.join]: null and undefined give the
    empty string. *)
Definition joinElement (v : value) : string :=
  if isNullish v then "" else ToString v.

(** ** Strings: comparison and sorting *)

(** [a <= b] and [a >= b] on strings: code-unit order. *)
Definition str_le (a b : string) : bool := String.leb a b.
Definition str_ge (a b : string) : bool := String.leb b a.

(** [a.localeCompare(b)].  On the texts compared here (calendar dates
    made of digits and hyphens) the collation order is the code-unit
    order. *)
Definition localeCompare (a b : string) : comparison := String.compare a b.

Section Sort.
Context {A : Type}.
Variable cmp : A -> A -> comparison.

(** Stable insertion: [x] goes after every element it does not precede. *)
Fixpoint insert (x : A) (l : list A) : list A :=
  match l with
  | [] => [x]
  | y :: l' =>
      match cmp x y with
      | Lt => x :: l
      | _ => y :: insert x l'
      end
  end.

(** [Array.prototype.sort(cmp)]: a stable sort. *)
Definition sort (l : list A) : list A :=
  fold_left (fun acc x => insert x acc) l [].
End Sort.

End JS.

(* ================================================================== *)
(** * Calendar dates of the host ([Date]) *)
(* ================================================================== *)

Module JSDate.

Definition msPerDay : Z := 86400000.

(** The day-number functions of the ECMAScript time-value algebra. *)
Definition DaysInYear (y : Z) : Z :=
  if negb (y mod 4 =? 0) then 365
  else if negb (y mod 100 =? 0) then 366
  else if negb (y mod 400 =? 0) then 365
  else 366.

Definition InLeapYear (y : Z) : bool := DaysInYear y =? 366.

Definition DayFromYear (y : Z) : Z :=
  365 * (y - 1970) + (y - 1969) / 4 - (y - 1901) / 100 + (y - 1601) / 400.

Definition DaysInMonth (y m : Z) : Z :=
  match m with
  | 2 => if InLeapYear y then 29 else 28
  | 4 | 6 | 9 | 11 => 30
  | _ => 31
  end.

(** Days of the year before the first day of month [m] (1..12). *)
Definition DaysBeforeMonth (y m : Z) : Z :=
  let l := if InLeapYear y then 1 else 0 in
  match m with
  | 1 => 0
  | 2 => 31
  | 3 => 59 + l
  | 4 => 90 + l
  | 5 => 120 + l
  | 6 => 151 + l
  | 7 => 181 + l
  | 8 => 212 + l
  | 9 => 243 + l
  | 10 => 273 + l
  | 11 => 304 + l
  | _ => 334 + l
  end.

(** [MakeDay] for a calendar date with the month counted from 1. *)
Definition MakeDay (y m d : Z) : Z :=
  DayFromYear y + DaysBeforeMonth y m + d - 1.

Definition validYMD (y m d : Z) : bool :=
  (0 <=? y) && (y <=? 9999) && (1 <=? m) && (m <=? 12)
  && (1 <=? d) && (d <=? DaysInMonth y m).

Definition num2 (a b : Z) : Z := a * 10 + b.
Definition num4 (a b c d : Z) : Z := ((a * 10 + b) * 10 + c) * 10 + d.

(** The date-only form [YYYY-MM-DD] of the date-time string format, the
    form a date input holds.  Texts outside this form, whose reading the
    language leaves to the implementation, are read as invalid. *)
Definition parseYMD (s : string) : option (Z * Z * Z) :=
  match list_ascii_of_string s with
  | [y1; y2; y3; y4; h1; m1; m2; h2; d1; d2] =>
      if Ascii.eqb h1 "-" && Ascii.eqb h2 "-" then
        match JS.digit_of y1, JS.digit_of y2, JS.digit_of y3, JS.digit_of y4,
              JS.digit_of m1, JS.digit_of m2, JS.digit_of d1, JS.digit_of d2 with
        | Some a, Some b, Some c, Some d, Some e, Some f, Some g, Some h =>
            let y := num4 a b c d in
            let m := num2 e f in
            let dd := num2 g h in
            if validYMD y m dd then Some (y, m, dd) else None
        | _, _, _, _, _, _, _, _ => None
        end
      else None
  | _ => None
  end.

(** [new Date(s).getTime()]: UTC midnight of the day; [None] for an
    invalid date (a NaN time value). *)
Definition parse (s : string) : option Z :=
  match parseYMD s with
  | Some (y, m, d) => Some (MakeDay y m d * msPerDay)
  | None => None
  end.

(** [d.setHours(0, 0, 0, 0)] on time value [t], for a local time zone
    at the constant offset of [tza] milliseconds from UTC: midnight of the
    local day of [t]. *)
Definition setHours0 (tza : Z) (t : Z) : Z :=
  ((t + tza) / msPerDay) * msPerDay - tza.

End JSDate.

(* ================================================================== *)
(** * src/db.js: the record service *)
(* ================================================================== *)

Module Db.

Record record : Type := mkRecord {
  date : string;
  weight : JS.value;
  total_calorie : JS.value
}.

(** The object store ['records'] with [keyPath: 'date']: its records, held
    in ascending key order, one per key. *)
Definition store : Type := list record.

Definition empty : store := [].

(** [store.get(key)]. *)
Fixpoint get (key : string) (s : store) : option record :=
  match s with
  | [] => None
  | r :: s' => if String.eqb (date r) key then Some r else get key s'
  end.

(** [store.put(record)]: the record takes the place of the record stored
    under its key, or is added at its place in key order. *)
Fixpoint put (r : record) (s : store) : store :=
  match s with
  | [] => [r]
  | x :: s' =>
      match String.compare (date r) (date x) with
      | Lt => r :: s
      | Eq => r :: s'
      | Gt => x :: put r s'
      end
  end.

(** [store.getAll()]. *)
Definition getAll (s : store) : list record := s.

(** [getRecord(date)]: resolves to [request.result || null]; [None] is
    that null. *)
Definition getRecord (d : string) (s : store) : option record := get d s.

(** [upsertRecord(record)]. *)
Definition upsertRecord (r : record) (s : store) : store := put r s.

(** [getAllRecords()]. *)
Definition getAllRecords (s : store) : list record := getAll s.

(** The three operations of the service, and a run of them. *)
Inductive op : Type :=
| GetRecord (d : string)
| UpsertRecord (r : record)
| GetAllRecords.

Definition step (s : store) (o : op) : store :=
  match o with
  | UpsertRecord r => upsertRecord r s
  | GetRecord _ | GetAllRecords => s
  end.

Definition run (ops : list op) : store := fold_left step ops empty.

End Db.

(* ================================================================== *)
(** * src/unnamed/part_000: the controller around [handleSave] *)
(* ================================================================== *)

(** The DOM is reduced to what the controller reads and writes: the text
    of the two inputs and of the two report date inputs, the rows of the
    report table and the two summary boxes.  Styling, view switching,
    button captions and the chart are left out. *)

Module Part000.

Inductive Mode : Type := morning | night.

Record STATE : Type := mkSTATE {
  currentDate : string;
  mode : Mode;
  currentRecord : option Db.record;
  isExistingRecord : bool
}.

(** A line of the report table: a data line (date, weight, diff text and
    diff colour), or the single line shown when there is nothing to list. *)
Inductive tr : Type :=
| DataRow (dateStr weightStr diffStr diffColor : string)
| EmptyRow (text : string).

(** The content of a summary box. *)
Inductive summaryHtml : Type :=
| Dash
| WeightHtml (avgW : string) (n : nat) (minW maxW : string)
| CalorieHtml (avgC : string) (n : nat).

Record UI : Type := mkUI {
  weightInput : string;
  calorieInput : string;
  reportStartDate : string;
  reportEndDate : string;
  reportTableBody : list tr;
  summaryWeight : summaryHtml;
  summaryCalorie : summaryHtml
}.

(** A file offered for download: its name and the text placed in the
    link (before [encodeURI]). *)
Record download : Type := mkDownload {
  filename : string;
  content : string
}.

Record World : Type := mkWorld {
  db : Db.store;
  state : STATE;
  ui : UI;
  alerts : list string;
  downloads : list download
}.

Definition alert (msg : string) (w : World) : World :=
  mkWorld (db w) (state w) (ui w) (alerts w ++ [msg]) (downloads w).

Definition set_inputs (wv cv : string) (u : UI) : UI :=
  mkUI wv cv (reportStartDate u) (reportEndDate u)
       (reportTableBody u) (summaryWeight u) (summaryCalorie u).

Definition set_report (rows : list tr) (sw sc : summaryHtml) (u : UI) : UI :=
  mkUI (weightInput u) (calorieInput u) (reportStartDate u) (reportEndDate u)
       rows sw sc.

(** ** Loading a date *)

Definition loadDataForDate (date : string) (w : World) : World :=
  let record := Db.getRecord date (db w) in
  let cur :=
    match record with
    | Some r => r
    | None => Db.mkRecord date JS.Null JS.Null
    end in
  let existing := match record with Some _ => true | None => false end in
  let wv :=
    if negb (JS.isNullish (Db.weight cur))
    then JS.toFixed1 (JS.ToNumber (Db.weight cur))
    else ""%string in
  let cv := JS.ToString (JS.or (Db.total_calorie cur) (JS.Str "")) in
  mkWorld (db w)
          (mkSTATE (currentDate (state w)) (mode (state w)) (Some cur) existing)
          (set_inputs wv cv (ui w))
          (alerts w) (downloads w).

Definition handleDateChange (value : string) (w : World) : World :=
  let st := state w in
  loadDataForDate value
    (mkWorld (db w)
             (mkSTATE value (mode st) (currentRecord st) (isExistingRecord st))
             (ui w) (alerts w) (downloads w)).

Definition switchMode (m : Mode) (w : World) : World :=
  let st := state w in
  mkWorld (db w)
          (mkSTATE (currentDate st) m (currentRecord st) (isExistingRecord st))
          (ui w) (alerts w) (downloads w).

(** ** Saving *)

(** The [try] block of [handleSave]: the record is rebuilt from the two
    inputs and written. *)
Definition saveToDb (w : World) : World :=
  let u := ui w in
  let st := state w in
  let '(weightToSave, wv) :=
    if negb (String.eqb (weightInput u) "") then
      let val := JS.parseFloat_string (weightInput u) in
      let r := JS.div (JS.Math_round (JS.mul val (JS.ofZ 10))) (JS.ofZ 10) in
      (JS.Num r, JS.toFixed1 r)
    else (JS.Null, weightInput u) in
  let recordToSave :=
    Db.mkRecord (currentDate st) weightToSave
      (if negb (String.eqb (calorieInput u) "")
       then JS.Num (JS.parseInt_string (calorieInput u))
       else JS.Null) in
  mkWorld (Db.upsertRecord recordToSave (db w))
          (mkSTATE (currentDate st) (mode st) (Some recordToSave) true)
          (set_inputs wv (calorieInput u) u)
          (alerts w) (downloads w).

Definition set_currentRecord (r : Db.record) (w : World) : World :=
  let st := state w in
  mkWorld (db w)
          (mkSTATE (currentDate st) (mode st) (Some r) (isExistingRecord st))
          (ui w) (alerts w) (downloads w).

(** [handleSave].  With no current record (no load has completed) the
    assignment to its field throws and the handler ends there. *)
Definition handleSave (w : World) : World :=
  let weightVal := JS.parseFloat_string (weightInput (ui w)) in
  let calorieVal := JS.parseInt_string (calorieInput (ui w)) in
  match mode (state w) with
  | morning =>
      if JS.isNaN weightVal || JS.le weightVal (JS.ofZ 0)
      then alert "正しい体重を入力してください。" w
      else
        match currentRecord (state w) with
        | None => w
        | Some cur =>
            saveToDb
              (set_currentRecord
                 (Db.mkRecord (Db.date cur) (JS.Str (JS.toFixed1 weightVal))
                              (Db.total_calorie cur)) w)
        end
  | night =>
      if JS.isNaN calorieVal || JS.lt calorieVal (JS.ofZ 0)
      then alert "正しい総カロリーを入力してください。" w
      else
        match currentRecord (state w) with
        | None => w
        | Some cur =>
            saveToDb
              (set_currentRecord
                 (Db.mkRecord (Db.date cur) (Db.weight cur)
                              (JS.Num calorieVal)) w)
        end
  end.

(** ** CSV export *)

Definition byDate (a b : Db.record) : comparison :=
  JS.localeCompare (Db.date a) (Db.date b).

Definition csvField (v : JS.value) : string :=
  JS.ToString (match v with JS.Null => JS.Str "" | _ => v end).

Definition newline : string := String (ascii_of_nat 10) EmptyString.

Definition csvRow (r : Db.record) : string :=
  (Db.date r ++ "," ++ csvField (Db.weight r) ++ ","
     ++ csvField (Db.total_calorie r) ++ newline)%string.

Definition csvHeader : string := ("Date,Weight,TotalCalorie" ++ newline)%string.

Definition csvText (records : list Db.record) : string :=
  fold_left (fun acc r => (acc ++ csvRow r)%string)
            (JS.sort byDate records) csvHeader.

Definition handleExport (w : World) : World :=
  let records := Db.getAllRecords (db w) in
  match records with
  | [] => alert "エクスポートするデータがありません。" w
  | _ :: _ =>
      let csvContent := ("data:text/csv;charset=utf-8," ++ csvText records)%string in
      let name :=
        ("weight_calorie_export_" ++ currentDate (state w) ++ ".csv")%string in
      mkWorld (db w) (state w) (ui w) (alerts w)
              (downloads w ++ [mkDownload name csvContent])
  end.

(** ** Report *)

(** [r.weight !== null && r.weight !== undefined ? parseFloat(r.weight) : null] *)
Definition weightOf (r : Db.record) : option JS.number :=
  if negb (JS.isNullish (Db.weight r))
  then Some (JS.parseFloat (Db.weight r))
  else None.

(** [... ? parseInt(r.total_calorie, 10) : null] *)
Definition calorieOf (r : Db.record) : option JS.number :=
  if negb (JS.isNullish (Db.total_calorie r))
  then Some (JS.parseInt (Db.total_calorie r))
  else None.

(** A line of the table before it is turned into text: the record's date,
    its weight, and the difference to the previous listed weight. *)
Record diffRow : Type := mkDiffRow {
  dr_date : string;
  dr_weight : JS.number;
  dr_diff : option JS.number
}.

(** The [forEach] of [renderReportTable], with [prevWeight] threaded
    through: records without a weight are passed over. *)
Fixpoint tableRows (prevWeight : option JS.number) (records : list Db.record)
  : list diffRow :=
  match records with
  | [] => []
  | r :: rest =>
      match weightOf r with
      | None => tableRows prevWeight rest
      | Some w =>
          mkDiffRow (Db.date r) w
                    (match prevWeight with
                     | Some p => Some (JS.sub w p)
                     | None => None
                     end)
            :: tableRows (Some w) rest
      end
  end.

Definition diffStr (diff : option JS.number) : string :=
  match diff with
  | None => "-"
  | Some d =>
      if JS.eqb d (JS.ofZ 0) then "±0"
      else ((if JS.gt d (JS.ofZ 0) then "+" else "") ++ JS.toFixed1 d)%string
  end.

Definition diffColor (diff : option JS.number) : string :=
  match diff with
  | None => "inherit"
  | Some d =>
      if JS.lt d (JS.ofZ 0) then "#1e88e5"
      else if JS.gt d (JS.ofZ 0) then "#e53935"
      else "inherit"
  end.

(** The date cell shows the record's date (its month/day form is
    produced by the host's calendar, not modelled here). *)
Definition renderRow (x : diffRow) : tr :=
  DataRow (dr_date x) (JS.toFixed1 (dr_weight x))
          (diffStr (dr_diff x)) (diffColor (dr_diff x)).

Definition renderReportTable (records : list Db.record) : list tr :=
  match map renderRow (tableRows None records) with
  | [] => [EmptyRow "データがありません"]
  | rows => rows
  end.

(** [xs.filter(v => v !== null && v > 0)] after the [map]. *)
Fixpoint positives (xs : list (option JS.number)) : list JS.number :=
  match xs with
  | [] => []
  | Some v :: xs' =>
      if JS.gt v (JS.ofZ 0) then v :: positives xs' else positives xs'
  | None :: xs' => positives xs'
  end.

Definition sum (xs : list JS.number) : JS.number :=
  fold_left JS.add xs (JS.ofZ 0).

Definition summaryWeights (records : list Db.record) : list JS.number :=
  positives (map weightOf records).

Definition summaryCalories (records : list Db.record) : list JS.number :=
  positives (map calorieOf records).

Record weightStats : Type := mkWeightStats {
  ws_avg : JS.number;
  ws_n : nat;
  ws_min : JS.number;
  ws_max : JS.number
}.

Record calorieStats : Type := mkCalorieStats {
  cs_avg : JS.number;
  cs_n : nat
}.

Definition weightStatsOf (weights : list JS.number) : option weightStats :=
  match weights with
  | [] => None
  | w0 :: ws =>
      let sumW := sum weights in
      Some (mkWeightStats (JS.div sumW (JS.ofNat (List.length weights)))
                          (List.length weights)
                          (JS.Math_min w0 ws) (JS.Math_max w0 ws))
  end.

Definition calorieStatsOf (calories : list JS.number) : option calorieStats :=
  match calories with
  | [] => None
  | _ :: _ =>
      let sumC := sum calories in
      Some (mkCalorieStats
              (JS.Math_round (JS.div sumC (JS.ofNat (List.length calories))))
              (List.length calories))
  end.

Definition weightHtml (s : option weightStats) : summaryHtml :=
  match s with
  | None => Dash
  | Some x =>
      WeightHtml (JS.toFixed1 (ws_avg x)) (ws_n x)
                 (JS.toFixed1 (ws_min x)) (JS.toFixed1 (ws_max x))
  end.

Definition calHtml (s : option calorieStats) : summaryHtml :=
  match s with
  | None => Dash
  | Some x => CalorieHtml (JS.NumberToString (cs_avg x)) (cs_n x)
  end.

(** [renderSummary]: the contents of the weight box and of the calorie
    box. *)
Definition renderSummary (records : list Db.record) : summaryHtml * summaryHtml :=
  (weightHtml (weightStatsOf (summaryWeights records)),
   calHtml (calorieStatsOf (summaryCalories records))).

(** The filter and sort of [updateReport]. *)
Definition rangeQuery (start end_ : string) (all : list Db.record)
  : list Db.record :=
  JS.sort byDate
    (filter (fun r => JS.str_ge (Db.date r) start && JS.str_le (Db.date r) end_)
            all).

Definition updateReport (w : World) : World :=
  let start := reportStartDate (ui w) in
  let end_ := reportEndDate (ui w) in
  if String.eqb start "" || String.eqb end_ "" then w
  else
    let filtered := rangeQuery start end_ (Db.getAllRecords (db w)) in
    let '(sw, sc) := renderSummary filtered in
    mkWorld (db w) (state w)
            (set_report (renderReportTable filtered) sw sc (ui w))
            (alerts w) (downloads w).

(** ** Start-up and user input *)

(** [init], entered with the store as found and today's date. *)
Definition init (today : string) (s : Db.store) : World :=
  loadDataForDate today
    (mkWorld s (mkSTATE today morning None false)
             (mkUI "" "" "" "" [] Dash Dash) [] []).

(** The user edits the weight input, the calorie input. *)
Definition typeWeight (text : string) (w : World) : World :=
  mkWorld (db w) (state w) (set_inputs text (calorieInput (ui w)) (ui w))
          (alerts w) (downloads w).

Definition typeCalorie (text : string) (w : World) : World :=
  mkWorld (db w) (state w) (set_inputs (weightInput (ui w)) text (ui w))
          (alerts w) (downloads w).

(** The user edits the two date inputs of the report. *)
Definition typeRange (start end_ : string) (w : World) : World :=
  let u := ui w in
  mkWorld (db w) (state w)
          (mkUI (weightInput u) (calorieInput u) start end_
                (reportTableBody u) (summaryWeight u) (summaryCalorie u))
          (alerts w) (downloads w).

End Part000.

(* ================================================================== *)
(** * src/unnamed/part_001: the controller around [saveCurrent] *)
(* ================================================================== *)

Module Part001.

Inductive Mode : Type := morning | night.

Record state : Type := mkState {
  mode : Mode;
  currentDate : option string;
  currentRecord : option Db.record
}.

(** A line of the report table: the texts of its three cells. *)
Record tr : Type := mkTr {
  tdDate : string;
  tdW : string;
  tdDiff : string
}.

Record UI : Type := mkUI {
  dateInput : string;
  weightInput : string;
  calorieInput : string;
  reportStart : string;
  reportEnd : string;
  reportTableBody : list tr;
  summaryWeight : string;
  summaryCalorie : string
}.

(** [downloads] holds the text of each CSV file handed to the browser. *)
Record World : Type := mkWorld {
  db : Db.store;
  st : state;
  ui : UI;
  alerts : list string;
  downloads : list string
}.

Definition alert (msg : string) (w : World) : World :=
  mkWorld (db w) (st w) (ui w) (alerts w ++ [msg]) (downloads w).

(** ** Helpers *)

Definition safeNumber (v : JS.value) : option JS.number :=
  match v with
  | JS.Null | JS.Undefined => None
  | JS.Str EmptyString => None
  | _ =>
      let n := JS.ToNumber v in
      if JS.Number_isFinite n then Some n else None
  end.

Definition ofOption (o : option JS.number) : JS.value :=
  match o with Some n => JS.Num n | None => JS.Null end.

Section LocalTime.
(** The offset of local time from UTC, in milliseconds. *)
Variable LocalTZA : Z.

(** [parseISODate(s)]; the result is the time value of the date object,
    [None] for null. *)
Definition parseISODate (s : string) : option Z :=
  if String.eqb s "" then None
  else
    match JSDate.parse s with
    | None => None
    | Some t => Some (JSDate.setHours0 LocalTZA t)
    end.

Definition clampDateRange (start end_ : string) : option (Z * Z) :=
  match parseISODate start, parseISODate end_ with
  | Some s, Some e => if s >? e then None else Some (s, e)
  | _, _ => None
  end.

Definition inRange (start end_ : Z) (r : Db.record) : bool :=
  match parseISODate (Db.date r) with
  | None => false
  | Some d => (d >=? start) && (d <=? end_)
  end.
End LocalTime.

(** ** Main actions *)

Definition loadRecordForDate (dateISO : string) (w : World) : World :=
  let rec := Db.getRecord dateISO (db w) in
  let wv :=
    JS.coalesce (match rec with Some r => Db.weight r | None => JS.Undefined end)
                (JS.Str "") in
  let cv :=
    JS.coalesce
      (match rec with Some r => Db.total_calorie r | None => JS.Undefined end)
      (JS.Str "") in
  let u := ui w in
  mkWorld (db w)
          (mkState (mode (st w)) (Some dateISO) rec)
          (mkUI dateISO
                (if JS.isNullish wv then "" else JS.ToString wv)
                (if JS.isNullish cv then "" else JS.ToString cv)
                (reportStart u) (reportEnd u) (reportTableBody u)
                (summaryWeight u) (summaryCalorie u))
          (alerts w) (downloads w).

(** The merge of [saveCurrent]: the field of the current mode takes the
    entered value, the other one is kept from the stored record. *)
Definition mergeRecord (m : Mode) (dateISO : string)
           (weightVal calVal : option JS.number) (base : Db.record) : Db.record :=
  Db.mkRecord dateISO
    (match m with
     | morning => ofOption weightVal
     | night => JS.coalesce (Db.weight base) JS.Null
     end)
    (match m with
     | night => ofOption calVal
     | morning => JS.coalesce (Db.total_calorie base) JS.Null
     end).

(** The value of [UI.dateInput?.value || state.currentDate]. *)
Definition saveDate (w : World) : option string :=
  if negb (String.eqb (dateInput (ui w)) "") then Some (dateInput (ui w))
  else currentDate (st w).

Definition saveCurrent (w : World) : World :=
  match saveDate w with
  | None | Some EmptyString => w
  | Some dateISO =>
      let weightVal := safeNumber (JS.Str (weightInput (ui w))) in
      let calVal := safeNumber (JS.Str (calorieInput (ui w))) in
      let invalid :=
        match mode (st w) with
        | morning =>
            match weightVal with
            | None => Some "正しい体重を入力してください"%string
            | Some x =>
                if JS.le x (JS.ofZ 0)
                then Some "正しい体重を入力してください"%string
                else None
            end
        | night =>
            match calVal with
            | None => Some "正しいカロリーを入力してください"%string
            | Some x =>
                if JS.le x (JS.ofZ 0)
                then Some "正しいカロリーを入力してください"%string
                else None
            end
        end in
      match invalid with
      | Some msg => alert msg w
      | None =>
          let base :=
            match Db.getRecord dateISO (db w) with
            | Some r => r
            | None => Db.mkRecord dateISO JS.Null JS.Null
            end in
          let next := mergeRecord (mode (st w)) dateISO weightVal calVal base in
          loadRecordForDate dateISO
            (mkWorld (Db.upsertRecord next (db w)) (st w) (ui w)
                     (alerts w) (downloads w))
      end
  end.

Definition switchMode (m : Mode) (w : World) : World :=
  mkWorld (db w)
          (mkState m (currentDate (st w)) (currentRecord (st w)))
          (ui w) (alerts w) (downloads w).

(** ** CSV export *)

Definition byDate (a b : Db.record) : comparison :=
  JS.localeCompare (Db.date a) (Db.date b).

Definition newline : string := String (ascii_of_nat 10) EmptyString.

Definition csvHeader : string := String.concat "," ["date"; "weight"; "total_calorie"]%string.

Definition csvRow (r : Db.record) : string :=
  String.concat ","
    [ Db.date r;
      JS.joinElement (JS.coalesce (Db.weight r) (JS.Str ""));
      JS.joinElement (JS.coalesce (Db.total_calorie r) (JS.Str "")) ].

Definition csvLines (records : list Db.record) : list string :=
  csvHeader :: map csvRow (JS.sort byDate records).

Definition csvText (records : list Db.record) : string :=
  String.concat newline (csvLines records).

Definition exportCSV (w : World) : World :=
  mkWorld (db w) (st w) (ui w) (alerts w)
          (downloads w ++ [csvText (Db.getAllRecords (db w))]).

(** ** Report *)

Record diffRow : Type := mkDiffRow {
  dr_date : string;
  dr_weight : option JS.number;
  dr_diff : option JS.number
}.

(** The [forEach] of [updateReport], with [prevWeight] threaded through:
    every record gets a line. *)
Fixpoint reportRows (prevWeight : option JS.number) (records : list Db.record)
  : list diffRow :=
  match records with
  | [] => []
  | r :: rest =>
      let w := safeNumber (Db.weight r) in
      let diff :=
        match w, prevWeight with
        | Some x, Some p => Some (JS.sub x p)
        | _, _ => None
        end in
      let prev' := match w with Some x => Some x | None => prevWeight end in
      mkDiffRow (Db.date r) w diff :: reportRows prev' rest
  end.

Definition renderRow (x : diffRow) : tr :=
  mkTr (dr_date x)
       (match dr_weight x with None => "-" | Some w => JS.toFixed1 w end)
       (match dr_diff x with
        | None => "-"
        | Some d =>
            if JS.gt d (JS.ofZ 0) then ("+" ++ JS.toFixed1 d)%string
            else JS.toFixed1 d
        end).

(** [xs.map(safeNumber).filter(v => v !== null)] *)
Fixpoint present (xs : list (option JS.number)) : list JS.number :=
  match xs with
  | [] => []
  | Some v :: xs' => v :: present xs'
  | None :: xs' => present xs'
  end.

Definition sum (xs : list JS.number) : JS.number :=
  fold_left JS.add xs (JS.ofZ 0).

Definition reportWeights (records : list Db.record) : list JS.number :=
  present (map (fun r => safeNumber (Db.weight r)) records).

Definition reportCalories (records : list Db.record) : list JS.number :=
  present (map (fun r => safeNumber (Db.total_calorie r)) records).

(** The average and the count shown in a summary box, [None] for ["-"]. *)
Definition average (xs : list JS.number) : option (JS.number * nat) :=
  match xs with
  | [] => None
  | _ :: _ => Some (JS.div (sum xs) (JS.ofNat (List.length xs)), List.length xs)
  end.

Definition string_of_nat (n : nat) : string := JS.string_of_Z (Z.of_nat n).

Definition weightText (s : option (JS.number * nat)) : string :=
  match s with
  | None => "-"
  | Some (avg, n) =>
      ("平均 " ++ JS.toFixed1 avg ++ " / 件数 " ++ string_of_nat n)%string
  end.

Definition calorieText (s : option (JS.number * nat)) : string :=
  match s with
  | None => "-"
  | Some (avg, n) =>
      ("平均 " ++ JS.NumberToString (JS.Math_round avg) ++ " / 件数 "
         ++ string_of_nat n)%string
  end.

Section Report.
Variable LocalTZA : Z.

(** The filter and sort of [updateReport], for a range that passed
    [clampDateRange]. *)
Definition rangeQuery (start end_ : Z) (all : list Db.record)
  : list Db.record :=
  JS.sort byDate (filter (inRange LocalTZA start end_) all).

Definition updateReport (w : World) : World :=
  match clampDateRange LocalTZA (reportStart (ui w)) (reportEnd (ui w)) with
  | None => alert "開始日・終了日を正しく入力してください" w
  | Some (start, end_) =>
      let filtered := rangeQuery start end_ (Db.getAllRecords (db w)) in
      let u := ui w in
      mkWorld (db w) (st w)
              (mkUI (dateInput u) (weightInput u) (calorieInput u)
                    (reportStart u) (reportEnd u)
                    (map renderRow (reportRows None filtered))
                    (weightText (average (reportWeights filtered)))
                    (calorieText (average (reportCalories filtered))))
              (alerts w) (downloads w)
  end.
End Report.

(** ** Start-up and user input *)

(** [init], entered with the store as found and today's date, which the
    empty date input takes. *)
Definition init (today : string) (s : Db.store) : World :=
  loadRecordForDate today
    (switchMode morning
       (mkWorld s (mkState morning None None)
                (mkUI today "" "" "" "" [] "" "") [] [])).

(** The user edits the weight input, the calorie input. *)
Definition typeWeight (text : string) (w : World) : World :=
  let u := ui w in
  mkWorld (db w) (st w)
          (mkUI (dateInput u) text (calorieInput u) (reportStart u)
                (reportEnd u) (reportTableBody u) (summaryWeight u)
                (summaryCalorie u))
          (alerts w) (downloads w).

Definition typeCalorie (text : string) (w : World) : World :=
  let u := ui w in
  mkWorld (db w) (st w)
          (mkUI (dateInput u) (weightInput u) text (reportStart u)
                (reportEnd u) (reportTableBody u) (summaryWeight u)
                (summaryCalorie u))
          (alerts w) (downloads w).

(** The user edits the two date inputs of the report. *)
Definition typeRange (start end_ : string) (w : World) : World :=
  let u := ui w in
  mkWorld (db w) (st w)
          (mkUI (dateInput u) (weightInput u) (calorieInput u) start end_
                (reportTableBody u) (summaryWeight u) (summaryCalorie u))
          (alerts w) (downloads w).

(** The mode buttons: [switchMode] followed by a reload of the date. *)
Definition clickMode (today : string) (m : Mode) (w : World) : World :=
  let w1 := switchMode m w in
  loadRecordForDate
    (if negb (String.eqb (dateInput (ui w1)) "") then dateInput (ui w1)
     else today) w1.

End Part001.

(* ================================================================== *)
(** * Notions used to state the properties *)
(* ================================================================== *)

Module Spec.


Definition isSome {A : Type} (o : option A) : bool :=
  match o with Some _ => true | None => false end.





Definition hasWeight (x : Part001.diffRow) : bool :=
  isSome (Part001.dr_weight x).

End Spec.

(** Further notions for the summary boxes. *)
Module SpecSummary.

(** Kept by the filter [w !== null && w > 0]. *)
Definition positive (v : option JS.number) : bool :=
  match v with Some w => JS.gt w (JS.ofZ 0) | None => false end.






(** The integer [k] is the nearest one to [a], the upper one at a tie. *)
Definition isRounded (k : Z) (a : Q) : Prop :=
  (inject_Z k <= a + (1 # 2) /\ a + (1 # 2) < inject_Z (k + 1))%Q.

End SpecSummary.

(** Further notions for saving. *)
Module SpecSave.

(** [Math.round(v * 10) / 10]. *)
Definition round1 (v : JS.number) : JS.number :=
  JS.div (JS.Math_round (JS.mul v (JS.ofZ 10))) (JS.ofZ 10).

(** [x] has one decimal place. *)
Definition oneDecimal (x : Q) : Prop :=
  exists k : Z, (x == inject_Z k / inject_Z 10)%Q.

(** [x] is the tenth nearest to [v], the upper one at a tie. *)
Definition nearestTenth (x v : Q) : Prop :=
  exists k : Z, (x == inject_Z k / inject_Z 10)%Q
                /\ SpecSummary.isRounded k (v * inject_Z 10).

(** The record that [handleSave] of part_000 builds from the texts of
    the two inputs. *)
Definition recordOfInputs (date wtxt ctxt : string) : Db.record :=
  Db.mkRecord date
    (if String.eqb wtxt "" then JS.Null
     else JS.Num (round1 (JS.parseFloat_string wtxt)))
    (if String.eqb ctxt "" then JS.Null
     else JS.Num (JS.parseInt_string ctxt)).

(** The stored record of a date, or the empty one. *)
Definition baseRecord (d : string) (s : Db.store) : Db.record :=
  match Db.getRecord d s with
  | Some r => r
  | None => Db.mkRecord d JS.Null JS.Null
  end.

(** An absent field reads the same whether null or undefined. *)
Definition normalize (v : JS.value) : JS.value := JS.coalesce v JS.Null.

End SpecSave.

(** Further notions for the range query and the export. *)
Module SpecRange.

(** A calendar date in the form [YYYY-MM-DD]. *)
Definition isISODate (s : string) : bool := Spec.isSome (JSDate.parseYMD s).

(** [start <= date <= end], on the texts. *)
Definition inWindow (start end_ : string) (r : Db.record) : bool :=
  String.leb start (Db.date r) && String.leb (Db.date r) end_.

(** Ascending by date. *)
Definition dateSorted (l : list Db.record) : Prop :=
  StronglySorted (fun a b => String.leb (Db.date a) (Db.date b) = true) l.

(** [result] holds exactly the records of [all] inside the window, in
    ascending date order. *)
Definition isRangeResult (start end_ : string) (all result : list Db.record)
  : Prop :=
  Permutation result (filter (inWindow start end_) all) /\ dateSorted result.

(** [result] holds exactly the records of [all], in ascending date order. *)
Definition isSortedCopy (all result : list Db.record) : Prop :=
  Permutation result all /\ dateSorted result.



End SpecRange.

(** Further notions: sorting by a text key, the store, calendar dates. *)
Module SpecSort.

Definition byKey {A : Type} (key : A -> string) (a b : A) : comparison :=
  String.compare (key a) (key b).

(** [a] may stand before [b]: its key is not greater. *)
Definition key_le {A : Type} (key : A -> string) (a b : A) : Prop :=
  String.leb (key a) (key b) = true.

End SpecSort.

Module SpecStore.

(** The keys grow strictly along the store. *)
Definition keySorted (s : Db.store) : Prop :=
  StronglySorted (fun a b => String.compare (Db.date a) (Db.date b) = Lt) s.

End SpecStore.

Module SpecDate.

(** Lexicographic combination of two comparisons. *)
Definition lex (c1 c2 : comparison) : comparison :=
  match c1 with Eq => c2 | _ => c1 end.

(** The shape of a text that [parseYMD] reads. *)
Inductive ymdText : string -> Z -> Z -> Z -> Prop :=
| ymd_text (y1 y2 y3 y4 m1 m2 d1 d2 : ascii) (a b c d e f g h : Z) :
    JS.digit_of y1 = Some a -> JS.digit_of y2 = Some b ->
    JS.digit_of y3 = Some c -> JS.digit_of y4 = Some d ->
    JS.digit_of m1 = Some e -> JS.digit_of m2 = Some f ->
    JS.digit_of d1 = Some g -> JS.digit_of d2 = Some h ->
    JSDate.validYMD (JSDate.num4 a b c d) (JSDate.num2 e f) (JSDate.num2 g h) = true ->
    ymdText (String y1 (String y2 (String y3 (String y4 (String "-"
              (String m1 (String m2 (String "-"
                (String d1 (String d2 EmptyString))))))))))
            (JSDate.num4 a b c d) (JSDate.num2 e f) (JSDate.num2 g h).

End SpecDate.

(* ================================================================== *)
(** * Sample runs *)
(* ================================================================== *)

Module Examples.

Definition day : string := "2024-01-01".

(** Three days of records, written out of order. *)
Definition rec1 : Db.record :=
  Db.mkRecord "2024-01-01" (JS.Num (JS.Fin 70)) JS.Null.
Definition rec2 : Db.record :=
  Db.mkRecord "2024-01-02" (JS.Num (JS.Fin (139 # 2))) (JS.Num (JS.Fin 1800)).
Definition rec3 : Db.record :=
  Db.mkRecord "2024-01-03" JS.Null (JS.Num (JS.Fin 2000)).

Definition threeDays : Db.store :=
  Db.run [Db.UpsertRecord rec3; Db.UpsertRecord rec1; Db.GetRecord day;
          Db.UpsertRecord rec2; Db.GetAllRecords].

(** part_000: a weight in the morning, zero calories at night, another
    date picked and the first one picked again, the weight corrected. *)
Definition started : Part000.World := Part000.init day Db.empty.

Definition weighed : Part000.World :=
  Part000.handleSave (Part000.typeWeight "70" started).

Definition zeroNight : Part000.World :=
  Part000.handleSave
    (Part000.typeCalorie "0" (Part000.switchMode Part000.night weighed)).

Definition awayNight : Part000.World :=
  Part000.handleDateChange "2024-01-02" zeroNight.

Definition reloaded : Part000.World := Part000.handleDateChange day awayNight.

Definition reweighed : Part000.World :=
  Part000.handleSave
    (Part000.typeWeight "71" (Part000.switchMode Part000.morning reloaded)).

(** part_000: entries that the checks turn down. *)
Definition badWeight : Part000.World :=
  Part000.handleSave (Part000.typeWeight "-3" started).

Definition badCalorie : Part000.World :=
  Part000.handleSave
    (Part000.typeCalorie "-5" (Part000.switchMode Part000.night weighed)).

(** part_000: the report and the export over the three days. *)
Definition report000 : Part000.World :=
  Part000.updateReport
    (Part000.typeRange "2024-01-01" "2024-01-03" (Part000.init day threeDays)).


(** part_001: a weight with two decimals, then zero calories at night. *)
Definition started001 : Part001.World := Part001.init day Db.empty.

Definition weighed001 : Part001.World :=
  Part001.saveCurrent (Part001.typeWeight "75.26" started001).

Definition nightMode001 : Part001.World :=
  Part001.clickMode day Part001.night weighed001.

Definition zeroNight001 : Part001.World :=
  Part001.saveCurrent (Part001.typeCalorie "0" nightMode001).

Definition fedNight001 : Part001.World :=
  Part001.saveCurrent (Part001.typeCalorie "1800" nightMode001).

Definition badWeight001 : Part001.World :=
  Part001.saveCurrent (Part001.typeWeight "0" started001).

(** Local time nine hours ahead of UTC. *)
Definition jst : Z := 9 * 3600000.

(** part_001: the report over the three days, then over a range given
    backwards. *)
Definition reportShown : Part001.World :=
  Part001.updateReport jst
    (Part001.typeRange "2024-01-01" "2024-01-03" (Part001.init day threeDays)).

Definition reportReversed : Part001.World :=
  Part001.updateReport jst
    (Part001.typeRange "2024-01-02" "2024-01-01" reportShown).


End Examples.

(** Further notions for runs of store operations. *)
Module SpecRun.

(** The record of the last [upsertRecord] for date [d] in a run, if any. *)
Definition lastWrite (d : string) (ops : list Db.op) : option Db.record :=
  fold_left
    (fun acc o =>
       match o with
       | Db.UpsertRecord r => if String.eqb (Db.date r) d then Some r else acc
       | Db.GetRecord _ | Db.GetAllRecords => acc
       end)
    ops None.

End SpecRun.

(* ================================================================== *)
(** * Calendar fields of a time value *)
(* ================================================================== *)

(** The part of the host's [Date] that the date helpers of the two
    controllers use: the calendar fields of a time value in local time
    ([getFullYear], [getMonth], [getDate]), [setDate], [setMonth], and
    the date part of [toISOString].  Local time is at the constant offset
    [LocalTZA] from UTC, as for [JSDate.setHours0]. *)
Module JSCal.
Import JSDate.

Definition Day (t : Z) : Z := t / msPerDay.
Definition TimeWithinDay (t : Z) : Z := t mod msPerDay.

(** [YearFromTime] on day numbers: the largest year whose first day is
    not after day [d].  The year is estimated from the mean length of a
    year and put right by one step where needed. *)
Definition YearFromDay (d : Z) : Z :=
  let y := 1970 + (d * 400) / 146097 in
  if d <? DayFromYear y then y - 1
  else if DayFromYear (y + 1) <=? d then y + 1
  else y.

Definition DayWithinYear (d : Z) : Z := d - DayFromYear (YearFromDay d).

(** [MonthFromTime] on day numbers, the month counted from 1. *)
Definition MonthFromDay (d : Z) : Z :=
  let n := DayWithinYear d in
  let l := if InLeapYear (YearFromDay d) then 1 else 0 in
  if n <? 31 then 1
  else if n <? 59 + l then 2
  else if n <? 90 + l then 3
  else if n <? 120 + l then 4
  else if n <? 151 + l then 5
  else if n <? 181 + l then 6
  else if n <? 212 + l then 7
  else if n <? 243 + l then 8
  else if n <? 273 + l then 9
  else if n <? 304 + l then 10
  else if n <? 334 + l then 11
  else 12.

(** [DateFromTime] on day numbers. *)
Definition DateFromDay (d : Z) : Z :=
  DayWithinYear d - DaysBeforeMonth (YearFromDay d) (MonthFromDay d) + 1.

(** [MakeDay(year, month, date)] with the month counted from 0 and free
    to run over the ends of the year. *)
Definition MakeDay0 (y m dt : Z) : Z :=
  MakeDay (y + m / 12) (m mod 12 + 1) dt.

Section Local.
Variable LocalTZA : Z.

Definition LocalDay (t : Z) : Z := Day (t + LocalTZA).

Definition getFullYear (t : Z) : Z := YearFromDay (LocalDay t).
Definition getMonth (t : Z) : Z := MonthFromDay (LocalDay t) - 1.
Definition getDate (t : Z) : Z := DateFromDay (LocalDay t).

(** [d.setDate(dt)] and [d.setMonth(m)]: the new time value. *)
Definition setDate (dt : Z) (t : Z) : Z :=
  MakeDay0 (getFullYear t) (getMonth t) dt * msPerDay
  + TimeWithinDay (t + LocalTZA) - LocalTZA.

Definition setMonth (m : Z) (t : Z) : Z :=
  MakeDay0 (getFullYear t) m (getDate t) * msPerDay
  + TimeWithinDay (t + LocalTZA) - LocalTZA.

End Local.

(** [s.padStart(n, '0')]. *)
Definition padStart0 (n : nat) (s : string) : string :=
  (String.concat "" (repeat "0"%string (n - String.length s)) ++ s)%string.

(** The text [`${y}-${mm}-${dd}`] built by [toISODate] and [formatDate]
    from the three calendar fields. *)
Definition ymdString (y m d : Z) : string :=
  (JS.string_of_Z y ++ "-" ++ padStart0 2 (JS.string_of_Z m)
     ++ "-" ++ padStart0 2 (JS.string_of_Z d))%string.

(** [d.toISOString().split('T')[0]]: the UTC date, the year in four
    digits, or in six with a sign outside 0..9999. *)
Definition toISOString_date (t : Z) : string :=
  let y := YearFromDay (Day t) in
  let year :=
    if (0 <=? y) && (y <=? 9999) then padStart0 4 (JS.string_of_Z y)
    else
      let sign := if y <? 0 then "-"%string else "+"%string in
      (sign ++ padStart0 6 (JS.string_of_Z (Z.abs y)))%string in
  (year ++ "-" ++ padStart0 2 (JS.string_of_Z (MonthFromDay (Day t)))
     ++ "-" ++ padStart0 2 (JS.string_of_Z (DateFromDay (Day t))))%string.

End JSCal.
(* ================================================================== *)
(** * src/unnamed/part_000: dates of the report and quick ranges *)
(* ================================================================== *)

Module Dates000.

(** [STATE.currentDate] as the module sets it when loaded at time [now]:
    [new Date().toISOString().split('T')[0]]. *)
Definition initialDate (now : Z) : string := JSCal.toISOString_date now.

Section Clock.
Variable LocalTZA : Z.

(** [formatDate(d)] and [toISODate(d)], two copies of one function. *)
Definition formatDate (d : Z) : string :=
  JSCal.ymdString (JSCal.getFullYear LocalTZA d)
                  (JSCal.getMonth LocalTZA d + 1)
                  (JSCal.getDate LocalTZA d).

Definition toISODate (d : Z) : string :=
  JSCal.ymdString (JSCal.getFullYear LocalTZA d)
                  (JSCal.getMonth LocalTZA d + 1)
                  (JSCal.getDate LocalTZA d).

(** [openReport]; [today] and [ago7] are the times of its two
    [new Date()] (the un-hiding of the report view is left out). *)
Definition openReport (today ago7 : Z) (w : Part000.World) : Part000.World :=
  let ago7' :=
    JSCal.setDate LocalTZA (JSCal.getDate LocalTZA today - 6) ago7 in
  Part000.updateReport
    (Part000.typeRange (formatDate ago7') (formatDate today) w).

(** The M/D text of the date column of [renderReportTable]. *)
Definition dateStr (date : string) : string :=
  match JSDate.parse date with
  | None => "NaN/NaN"
  | Some t =>
      (JS.string_of_Z (JSCal.getMonth LocalTZA t + 1) ++ "/"
         ++ JS.string_of_Z (JSCal.getDate LocalTZA t))%string
  end.

Definition addMonths (date months : Z) : Z :=
  let d := date in
  let day := JSCal.getDate LocalTZA d in
  let d1 := JSCal.setMonth LocalTZA (JSCal.getMonth LocalTZA d + months) d in
  if negb (JSCal.getDate LocalTZA d1 =? day)
  then JSCal.setDate LocalTZA 0 d1
  else d1.

(** The [start] and [end] dates of [applyQuickRange(key, ...)] at time
    [now]. *)
Definition quickRange (now : Z) (key : string) : Z * Z :=
  let end_ := JSDate.setHours0 LocalTZA now in
  let start :=
    if String.eqb key "7d"
    then JSCal.setDate LocalTZA (JSCal.getDate LocalTZA end_ - 6) end_
    else if String.eqb key "1m" then addMonths end_ (-1)
    else if String.eqb key "3m" then addMonths end_ (-3)
    else if String.eqb key "1y" then addMonths end_ (-12)
    else end_ in
  (start, end_).

(** [applyQuickRange(key, UI.reportStartDate, UI.reportEndDate, ...)], as
    the quick buttons of the report call it: the two inputs are set (the
    highlighting of the buttons is left out). *)
Definition applyQuickRange (now : Z) (key : string) (w : Part000.World)
  : Part000.World :=
  let '(start, end_) := quickRange now key in
  Part000.typeRange (toISODate start) (toISODate end_) w.

End Clock.
End Dates000.

(* ================================================================== *)
(** * src/unnamed/part_001: dates of the report, and the graph *)
(* ================================================================== *)

Module Dates001.
Section Clock.
Variable LocalTZA : Z.

Definition toISODate (d : Z) : string :=
  JSCal.ymdString (JSCal.getFullYear LocalTZA d)
                  (JSCal.getMonth LocalTZA d + 1)
                  (JSCal.getDate LocalTZA d).

(** [applyQuickReport(days)] at time [now]. *)
Definition applyQuickReport (now days : Z) (w : Part001.World)
  : Part001.World :=
  let end_ := JSDate.setHours0 LocalTZA now in
  let start :=
    JSCal.setDate LocalTZA
      (JSCal.getDate LocalTZA end_ - Z.max 0 (days - 1)) end_ in
  Part001.updateReport LocalTZA
    (Part001.typeRange (toISODate start) (toISODate end_) w).

(** [openReport] at time [now] (the switch of the two views is left
    out). *)
Definition openReport (now : Z) (w : Part001.World) : Part001.World :=
  let end_ := JSDate.setHours0 LocalTZA now in
  let start :=
    JSCal.setDate LocalTZA (JSCal.getDate LocalTZA end_ - 29) end_ in
  Part001.updateReport LocalTZA
    (Part001.typeRange (toISODate start) (toISODate end_) w).

End Clock.
End Dates001.

Module Graph001.

Inductive Metric : Type := weight | calorie.

(** What is handed to the chart library: the labels, the series and the
    name of the series. *)
Record Chart : Type := mkChart {
  labels : list string;
  data : list (option JS.number);
  label : string
}.

(** The graph view beside the rest of the page: the two date inputs, the
    chosen metric, the chart on the canvas, whether the canvas is
    displayed and whether the note for an empty graph is hidden. *)
Record World : Type := mkWorld {
  page : Part001.World;
  graphStartDate : string;
  graphEndDate : string;
  metric : Metric;
  chart : option Chart;
  canvasDisplayed : bool;
  emptyNoteHidden : bool
}.

Definition alert (msg : string) (w : World) : World :=
  mkWorld (Part001.alert msg (page w)) (graphStartDate w) (graphEndDate w)
          (metric w) (chart w) (canvasDisplayed w) (emptyNoteHidden w).

Definition setGraphTab (m : Metric) (w : World) : World :=
  mkWorld (page w) (graphStartDate w) (graphEndDate w) m (chart w)
          (canvasDisplayed w) (emptyNoteHidden w).

Definition set_dates (start end_ : string) (w : World) : World :=
  mkWorld (page w) start end_ (metric w) (chart w)
          (canvasDisplayed w) (emptyNoteHidden w).

Section Clock.
Variable LocalTZA : Z.

(** The label of a record: [`${mm}/${dd}`] of
    [parseISODate(r.date) || new Date(r.date)]. *)
Definition labelOf (r : Db.record) : string :=
  match Part001.parseISODate LocalTZA (Db.date r) with
  | Some d =>
      (JS.string_of_Z (JSCal.getMonth LocalTZA d + 1) ++ "/"
         ++ JS.string_of_Z (JSCal.getDate LocalTZA d))%string
  | None =>
      match JSDate.parse (Db.date r) with
      | Some d =>
          (JS.string_of_Z (JSCal.getMonth LocalTZA d + 1) ++ "/"
             ++ JS.string_of_Z (JSCal.getDate LocalTZA d))%string
      | None => "NaN/NaN"
      end
  end.

(** [renderGraph(records)], the canvas and the chart library being
    there. *)
Definition renderGraph (records : list Db.record) (w : World) : World :=
  let isWeight := match metric w with weight => true | calorie => false end in
  let values :=
    map (fun r => Part001.safeNumber
                    (if isWeight then Db.weight r else Db.total_calorie r))
        records in
  let hasAny := existsb (fun v => match v with Some _ => true | None => false end)
                        values in
  if negb hasAny then
    mkWorld (page w) (graphStartDate w) (graphEndDate w) (metric w)
            None false false
  else
    mkWorld (page w) (graphStartDate w) (graphEndDate w) (metric w)
            (Some (mkChart (map labelOf records) values
                           (if isWeight then "体重 (kg)" else "カロリー (kcal)")))
            true true.

Definition updateGraph (w : World) : World :=
  match Part001.clampDateRange LocalTZA (graphStartDate w) (graphEndDate w) with
  | None => alert "開始日・終了日を正しく入力してください" w
  | Some (start, end_) =>
      let all := Db.getAllRecords (Part001.db (page w)) in
      let records :=
        JS.sort Part001.byDate (filter (Part001.inRange LocalTZA start end_) all) in
      renderGraph records w
  end.

(** [applyQuickRangeDays(days)] at time [now]. *)
Definition applyQuickRangeDays (now days : Z) (w : World) : World :=
  let end_ := JSDate.setHours0 LocalTZA now in
  let start :=
    JSCal.setDate LocalTZA
      (JSCal.getDate LocalTZA end_ - Z.max 0 (days - 1)) end_ in
  updateGraph
    (set_dates (Dates001.toISODate LocalTZA start)
               (Dates001.toISODate LocalTZA end_) w).

(** [openGraph] at time [now]. *)
Definition openGraph (now : Z) (w : World) : World :=
  let end_ := JSDate.setHours0 LocalTZA now in
  let start :=
    JSCal.setDate LocalTZA (JSCal.getDate LocalTZA end_ - 6) end_ in
  updateGraph
    (setGraphTab weight
       (set_dates (Dates001.toISODate LocalTZA start)
                  (Dates001.toISODate LocalTZA end_) w)).

(** [closeGraph]: the chart is destroyed. *)
Definition closeGraph (w : World) : World :=
  mkWorld (page w) (graphStartDate w) (graphEndDate w) (metric w) None
          (canvasDisplayed w) (emptyNoteHidden w).

End Clock.
End Graph001.

(* ================================================================== *)
(** * Properties *)
(* ================================================================== *)

(** ** Order on strings *)

Module StrOrder.

Lemma compare_refl (s : string) : String.compare s s = Eq.
Proof. now apply String_as_OT.cmp_eq. Qed.

Lemma compare_eq (a b : string) : String.compare a b = Eq -> a = b.
Proof. apply String_as_OT.cmp_eq. Qed.

Lemma compare_flip (a b : string) :
  String.compare b a = CompOpp (String.compare a b).
Proof. apply String_as_OT.cmp_antisym. Qed.

Lemma compare_lt_trans (a b c : string) :
  String.compare a b = Lt -> String.compare b c = Lt -> String.compare a c = Lt.
Proof.
  intros H1 H2. apply String_as_OT.cmp_lt.
  apply String_as_OT.lt_trans with b; now apply String_as_OT.cmp_lt.
Qed.

Lemma compare_lt_irrefl (a : string) : String.compare a a <> Lt.
Proof. rewrite compare_refl. discriminate. Qed.

Lemma leb_refl (s : string) : String.leb s s = true.
Proof. unfold String.leb. now rewrite compare_refl. Qed.

Lemma lt_leb (a b : string) : String.compare a b = Lt -> String.leb a b = true.
Proof. unfold String.leb. now intros ->. Qed.

Lemma not_lt_leb (a b : string) :
  String.compare a b <> Lt -> String.leb b a = true.
Proof.
  unfold String.leb. rewrite (compare_flip a b).
  destruct (String.compare a b); simpl; congruence.
Qed.

Lemma leb_false_lt (a b : string) :
  String.leb a b = false -> String.compare b a = Lt.
Proof.
  unfold String.leb. rewrite (compare_flip a b).
  destruct (String.compare a b); simpl; congruence.
Qed.

Lemma leb_cases (a b : string) :
  String.leb a b = true -> String.compare a b = Lt \/ a = b.
Proof.
  unfold String.leb. destruct (String.compare a b) eqn:E; intros H.
  - right. now apply compare_eq.
  - now left.
  - discriminate.
Qed.

Lemma leb_trans (a b c : string) :
  String.leb a b = true -> String.leb b c = true -> String.leb a c = true.
Proof.
  intros H1 H2.
  destruct (leb_cases _ _ H1) as [L1 | ->]; [| exact H2].
  destruct (leb_cases _ _ H2) as [L2 | <-]; [| exact H1].
  apply lt_leb. now apply compare_lt_trans with b.
Qed.


End StrOrder.

(** ** The stable sort, for a comparison of string keys *)

Section SortByKey.
Context {A : Type}.
Variable key : A -> string.

Local Abbreviation byKey := (SpecSort.byKey key).
Local Abbreviation key_le := (SpecSort.key_le key).

Lemma insert_perm (x : A) (l : list A) :
  Permutation (JS.insert byKey x l) (x :: l).
Proof.
  induction l as [| y l IH]; simpl.
  - apply Permutation_refl.
  - destruct (byKey x y).
    + apply perm_trans with (y :: x :: l); [now apply perm_skip | apply perm_swap].
    + apply Permutation_refl.
    + apply perm_trans with (y :: x :: l); [now apply perm_skip | apply perm_swap].
Qed.

Lemma sort_acc_perm (l acc : list A) :
  Permutation (fold_left (fun a x => JS.insert byKey x a) l acc) (l ++ acc).
Proof.
  revert acc. induction l as [| x l IH]; intros acc; simpl.
  - apply Permutation_refl.
  - eapply perm_trans; [apply IH |].
    eapply perm_trans; [apply Permutation_app_head, insert_perm |].
    apply Permutation_sym, Permutation_middle.
Qed.

Lemma sort_perm (l : list A) : Permutation (JS.sort byKey l) l.
Proof.
  unfold JS.sort. eapply perm_trans; [apply sort_acc_perm |].
  now rewrite app_nil_r.
Qed.

Lemma sort_In (l : list A) (x : A) : In x (JS.sort byKey l) <-> In x l.
Proof.
  split; apply Permutation_in;
    [apply sort_perm | apply Permutation_sym, sort_perm].
Qed.

Lemma sort_length (l : list A) : List.length (JS.sort byKey l) = List.length l.
Proof. apply Permutation_length, sort_perm. Qed.

Lemma insert_sorted (x : A) (l : list A) :
  StronglySorted key_le l -> StronglySorted key_le (JS.insert byKey x l).
Proof.
  induction 1 as [| y l Hs IH Hall]; simpl.
  - constructor; constructor.
  - destruct (byKey x y) eqn:E; unfold SpecSort.byKey in E.
    + constructor; [now apply IH |].
      apply Forall_forall. intros z Hz.
      apply (Permutation_in _ (insert_perm x l)) in Hz.
      destruct Hz as [<- | Hz].
      * unfold SpecSort.key_le. apply StrOrder.not_lt_leb. rewrite E. discriminate.
      * rewrite Forall_forall in Hall. now apply Hall.
    + constructor; [now constructor |].
      constructor; [now apply StrOrder.lt_leb |].
      apply Forall_forall. intros z Hz. rewrite Forall_forall in Hall.
      unfold SpecSort.key_le. apply StrOrder.leb_trans with (key y);
        [now apply StrOrder.lt_leb | now apply Hall].
    + constructor; [now apply IH |].
      apply Forall_forall. intros z Hz.
      apply (Permutation_in _ (insert_perm x l)) in Hz.
      destruct Hz as [<- | Hz].
      * unfold SpecSort.key_le. apply StrOrder.not_lt_leb. rewrite E. discriminate.
      * rewrite Forall_forall in Hall. now apply Hall.
Qed.

Lemma sort_acc_sorted (l acc : list A) :
  StronglySorted key_le acc ->
  StronglySorted key_le (fold_left (fun a x => JS.insert byKey x a) l acc).
Proof.
  revert acc. induction l as [| x l IH]; intros acc Hs; simpl.
  - exact Hs.
  - now apply IH, insert_sorted.
Qed.

Lemma sort_sorted (l : list A) : StronglySorted key_le (JS.sort byKey l).
Proof. apply sort_acc_sorted. constructor. Qed.
End SortByKey.

(** ** The record store *)

Module DbFacts.

Import SpecStore.

Lemma put_In (r x : Db.record) (s : Db.store) :
  In x (Db.put r s) -> x = r \/ In x s.
Proof.
  induction s as [| y s IH]; simpl.
  - intros [<- | []]. now left.
  - destruct (String.compare (Db.date r) (Db.date y)); simpl.
    + intros [<- | H]; [now left | right; now right].
    + intros [<- | H]; [now left | now right].
    + intros [<- | H]; [right; now left |].
      destruct (IH H) as [-> | H']; [now left | right; now right].
Qed.

Lemma put_keySorted (r : Db.record) (s : Db.store) :
  keySorted s -> keySorted (Db.put r s).
Proof.
  unfold keySorted. induction 1 as [| y s Hs IH Hall]; simpl.
  - constructor; constructor.
  - destruct (String.compare (Db.date r) (Db.date y)) eqn:E.
    + apply StrOrder.compare_eq in E.
      constructor; [exact Hs |]. now rewrite E.
    + constructor; [now constructor |].
      constructor; [exact E |].
      rewrite Forall_forall in *. intros z Hz.
      apply StrOrder.compare_lt_trans with (Db.date y); [exact E | now apply Hall].
    + constructor; [exact IH |].
      rewrite Forall_forall in *. intros z Hz.
      destruct (put_In _ _ _ Hz) as [-> | Hz'].
      * rewrite StrOrder.compare_flip, E. reflexivity.
      * now apply Hall.
Qed.

Lemma step_keySorted (s : Db.store) (o : Db.op) :
  keySorted s -> keySorted (Db.step s o).
Proof. destruct o; simpl; auto using put_keySorted. Qed.

Lemma fold_step_keySorted (ops : list Db.op) (s : Db.store) :
  keySorted s -> keySorted (fold_left Db.step ops s).
Proof.
  revert s. induction ops as [| o ops IH]; intros s Hs; simpl.
  - exact Hs.
  - now apply IH, step_keySorted.
Qed.

Lemma run_keySorted (ops : list Db.op) : keySorted (Db.run ops).
Proof. apply fold_step_keySorted. constructor. Qed.

Lemma keySorted_NoDup (s : Db.store) : keySorted s -> NoDup (map Db.date s).
Proof.
  induction 1 as [| y s Hs IH Hall]; simpl; constructor; [| exact IH].
  rewrite in_map_iff. intros (z & Hz & Hin).
  rewrite Forall_forall in Hall. specialize (Hall z Hin).
  rewrite Hz in Hall. now apply (StrOrder.compare_lt_irrefl (Db.date y)).
Qed.

Lemma get_put_same (r : Db.record) (s : Db.store) :
  Db.get (Db.date r) (Db.put r s) = Some r.
Proof.
  induction s as [| y s IH]; simpl.
  - now rewrite String.eqb_refl.
  - destruct (String.compare (Db.date r) (Db.date y)) eqn:E; simpl.
    + now rewrite String.eqb_refl.
    + now rewrite String.eqb_refl.
    + destruct (String.eqb (Db.date y) (Db.date r)) eqn:Q; [| exact IH].
      apply String.eqb_eq in Q. rewrite Q, StrOrder.compare_refl in E.
      discriminate.
Qed.

Lemma get_put_other (r : Db.record) (k : string) (s : Db.store) :
  k <> Db.date r -> Db.get k (Db.put r s) = Db.get k s.
Proof.
  intros Hk. induction s as [| y s IH]; simpl.
  - destruct (String.eqb (Db.date r) k) eqn:Q; [| reflexivity].
    apply String.eqb_eq in Q. congruence.
  - destruct (String.compare (Db.date r) (Db.date y)) eqn:E; simpl.
    + apply StrOrder.compare_eq in E.
      destruct (String.eqb (Db.date r) k) eqn:Q.
      * apply String.eqb_eq in Q. congruence.
      * now rewrite <- E, Q.
    + destruct (String.eqb (Db.date r) k) eqn:Q; [| reflexivity].
      apply String.eqb_eq in Q. congruence.
    + now rewrite IH.
Qed.

Lemma get_Some_date (k : string) (s : Db.store) (r : Db.record) :
  Db.get k s = Some r -> Db.date r = k /\ In r s.
Proof.
  induction s as [| y s IH]; simpl; [discriminate |].
  destruct (String.eqb (Db.date y) k) eqn:Q.
  - intros [= <-]. apply String.eqb_eq in Q. split; [exact Q | now left].
  - intros H. destruct (IH H). split; [assumption | now right].
Qed.

(** On a store in key order, writing under a key that is present keeps
    the number of records. *)
Lemma put_length_present (r : Db.record) (s : Db.store) :
  keySorted s -> Db.get (Db.date r) s <> None ->
  List.length (Db.put r s) = List.length s.
Proof.
  unfold keySorted. induction 1 as [| y s Hs IH Hall]; simpl.
  - congruence.
  - destruct (String.eqb (Db.date y) (Db.date r)) eqn:Q.
    + apply String.eqb_eq in Q. rewrite Q, StrOrder.compare_refl. reflexivity.
    + intros Hg. destruct (String.compare (Db.date r) (Db.date y)) eqn:E; simpl.
      * reflexivity.
      * exfalso. destruct (Db.get (Db.date r) s) as [z |] eqn:G; [| congruence].
        apply get_Some_date in G. destruct G as [Hd Hin].
        rewrite Forall_forall in Hall. specialize (Hall z Hin).
        rewrite Hd in Hall.
        apply (StrOrder.compare_lt_irrefl (Db.date r)).
        now apply StrOrder.compare_lt_trans with (Db.date y).
      * now rewrite IH.
Qed.

End DbFacts.

(** ** The diff column *)

Module DiffFacts.
Import Spec.






(** part_001: one line per record; the lines with a weight carry the
    diffs, the others none. *)
Lemma reportRows_length (rs : list Db.record) (prev : option JS.number) :
  List.length (Part001.reportRows prev rs) = List.length rs.
Proof.
  revert prev. induction rs as [| r rs IH]; intros prev; simpl; [reflexivity |].
  now rewrite IH.
Qed.





End DiffFacts.

(** ** The summary boxes *)

Module SummaryFacts.
Import SpecSummary.




















End SummaryFacts.

(** ** Saving *)

Module SaveFacts.
Import SpecSave.

Lemma gt0_valid (v : JS.number) :
  JS.gt v (JS.ofZ 0) = true -> JS.isNaN v || JS.le v (JS.ofZ 0) = false.
Proof.
  destruct v as [| q]; [discriminate |].
  unfold JS.gt, JS.lt, JS.le, JS.Qltb, JS.ofZ. simpl.
  now intros ->%negb_true_iff.
Qed.

Lemma ge0_valid (v : JS.number) :
  JS.ge v (JS.ofZ 0) = true -> JS.isNaN v || JS.lt v (JS.ofZ 0) = false.
Proof.
  destruct v as [| q]; [discriminate |].
  unfold JS.ge, JS.lt, JS.le, JS.Qltb, JS.ofZ. simpl.
  now intros ->.
Qed.

Lemma le0_not_gt0 (v : JS.number) :
  JS.le v (JS.ofZ 0) = true -> JS.gt v (JS.ofZ 0) = false.
Proof.
  destruct v as [| q]; [discriminate |].
  unfold JS.gt, JS.lt, JS.le, JS.Qltb, JS.ofZ. simpl.
  now intros ->.
Qed.

(** The rounding of [handleSave]. *)
Lemma round1_fin (v : Q) :
  exists x, round1 (JS.Fin v) = JS.Fin x /\ nearestTenth x v.
Proof.
  unfold round1, JS.mul, JS.lift2, JS.Math_round, JS.div, JS.ofZ.
  change (Qeq_bool (inject_Z 10) 0) with false. cbv iota.
  eexists. split; [reflexivity |].
  exists (Qfloor (Qred (v * inject_Z 10) + (1 # 2))). split.
  - apply Qred_correct.
  - rewrite (Qfloor_comp _ (v * inject_Z 10 + (1 # 2))).
    + split; [apply Qfloor_le | apply Qlt_floor].
    + now rewrite Qred_correct.
Qed.

Lemma nearestTenth_oneDecimal (x v : Q) : nearestTenth x v -> oneDecimal x.
Proof. intros (k & Hk & _). now exists k. Qed.

(** *** part_000 *)

Lemma alert_db (msg : string) (w : Part000.World) :
  Part000.db (Part000.alert msg w) = Part000.db w.
Proof. reflexivity. Qed.

Lemma saveToDb_db (w : Part000.World) :
  Part000.db (Part000.saveToDb w)
  = Db.upsertRecord
      (recordOfInputs (Part000.currentDate (Part000.state w))
                      (Part000.weightInput (Part000.ui w))
                      (Part000.calorieInput (Part000.ui w)))
      (Part000.db w).
Proof.
  unfold Part000.saveToDb, recordOfInputs, round1.
  destruct (String.eqb (Part000.weightInput (Part000.ui w)) "");
    destruct (String.eqb (Part000.calorieInput (Part000.ui w)) ""); reflexivity.
Qed.

Lemma saveToDb_alerts (w : Part000.World) :
  Part000.alerts (Part000.saveToDb w) = Part000.alerts w.
Proof.
  unfold Part000.saveToDb.
  destruct (String.eqb (Part000.weightInput (Part000.ui w)) ""); reflexivity.
Qed.

Lemma handleSave_morning_abort (w : Part000.World) :
  Part000.mode (Part000.state w) = Part000.morning ->
  (let wv := JS.parseFloat_string (Part000.weightInput (Part000.ui w)) in
   JS.isNaN wv || JS.le wv (JS.ofZ 0) = true) ->
  Part000.handleSave w = Part000.alert "正しい体重を入力してください。" w.
Proof. intros Hm Hv. unfold Part000.handleSave. now rewrite Hm, Hv. Qed.

Lemma handleSave_night_abort (w : Part000.World) :
  Part000.mode (Part000.state w) = Part000.night ->
  (let cv := JS.parseInt_string (Part000.calorieInput (Part000.ui w)) in
   JS.isNaN cv || JS.lt cv (JS.ofZ 0) = true) ->
  Part000.handleSave w = Part000.alert "正しい総カロリーを入力してください。" w.
Proof. intros Hm Hv. unfold Part000.handleSave. now rewrite Hm, Hv. Qed.

Lemma handleSave_morning_write (w : Part000.World) :
  Part000.mode (Part000.state w) = Part000.morning ->
  Part000.currentRecord (Part000.state w) <> None ->
  JS.gt (JS.parseFloat_string (Part000.weightInput (Part000.ui w))) (JS.ofZ 0)
  = true ->
  Part000.db (Part000.handleSave w)
  = Db.upsertRecord
      (recordOfInputs (Part000.currentDate (Part000.state w))
                      (Part000.weightInput (Part000.ui w))
                      (Part000.calorieInput (Part000.ui w)))
      (Part000.db w)
  /\ Part000.alerts (Part000.handleSave w) = Part000.alerts w.
Proof.
  intros Hm Hc Hv. unfold Part000.handleSave.
  rewrite Hm, (gt0_valid _ Hv).
  destruct (Part000.currentRecord (Part000.state w)) as [cur |]; [| congruence].
  now rewrite saveToDb_db, saveToDb_alerts.
Qed.

Lemma handleSave_night_write (w : Part000.World) :
  Part000.mode (Part000.state w) = Part000.night ->
  Part000.currentRecord (Part000.state w) <> None ->
  JS.ge (JS.parseInt_string (Part000.calorieInput (Part000.ui w))) (JS.ofZ 0)
  = true ->
  Part000.db (Part000.handleSave w)
  = Db.upsertRecord
      (recordOfInputs (Part000.currentDate (Part000.state w))
                      (Part000.weightInput (Part000.ui w))
                      (Part000.calorieInput (Part000.ui w)))
      (Part000.db w)
  /\ Part000.alerts (Part000.handleSave w) = Part000.alerts w.
Proof.
  intros Hm Hc Hv. unfold Part000.handleSave.
  rewrite Hm, (ge0_valid _ Hv).
  destruct (Part000.currentRecord (Part000.state w)) as [cur |]; [| congruence].
  now rewrite saveToDb_db, saveToDb_alerts.
Qed.

(** A text that passes the weight check is not empty, so the weight
    written is the rounded one. *)
Lemma valid_weight_text (wtxt : string) :
  JS.gt (JS.parseFloat_string wtxt) (JS.ofZ 0) = true ->
  String.eqb wtxt "" = false.
Proof.
  destruct wtxt; [discriminate | reflexivity].
Qed.


(** *** part_001 *)

Lemma loadRecordForDate_db (d : string) (w : Part001.World) :
  Part001.db (Part001.loadRecordForDate d w) = Part001.db w.
Proof. reflexivity. Qed.

Lemma loadRecordForDate_alerts (d : string) (w : Part001.World) :
  Part001.alerts (Part001.loadRecordForDate d w) = Part001.alerts w.
Proof. reflexivity. Qed.

Lemma saveDate_nonempty (w : Part001.World) (d : string) :
  Part001.saveDate w = Some d -> d <> ""%string ->
  exists c d', d = String c d'.
Proof. intros _ H. destruct d as [| c d']; [congruence | now exists c, d']. Qed.

Lemma saveCurrent_morning_abort (w : Part001.World) (d : string) :
  Part001.saveDate w = Some d -> d <> ""%string ->
  Part001.mode (Part001.st w) = Part001.morning ->
  (let wv := Part001.safeNumber (JS.Str (Part001.weightInput (Part001.ui w))) in
   wv = None \/ exists x, wv = Some x /\ JS.le x (JS.ofZ 0) = true) ->
  Part001.saveCurrent w = Part001.alert "正しい体重を入力してください" w.
Proof.
  intros Hd Hne Hm Hv. destruct (saveDate_nonempty w d Hd Hne) as (c & d' & ->).
  unfold Part001.saveCurrent. rewrite Hd, Hm.
  destruct Hv as [-> | (x & -> & Hx)]; [reflexivity | now rewrite Hx].
Qed.

Lemma saveCurrent_night_abort (w : Part001.World) (d : string) :
  Part001.saveDate w = Some d -> d <> ""%string ->
  Part001.mode (Part001.st w) = Part001.night ->
  (let cv := Part001.safeNumber (JS.Str (Part001.calorieInput (Part001.ui w))) in
   cv = None \/ exists x, cv = Some x /\ JS.le x (JS.ofZ 0) = true) ->
  Part001.saveCurrent w = Part001.alert "正しいカロリーを入力してください" w.
Proof.
  intros Hd Hne Hm Hv. destruct (saveDate_nonempty w d Hd Hne) as (c & d' & ->).
  unfold Part001.saveCurrent. rewrite Hd, Hm.
  destruct Hv as [-> | (x & -> & Hx)]; [reflexivity | now rewrite Hx].
Qed.

Lemma gt0_not_le0 (x : JS.number) :
  JS.gt x (JS.ofZ 0) = true -> JS.le x (JS.ofZ 0) = false.
Proof.
  intros H. destruct (JS.le x (JS.ofZ 0)) eqn:E; [| reflexivity].
  apply le0_not_gt0 in E. congruence.
Qed.

Lemma saveCurrent_morning_write (w : Part001.World) (d : string) (x : JS.number) :
  Part001.saveDate w = Some d -> d <> ""%string ->
  Part001.mode (Part001.st w) = Part001.morning ->
  Part001.safeNumber (JS.Str (Part001.weightInput (Part001.ui w))) = Some x ->
  JS.gt x (JS.ofZ 0) = true ->
  Part001.db (Part001.saveCurrent w)
  = Db.upsertRecord
      (Db.mkRecord d (JS.Num x)
         (normalize (Db.total_calorie (baseRecord d (Part001.db w)))))
      (Part001.db w)
  /\ Part001.alerts (Part001.saveCurrent w) = Part001.alerts w.
Proof.
  intros Hd Hne Hm Hw Hx. destruct (saveDate_nonempty w d Hd Hne) as (c & d' & ->).
  unfold Part001.saveCurrent. rewrite Hd, Hm, Hw, (gt0_not_le0 _ Hx).
  rewrite loadRecordForDate_db, loadRecordForDate_alerts. simpl.
  unfold Part001.mergeRecord, baseRecord, normalize. simpl. now split.
Qed.

Lemma saveCurrent_night_write (w : Part001.World) (d : string) (x : JS.number) :
  Part001.saveDate w = Some d -> d <> ""%string ->
  Part001.mode (Part001.st w) = Part001.night ->
  Part001.safeNumber (JS.Str (Part001.calorieInput (Part001.ui w))) = Some x ->
  JS.gt x (JS.ofZ 0) = true ->
  Part001.db (Part001.saveCurrent w)
  = Db.upsertRecord
      (Db.mkRecord d
         (normalize (Db.weight (baseRecord d (Part001.db w))))
         (JS.Num x))
      (Part001.db w)
  /\ Part001.alerts (Part001.saveCurrent w) = Part001.alerts w.
Proof.
  intros Hd Hne Hm Hc Hx. destruct (saveDate_nonempty w d Hd Hne) as (c & d' & ->).
  unfold Part001.saveCurrent. rewrite Hd, Hm, Hc, (gt0_not_le0 _ Hx).
  rewrite loadRecordForDate_db, loadRecordForDate_alerts. simpl.
  unfold Part001.mergeRecord, baseRecord, normalize. simpl. now split.
Qed.

End SaveFacts.

(** ** Calendar dates *)

Module DateFacts.
Import JSDate SpecDate.

Lemma add_compare_r (a b c : Z) : (a + c ?= b + c) = (a ?= b).
Proof. rewrite (Z.add_comm a c), (Z.add_comm b c). apply Z.add_compare_mono_l. Qed.

Lemma digit_of_spec (c : ascii) (d : Z) :
  JS.digit_of c = Some d ->
  0 <= d <= 9 /\ Z.of_N (N_of_ascii c) = d + 48.
Proof.
  unfold JS.digit_of, nat_of_ascii. rewrite N_nat_Z.
  destruct (_ && _) eqn:E; [| discriminate].
  intros [= <-]. apply andb_true_iff in E. lia.
Qed.

Lemma digit_compare (a b : ascii) (x y : Z) :
  JS.digit_of a = Some x -> JS.digit_of b = Some y ->
  Ascii.compare a b = (x ?= y).
Proof.
  intros Ha Hb. apply digit_of_spec in Ha, Hb.
  unfold Ascii.compare. rewrite <- N2Z.inj_compare.
  destruct Ha as [_ Ha], Hb as [_ Hb]. rewrite Ha, Hb.
  apply add_compare_r.
Qed.

Lemma compare_base (B hi lo hi' lo' : Z) :
  0 <= lo < B -> 0 <= lo' < B ->
  (hi * B + lo ?= hi' * B + lo') = lex (hi ?= hi') (lo ?= lo').
Proof.
  intros H H'. unfold lex.
  destruct (Z.compare_spec hi hi') as [-> | L | G].
  - apply Z.add_compare_mono_l.
  - apply Z.compare_lt_iff. nia.
  - apply Z.compare_gt_iff. nia.
Qed.

Lemma DayFromYear_succ (y : Z) :
  DayFromYear (y + 1) = DayFromYear y + DaysInYear y.
Proof.
  unfold DayFromYear, DaysInYear.
  destruct (Z.eqb_spec (y mod 4) 0); destruct (Z.eqb_spec (y mod 100) 0);
    destruct (Z.eqb_spec (y mod 400) 0); cbv [negb];
    Z.div_mod_to_equations; lia.
Qed.

Lemma DaysInYear_range (y : Z) : DaysInYear y = 365 \/ DaysInYear y = 366.
Proof.
  unfold DaysInYear.
  destruct (y mod 4 =? 0), (y mod 100 =? 0), (y mod 400 =? 0); simpl; auto.
Qed.

Lemma DayFromYear_lt (y y' : Z) :
  y < y' -> DayFromYear y + DaysInYear y <= DayFromYear y'.
Proof.
  intros H. replace y' with (y + 1 + (y' - y - 1)) by lia.
  assert (Hk : 0 <= y' - y - 1) by lia.
  generalize dependent (y' - y - 1). intros k Hk.
  pattern k. apply natlike_ind; [| | exact Hk].
  - rewrite Z.add_0_r, DayFromYear_succ. lia.
  - intros x Hx IH. replace (y + 1 + Z.succ x) with ((y + 1 + x) + 1) by lia.
    rewrite DayFromYear_succ. destruct (DaysInYear_range (y + 1 + x)); lia.
Qed.

Lemma month_cases (m : Z) :
  1 <= m <= 12 ->
  m = 1 \/ m = 2 \/ m = 3 \/ m = 4 \/ m = 5 \/ m = 6 \/ m = 7 \/ m = 8
  \/ m = 9 \/ m = 10 \/ m = 11 \/ m = 12.
Proof. lia. Qed.

Lemma validYMD_spec (y m d : Z) :
  validYMD y m d = true ->
  0 <= y <= 9999 /\ 1 <= m <= 12 /\ 1 <= d <= DaysInMonth y m.
Proof.
  unfold validYMD. rewrite !andb_true_iff. lia.
Qed.

Lemma InLeapYear_days (y : Z) :
  DaysInYear y = if InLeapYear y then 366 else 365.
Proof.
  unfold InLeapYear. destruct (DaysInYear_range y) as [-> | ->]; reflexivity.
Qed.

Ltac months m H :=
  destruct (month_cases m H) as
    [-> | [-> | [-> | [-> | [-> | [-> | [-> | [-> | [-> | [-> | [-> | ->]]]]]]]]]]].

Lemma dayInYear_range (y m d : Z) :
  1 <= m <= 12 -> 1 <= d <= DaysInMonth y m ->
  0 <= DaysBeforeMonth y m + d - 1 < DaysInYear y.
Proof.
  intros Hm Hd. rewrite InLeapYear_days.
  months m Hm; unfold DaysBeforeMonth, DaysInMonth in *;
    destruct (InLeapYear y); lia.
Qed.

Lemma dayInYear_month_lt (y m d m' d' : Z) :
  1 <= m <= 12 -> 1 <= d <= DaysInMonth y m ->
  1 <= m' <= 12 -> 1 <= d' <= DaysInMonth y m' ->
  m < m' ->
  DaysBeforeMonth y m + d < DaysBeforeMonth y m' + d'.
Proof.
  intros Hm Hd Hm' Hd' L.
  months m Hm; months m' Hm'; try lia;
    unfold DaysBeforeMonth, DaysInMonth in *; destruct (InLeapYear y); lia.
Qed.

Lemma MakeDay_compare (y m d y' m' d' : Z) :
  validYMD y m d = true -> validYMD y' m' d' = true ->
  (MakeDay y m d ?= MakeDay y' m' d')
  = lex (y ?= y') (lex (m ?= m') (d ?= d')).
Proof.
  intros V V'. apply validYMD_spec in V, V'.
  destruct V as (Hy & Hm & Hd), V' as (Hy' & Hm' & Hd').
  pose proof (dayInYear_range y m d Hm Hd) as R.
  pose proof (dayInYear_range y' m' d' Hm' Hd') as R'.
  unfold lex, MakeDay.
  destruct (Z.compare_spec y y') as [-> | L | G].
  - destruct (Z.compare_spec m m') as [-> | L | G].
    + rewrite <- !Z.add_sub_assoc. rewrite !Z.add_compare_mono_l.
      apply add_compare_r.
    + apply Z.compare_lt_iff.
      pose proof (dayInYear_month_lt y' m d m' d' Hm Hd Hm' Hd' L). lia.
    + apply Z.compare_gt_iff.
      pose proof (dayInYear_month_lt y' m' d' m d Hm' Hd' Hm Hd G). lia.
  - apply Z.compare_lt_iff. pose proof (DayFromYear_lt y y' L). lia.
  - apply Z.compare_gt_iff. pose proof (DayFromYear_lt y' y G). lia.
Qed.


Lemma num4_compare (a b c d a' b' c' d' : Z) :
  0 <= b <= 9 -> 0 <= c <= 9 -> 0 <= d <= 9 ->
  0 <= b' <= 9 -> 0 <= c' <= 9 -> 0 <= d' <= 9 ->
  (num4 a b c d ?= num4 a' b' c' d')
  = lex (a ?= a') (lex (b ?= b') (lex (c ?= c') (d ?= d'))).
Proof.
  intros. unfold num4.
  rewrite (compare_base 10) by lia.
  rewrite (compare_base 10) by lia.
  rewrite (compare_base 10) by lia.
  now destruct (a ?= a'), (b ?= b'), (c ?= c').
Qed.

Lemma num2_compare (a b a' b' : Z) :
  0 <= b <= 9 -> 0 <= b' <= 9 ->
  (num2 a b ?= num2 a' b') = lex (a ?= a') (b ?= b').
Proof. intros. unfold num2. now rewrite (compare_base 10) by lia. Qed.

Lemma lex_assoc (a b c : comparison) : lex (lex a b) c = lex a (lex b c).
Proof. now destruct a. Qed.

Ltac ten l :=
  destruct l as [| ?c0 [| ?c1 [| ?c2 [| ?c3 [| ?c4 [| ?c5 [| ?c6 [| ?c7
                [| ?c8 [| ?c9 [| ?c10 ?l]]]]]]]]]]]; try discriminate.

Ltac digit c :=
  let x := fresh "x" in
  let E := fresh "E" in
  destruct (JS.digit_of c) as [x |] eqn:E; [| discriminate].

Lemma parseYMD_shape (s : string) (y m d : Z) :
  parseYMD s = Some (y, m, d) -> ymdText s y m d.
Proof.
  unfold parseYMD.
  rewrite <- (string_of_list_ascii_of_string s) at 2.
  destruct (list_ascii_of_string s) as [| c0 l]; [discriminate |].
  ten l.
  destruct (Ascii.eqb_spec c4 "-") as [-> |]; [| discriminate].
  destruct (Ascii.eqb_spec c7 "-") as [-> |]; [| discriminate].
  cbn [andb].
  digit c0; digit c1; digit c2; digit c3; digit c5; digit c6; digit c8; digit c9.
  destruct (validYMD _ _ _) eqn:V; [| discriminate].
  intros [= <- <- <-]. now constructor.
Qed.

(** On calendar dates the order of the texts is the order of the days. *)
Lemma parseYMD_compare (s s' : string) (y m d y' m' d' : Z) :
  parseYMD s = Some (y, m, d) -> parseYMD s' = Some (y', m', d') ->
  String.compare s s' = (MakeDay y m d ?= MakeDay y' m' d').
Proof.
  intros H H'. apply parseYMD_shape in H, H'.
  destruct H as [y1 y2 y3 y4 m1 m2 d1 d2 a b c d0 e f g h
                    Ea Eb Ec Ed Ee Ef Eg Eh V].
  destruct H' as [y1' y2' y3' y4' m1' m2' d1' d2' a' b' c' d0' e' f' g' h'
                     Ea' Eb' Ec' Ed' Ee' Ef' Eg' Eh' V'].
  rewrite (MakeDay_compare _ _ _ _ _ _ V V').
  rewrite num4_compare, !num2_compare
    by (eapply digit_of_spec; eassumption).
  cbn [String.compare].
  rewrite (digit_compare _ _ _ _ Ea Ea'), (digit_compare _ _ _ _ Eb Eb'),
    (digit_compare _ _ _ _ Ec Ec'), (digit_compare _ _ _ _ Ed Ed'),
    (digit_compare _ _ _ _ Ee Ee'), (digit_compare _ _ _ _ Ef Ef'),
    (digit_compare _ _ _ _ Eg Eg'), (digit_compare _ _ _ _ Eh Eh').
  change (Ascii.compare "-" "-") with Eq. cbv iota.
  unfold lex.
  destruct (a ?= a'), (b ?= b'), (c ?= c'), (d0 ?= d0'),
    (e ?= e'), (f ?= f'), (g ?= g'), (h ?= h'); reflexivity.
Qed.

Lemma setHours0_day (tza D : Z) :
  setHours0 tza (D * msPerDay) = (D + tza / msPerDay) * msPerDay - tza.
Proof.
  unfold setHours0. now rewrite Z.div_add_l by (unfold msPerDay; lia).
Qed.

Lemma setHours0_compare (tza D D' : Z) :
  (setHours0 tza (D * msPerDay) ?= setHours0 tza (D' * msPerDay)) = (D ?= D').
Proof.
  rewrite !setHours0_day. unfold msPerDay.
  destruct (Z.compare_spec D D') as [-> | L | G].
  - apply Z.compare_refl.
  - apply Z.compare_lt_iff. lia.
  - apply Z.compare_gt_iff. lia.
Qed.


Lemma parseISODate_Some (tza : Z) (s : string) (t : Z) :
  Part001.parseISODate tza s = Some t ->
  exists y m d, parseYMD s = Some (y, m, d)
                /\ t = setHours0 tza (MakeDay y m d * msPerDay).
Proof.
  unfold Part001.parseISODate, parse.
  destruct (String.eqb s ""); [discriminate |].
  destruct (parseYMD s) as [[[y m] d] |]; [| discriminate].
  intros [= <-]. now exists y, m, d.
Qed.

Lemma parseISODate_iso (tza : Z) (s : string) :
  SpecRange.isISODate s = true -> exists t, Part001.parseISODate tza s = Some t.
Proof.
  unfold SpecRange.isISODate, Part001.parseISODate, parse.
  destruct s as [| c s]; [discriminate |].
  cbn [String.eqb].
  destruct (parseYMD (String c s)) as [[[y m] d] |]; [| discriminate].
  intros _. eexists. reflexivity.
Qed.

Lemma parseISODate_not_iso (tza : Z) (s : string) :
  SpecRange.isISODate s = false -> Part001.parseISODate tza s = None.
Proof.
  unfold SpecRange.isISODate, Part001.parseISODate, parse.
  destruct (parseYMD s) as [[[y m] d] |]; [discriminate |].
  now destruct (String.eqb s "").
Qed.

(** The time values of two dates compare as their texts do. *)
Lemma parseISODate_compare (tza : Z) (s s' : string) (t t' : Z) :
  Part001.parseISODate tza s = Some t ->
  Part001.parseISODate tza s' = Some t' ->
  (t ?= t') = String.compare s s'.
Proof.
  intros H H'.
  apply parseISODate_Some in H, H'.
  destruct H as (y & m & d & P & ->), H' as (y' & m' & d' & P' & ->).
  rewrite setHours0_compare. symmetry. now apply parseYMD_compare.
Qed.

Lemma parseISODate_leb (tza : Z) (s s' : string) (t t' : Z) :
  Part001.parseISODate tza s = Some t ->
  Part001.parseISODate tza s' = Some t' ->
  (t <=? t') = String.leb s s'.
Proof.
  intros H H'. unfold Z.leb, String.leb.
  now rewrite (parseISODate_compare tza s s' t t' H H').
Qed.

Lemma clampDateRange_spec (tza : Z) (a b : string) (ta tb : Z) :
  Part001.parseISODate tza a = Some ta ->
  Part001.parseISODate tza b = Some tb ->
  Part001.clampDateRange tza a b
  = if String.leb a b then Some (ta, tb) else None.
Proof.
  intros Ha Hb. unfold Part001.clampDateRange. rewrite Ha, Hb.
  rewrite <- (parseISODate_leb tza a b ta tb Ha Hb).
  rewrite Z.gtb_ltb, Z.ltb_antisym. now destruct (ta <=? tb).
Qed.

Lemma inRange_spec (tza : Z) (a b : string) (ta tb : Z) (r : Db.record) :
  Part001.parseISODate tza a = Some ta ->
  Part001.parseISODate tza b = Some tb ->
  SpecRange.isISODate (Db.date r) = true ->
  Part001.inRange tza ta tb r = SpecRange.inWindow a b r.
Proof.
  intros Ha Hb Hr. destruct (parseISODate_iso tza _ Hr) as (t & Ht).
  unfold Part001.inRange, SpecRange.inWindow. rewrite Ht.
  rewrite Z.geb_leb.
  now rewrite (parseISODate_leb tza _ _ _ _ Ha Ht),
              (parseISODate_leb tza _ _ _ _ Ht Hb).
Qed.

End DateFacts.

(** ** The range query *)

Module RangeFacts.
Import SpecRange.

Lemma sort_byDate_000 (l : list Db.record) :
  isSortedCopy l (JS.sort Part000.byDate l).
Proof.
  split; [apply (sort_perm Db.date) | apply (sort_sorted Db.date)].
Qed.

Lemma sort_byDate_001 (l : list Db.record) :
  isSortedCopy l (JS.sort Part001.byDate l).
Proof. exact (sort_byDate_000 l). Qed.

(** part_000: the filter keeps the window, the sort orders it. *)
Lemma rangeQuery000_spec (start end_ : string) (all : list Db.record) :
  isRangeResult start end_ all (Part000.rangeQuery start end_ all).
Proof. apply sort_byDate_000. Qed.

(** When [end < start] no date lies between them. *)
Lemma window_empty (start end_ : string) (all : list Db.record) :
  String.leb start end_ = false -> filter (inWindow start end_) all = [].
Proof.
  intros H. induction all as [| r all IH]; simpl; [reflexivity |].
  unfold inWindow at 1.
  destruct (String.leb start (Db.date r)) eqn:A;
    destruct (String.leb (Db.date r) end_) eqn:B; simpl; try exact IH.
  rewrite (StrOrder.leb_trans _ _ _ A B) in H. discriminate.
Qed.

Lemma rangeResult_empty (start end_ : string) (all result : list Db.record) :
  isRangeResult start end_ all result ->
  filter (inWindow start end_) all = [] -> result = [].
Proof.
  intros [P _] E. rewrite E in P. now apply Permutation_nil, Permutation_sym.
Qed.

(** part_001: on calendar dates the filter on time values is the window
    on the texts. *)
Lemma filter_inRange (tza : Z) (a b : string) (ta tb : Z) (all : list Db.record) :
  Part001.parseISODate tza a = Some ta ->
  Part001.parseISODate tza b = Some tb ->
  Forall (fun r => isISODate (Db.date r) = true) all ->
  filter (Part001.inRange tza ta tb) all = filter (inWindow a b) all.
Proof.
  intros Ha Hb Hall. induction Hall as [| r all Hr Hall IH]; simpl; [reflexivity |].
  now rewrite (DateFacts.inRange_spec tza a b ta tb r Ha Hb Hr), IH.
Qed.

Lemma rangeQuery001_spec (tza : Z) (a b : string) (ta tb : Z) (all : list Db.record) :
  Part001.parseISODate tza a = Some ta ->
  Part001.parseISODate tza b = Some tb ->
  Forall (fun r => isISODate (Db.date r) = true) all ->
  isRangeResult a b all (Part001.rangeQuery tza ta tb all).
Proof.
  intros Ha Hb Hall. unfold Part001.rangeQuery.
  rewrite (filter_inRange tza a b ta tb all Ha Hb Hall).
  apply sort_byDate_001.
Qed.

End RangeFacts.

(** ** The CSV export *)

Module CsvFacts.
Import SpecRange.



Lemma append_empty_r (s : string) : (s ++ "")%string = s.
Proof. induction s as [| c s IH]; simpl; [reflexivity | now rewrite IH]. Qed.





End CsvFacts.


(** ** Saving: what the stored record holds afterwards *)

Module MergeFacts.
Import SpecSave.

Lemma not_valid_gt0 (v : JS.number) :
  JS.isNaN v || JS.le v (JS.ofZ 0) = false -> JS.gt v (JS.ofZ 0) = true.
Proof.
  destruct v as [| q]; [discriminate |].
  unfold JS.gt, JS.lt, JS.le, JS.Qltb, JS.ofZ. simpl. now intros ->.
Qed.

Lemma alert_grows {A : Type} (l : list A) (x : A) : l ++ [x] <> l.
Proof.
  intros H. apply (f_equal (@List.length A)) in H.
  rewrite length_app in H. simpl in H. lia.
Qed.

Lemma safeNumber_Str (s : string) (x : JS.number) :
  Part001.safeNumber (JS.Str s) = Some x -> x = JS.StringToNumber s.
Proof.
  unfold Part001.safeNumber. destruct s as [| c s]; [discriminate |].
  cbn [JS.ToNumber].
  destruct (JS.Number_isFinite _); [| discriminate]. now intros [= <-].
Qed.

(** part_000: loading a date whose stored calorie value is zero leaves
    the calorie input empty. *)
Lemma load_zero_calorie (w : Part000.World) (d : string) (r : Db.record) (q : Q) :
  Db.getRecord d (Part000.db w) = Some r ->
  Db.total_calorie r = JS.Num (JS.Fin q) -> (q == 0)%Q ->
  Part000.calorieInput (Part000.ui (Part000.handleDateChange d w)) = ""%string.
Proof.
  intros Hg Hc Hq. unfold Part000.handleDateChange, Part000.loadDataForDate.
  cbn [Part000.db Part000.ui Part000.set_inputs Part000.calorieInput].
  rewrite Hg, Hc. unfold JS.or, JS.ToBoolean.
  now rewrite (Qeq_eq_bool _ _ Hq).
Qed.

Lemma handleDateChange_state (w : Part000.World) (d : string) (r : Db.record) :
  Db.getRecord d (Part000.db w) = Some r ->
  Part000.db (Part000.handleDateChange d w) = Part000.db w
  /\ Part000.currentDate (Part000.state (Part000.handleDateChange d w)) = d
  /\ Part000.currentRecord (Part000.state (Part000.handleDateChange d w)) = Some r
  /\ Part000.alerts (Part000.handleDateChange d w) = Part000.alerts w.
Proof.
  intros Hg. unfold Part000.handleDateChange, Part000.loadDataForDate.
  cbn [Part000.db Part000.state Part000.currentDate Part000.currentRecord
       Part000.alerts].
  now rewrite Hg.
Qed.

(** part_001: after a save the stored record of the date keeps the field
    of the other mode. *)
Lemma saveCurrent_morning_keeps_calorie
      (w : Part001.World) (d : string) (r : Db.record) (x : JS.number) :
  Part001.saveDate w = Some d -> d <> ""%string ->
  Part001.mode (Part001.st w) = Part001.morning ->
  Part001.safeNumber (JS.Str (Part001.weightInput (Part001.ui w))) = Some x ->
  JS.gt x (JS.ofZ 0) = true ->
  Db.getRecord d (Part001.db w) = Some r ->
  Db.getRecord d (Part001.db (Part001.saveCurrent w))
  = Some (Db.mkRecord d (JS.Num x) (normalize (Db.total_calorie r))).
Proof.
  intros Hd Hne Hm Hw Hx Hg.
  destruct (SaveFacts.saveCurrent_morning_write w d x Hd Hne Hm Hw Hx) as [-> _].
  unfold baseRecord. rewrite Hg.
  apply (DbFacts.get_put_same (Db.mkRecord d _ _)).
Qed.

Lemma saveCurrent_night_keeps_weight
      (w : Part001.World) (d : string) (r : Db.record) (x : JS.number) :
  Part001.saveDate w = Some d -> d <> ""%string ->
  Part001.mode (Part001.st w) = Part001.night ->
  Part001.safeNumber (JS.Str (Part001.calorieInput (Part001.ui w))) = Some x ->
  JS.gt x (JS.ofZ 0) = true ->
  Db.getRecord d (Part001.db w) = Some r ->
  Db.getRecord d (Part001.db (Part001.saveCurrent w))
  = Some (Db.mkRecord d (normalize (Db.weight r)) (JS.Num x)).
Proof.
  intros Hd Hne Hm Hw Hx Hg.
  destruct (SaveFacts.saveCurrent_night_write w d x Hd Hne Hm Hw Hx) as [-> _].
  unfold baseRecord. rewrite Hg.
  apply (DbFacts.get_put_same (Db.mkRecord d _ _)).
Qed.

(** A field that is not undefined is kept as it is. *)
Lemma normalize_defined (v : JS.value) : v <> JS.Undefined -> normalize v = v.
Proof. destruct v; unfold normalize, JS.coalesce; simpl; congruence. Qed.

End MergeFacts.

(** ** What [safeNumber] turns down *)

Module SafeNumberFacts.


End SafeNumberFacts.

(** ** The sample runs, evaluated *)

Module SampleFacts.

Example threeDays_in_key_order :
  map Db.date Examples.threeDays
  = ["2024-01-01"; "2024-01-02"; "2024-01-03"]%string.
Proof. reflexivity. Qed.

Example csv_of_threeDays :
  Part001.csvText Examples.threeDays
  = ("date,weight,total_calorie" ++ Part001.newline
       ++ "2024-01-01,70," ++ Part001.newline
       ++ "2024-01-02,69.5,1800" ++ Part001.newline
       ++ "2024-01-03,,2000")%string.
Proof. reflexivity. Qed.

Example summary_of_threeDays :
  Part000.weightStatsOf (Part000.summaryWeights Examples.threeDays)
  = Some (Part000.mkWeightStats (JS.Fin (279 # 4)) 2
                                (JS.Fin (139 # 2)) (JS.Fin 70))
  /\ Part000.renderSummary Examples.threeDays
     = (Part000.WeightHtml "69.8" 2 "69.5" "70.0", Part000.CalorieHtml "1900" 2).
Proof. split; reflexivity. Qed.

Example table_of_threeDays :
  Part000.reportTableBody (Part000.ui Examples.report000)
  = [Part000.DataRow "2024-01-01" "70.0" "-" "inherit";
     Part000.DataRow "2024-01-02" "69.5" "-0.5" "#1e88e5"].
Proof. reflexivity. Qed.

Example report_of_threeDays :
  Part001.reportTableBody (Part001.ui Examples.reportShown)
  = [Part001.mkTr "2024-01-01" "70.0" "-";
     Part001.mkTr "2024-01-02" "69.5" "-0.5";
     Part001.mkTr "2024-01-03" "-" "-"].
Proof. reflexivity. Qed.

Example parse_samples :
  JS.parseFloat_string "75.26" = JS.Fin (3763 # 50)
  /\ JS.parseFloat_string "" = JS.NaN
  /\ JS.parseInt_string "" = JS.NaN
  /\ JS.parseInt_string "0" = JS.Fin 0
  /\ JS.toFixed1 (JS.Fin (3763 # 50)) = "75.3"%string
  /\ JSDate.parse "1970-01-01" = Some 0
  /\ JSDate.parse "2024-01-01" = Some 1704067200000
  /\ JSDate.parse "2023-02-29" = None.
Proof. repeat split. Qed.

End SampleFacts.

(* ================================================================== *)
(** * The properties of the specification, C1 to C10 *)
(* ================================================================== *)

(** C1: [saveCurrent] of part_001 merges: after a save that goes through
    for a date with a stored record, the stored record of the date holds
    the other field as it was before (null for a field that was
    undefined).  [handleSave] of part_000, which rebuilds the record from
    the two inputs, does not always: evaluated on a sample run, a weight
    saved in the morning and zero calories saved at night are both
    stored; once the date is picked again the calorie input is empty, and
    saving a corrected weight writes a record whose total_calorie is null
    instead of the stored 0. *)
Theorem C1_untouched_field_on_save :
  (forall (w : Part001.World) (d : string) (r : Db.record) (x : JS.number),
     Part001.saveDate w = Some d -> d <> ""%string ->
     Db.getRecord d (Part001.db w) = Some r ->
     (Part001.mode (Part001.st w) = Part001.morning ->
      Part001.safeNumber (JS.Str (Part001.weightInput (Part001.ui w))) = Some x ->
      JS.gt x (JS.ofZ 0) = true ->
      exists r' : Db.record,
        Db.getRecord d (Part001.db (Part001.saveCurrent w)) = Some r'
        /\ Db.weight r' = JS.Num x
        /\ Db.total_calorie r' = SpecSave.normalize (Db.total_calorie r)
        /\ (Db.total_calorie r <> JS.Undefined ->
            Db.total_calorie r' = Db.total_calorie r))
     /\
     (Part001.mode (Part001.st w) = Part001.night ->
      Part001.safeNumber (JS.Str (Part001.calorieInput (Part001.ui w))) = Some x ->
      JS.gt x (JS.ofZ 0) = true ->
      exists r' : Db.record,
        Db.getRecord d (Part001.db (Part001.saveCurrent w)) = Some r'
        /\ Db.total_calorie r' = JS.Num x
        /\ Db.weight r' = SpecSave.normalize (Db.weight r)
        /\ (Db.weight r <> JS.Undefined -> Db.weight r' = Db.weight r)))
  /\
  (Db.getRecord Examples.day (Part000.db Examples.zeroNight)
   = Some (Db.mkRecord Examples.day (JS.Num (JS.Fin 70)) (JS.Num (JS.Fin 0)))
   /\ Part000.weightInput (Part000.ui Examples.reloaded) = "70.0"%string
   /\ Part000.calorieInput (Part000.ui Examples.reloaded) = ""%string
   /\ Part000.alerts Examples.reweighed = []
   /\ Db.getRecord Examples.day (Part000.db Examples.reweighed)
      = Some (Db.mkRecord Examples.day (JS.Num (JS.Fin 71)) JS.Null)).
Proof.
  split; [| repeat split].
  intros w d r x Hd Hne Hg. split; intros Hm Hx Hpos.
  - eexists. split;
      [apply (MergeFacts.saveCurrent_morning_keeps_calorie w d r x);
       assumption |].
    cbn [Db.weight Db.total_calorie].
    split; [reflexivity |]. split; [reflexivity |].
    apply MergeFacts.normalize_defined.
  - eexists. split;
      [apply (MergeFacts.saveCurrent_night_keeps_weight w d r x);
       assumption |].
    cbn [Db.weight Db.total_calorie].
    split; [reflexivity |]. split; [reflexivity |].
    apply MergeFacts.normalize_defined.
Qed.

(** The statement above, on the sample runs. *)
Lemma C1_untouched_field_on_save_witness :
  exists r' : Db.record,
    Db.getRecord Examples.day (Part001.db Examples.fedNight001) = Some r'
    /\ Db.total_calorie r' = JS.Num (JS.Fin 1800)
    /\ Db.weight r' = JS.Num (JS.Fin (3763 # 50)).
Proof.
  destruct C1_untouched_field_on_save as [H _].
  destruct (H (Part001.typeCalorie "1800" Examples.nightMode001) Examples.day
              (Db.mkRecord Examples.day (JS.Num (JS.Fin (3763 # 50))) JS.Null)
              (JS.Fin 1800))
    as [_ N]; [reflexivity | discriminate | reflexivity |].
  destruct (N eq_refl eq_refl eq_refl) as (r' & G & C & _ & W).
  exists r'. split; [exact G |]. split; [exact C |].
  apply W. discriminate.
Defined.

(** C2 (as amended): with both date inputs filled in, [updateReport] of
    part_000 lists exactly the stored records with start <= date <= end
    (comparison of the texts), in ascending date order; a range with
    start > end, or one that no record matches, gives the empty list; with
    an input left empty nothing is updated.  [updateReport] of part_001
    does the same for calendar dates with start <= end; a range with
    start > end, or an empty input, is turned down with a message and the
    report is left as it was. *)
Theorem C2_range_query :
  (forall w : Part000.World,
     let start := Part000.reportStartDate (Part000.ui w) in
     let end_ := Part000.reportEndDate (Part000.ui w) in
     let all := Db.getAllRecords (Part000.db w) in
     ((start = ""%string \/ end_ = ""%string) -> Part000.updateReport w = w)
     /\ (start <> ""%string -> end_ <> ""%string ->
         exists result : list Db.record,
           SpecRange.isRangeResult start end_ all result
           /\ (String.leb start end_ = false -> result = [])
           /\ (filter (SpecRange.inWindow start end_) all = [] -> result = [])
           /\ Part000.reportTableBody (Part000.ui (Part000.updateReport w))
              = Part000.renderReportTable result
           /\ (Part000.summaryWeight (Part000.ui (Part000.updateReport w)),
               Part000.summaryCalorie (Part000.ui (Part000.updateReport w)))
              = Part000.renderSummary result
           /\ Part000.alerts (Part000.updateReport w) = Part000.alerts w))
  /\
  (forall (tza : Z) (w : Part001.World),
     let start := Part001.reportStart (Part001.ui w) in
     let end_ := Part001.reportEnd (Part001.ui w) in
     let all := Db.getAllRecords (Part001.db w) in
     let refused :=
       Part001.alert "開始日・終了日を正しく入力してください" w in
     ((start = ""%string \/ end_ = ""%string) ->
      Part001.updateReport tza w = refused)
     /\ (SpecRange.isISODate start = true ->
         SpecRange.isISODate end_ = true ->
         (String.leb start end_ = false -> Part001.updateReport tza w = refused)
         /\ (String.leb start end_ = true ->
             Forall (fun r => SpecRange.isISODate (Db.date r) = true) all ->
             exists result : list Db.record,
               SpecRange.isRangeResult start end_ all result
               /\ (filter (SpecRange.inWindow start end_) all = [] -> result = [])
               /\ Part001.reportTableBody
                    (Part001.ui (Part001.updateReport tza w))
                  = map Part001.renderRow (Part001.reportRows None result)
               /\ Part001.summaryWeight
                    (Part001.ui (Part001.updateReport tza w))
                  = Part001.weightText
                      (Part001.average (Part001.reportWeights result))
               /\ Part001.summaryCalorie
                    (Part001.ui (Part001.updateReport tza w))
                  = Part001.calorieText
                      (Part001.average (Part001.reportCalories result))
               /\ Part001.alerts (Part001.updateReport tza w)
                  = Part001.alerts w))).
Proof.
  split.
  - intros w. cbv zeta. split.
    + intros H. unfold Part000.updateReport.
      destruct H as [-> | ->]; [reflexivity |].
      now rewrite orb_true_r.
    + intros Hs He. unfold Part000.updateReport.
      apply String.eqb_neq in Hs, He. rewrite Hs, He. cbn [orb].
      set (start := Part000.reportStartDate (Part000.ui w)).
      set (end_ := Part000.reportEndDate (Part000.ui w)).
      set (all := Db.getAllRecords (Part000.db w)).
      pose proof (RangeFacts.rangeQuery000_spec start end_ all) as R.
      exists (Part000.rangeQuery start end_ all).
      split; [exact R |].
      split; [intros L; apply (RangeFacts.rangeResult_empty _ _ _ _ R);
              now apply RangeFacts.window_empty |].
      split; [apply (RangeFacts.rangeResult_empty _ _ _ _ R) |].
      destruct (Part000.renderSummary (Part000.rangeQuery start end_ all))
        as [sw sc].
      repeat split.
  - intros tza w. cbv zeta. split.
    + intros H. unfold Part001.updateReport, Part001.clampDateRange.
      destruct H as [-> | ->]; cbn [Part001.parseISODate String.eqb].
      * reflexivity.
      * now destruct (Part001.parseISODate tza _).
    + intros Is Ie.
      destruct (DateFacts.parseISODate_iso tza _ Is) as (ts & Hs).
      destruct (DateFacts.parseISODate_iso tza _ Ie) as (te & He).
      pose proof (DateFacts.clampDateRange_spec tza _ _ ts te Hs He) as C.
      unfold Part001.updateReport. rewrite C. split.
      * now intros ->.
      * intros -> Hall.
        pose proof (RangeFacts.rangeQuery001_spec tza _ _ ts te _ Hs He Hall) as R.
        exists (Part001.rangeQuery tza ts te
                  (Db.getAllRecords (Part001.db w))).
        split; [exact R |].
        split; [apply (RangeFacts.rangeResult_empty _ _ _ _ R) |].
        repeat split.
Qed.

(** The statement above, on the sample runs. *)
Lemma C2_range_query_witness :
  (Part000.updateReport (Part000.init Examples.day Examples.threeDays)
   = Part000.init Examples.day Examples.threeDays
   /\ exists result : list Db.record,
        SpecRange.isRangeResult "2024-01-01" "2024-01-03" Examples.threeDays result
        /\ Part000.reportTableBody (Part000.ui Examples.report000)
           = Part000.renderReportTable result)
  /\
  (Examples.reportReversed
   = Part001.alert "開始日・終了日を正しく入力してください"
       (Part001.typeRange "2024-01-02" "2024-01-01" Examples.reportShown)
   /\ exists result : list Db.record,
        SpecRange.isRangeResult "2024-01-01" "2024-01-03" Examples.threeDays result
        /\ Part001.reportTableBody (Part001.ui Examples.reportShown)
           = map Part001.renderRow (Part001.reportRows None result)).
Proof.
  destruct C2_range_query as [H0 H1]. split.
  - split.
    + destruct (H0 (Part000.init Examples.day Examples.threeDays)) as [E _].
      apply E. left. reflexivity.
    + destruct (H0 (Part000.typeRange "2024-01-01" "2024-01-03"
                      (Part000.init Examples.day Examples.threeDays)))
        as [_ N].
      destruct N as (result & R & _ & _ & T & _); [discriminate | discriminate |].
      exists result. split; [exact R | exact T].
  - split.
    + destruct (H1 Examples.jst
                   (Part001.typeRange "2024-01-02" "2024-01-01"
                                      Examples.reportShown)) as [_ N].
      destruct (N eq_refl eq_refl) as [A _]. apply A. reflexivity.
    + destruct (H1 Examples.jst
                   (Part001.typeRange "2024-01-01" "2024-01-03"
                      (Part001.init Examples.day Examples.threeDays)))
        as [_ N].
      destruct (N eq_refl eq_refl) as [_ B].
      destruct B as (result & R & _ & T & _);
        [reflexivity | repeat constructor |].
      exists result. split; [exact R | exact T].
Defined.

(** C2, the claim as stated fails on part_001: with start 2024-01-02 and
    end 2024-01-01 the query does not give an empty list; it raises the
    message and the three lines shown before stay in the table. *)
Lemma C2_part001_reversed_range_refused :
  Part001.reportStart
    (Part001.ui (Part001.typeRange "2024-01-02" "2024-01-01" Examples.reportShown))
  = "2024-01-02"%string
  /\ Part001.reportEnd
       (Part001.ui (Part001.typeRange "2024-01-02" "2024-01-01" Examples.reportShown))
     = "2024-01-01"%string
  /\ Part001.alerts Examples.reportShown = []
  /\ Part001.alerts Examples.reportReversed
     = ["開始日・終了日を正しく入力してください"%string]
  /\ Part001.reportTableBody (Part001.ui Examples.reportReversed)
     = Part001.reportTableBody (Part001.ui Examples.reportShown)
  /\ List.length (Part001.reportTableBody (Part001.ui Examples.reportReversed))
     = 3%nat.
Proof. repeat split. Qed.









(** C6: for every date d and every record r with date d, [upsertRecord r]
    followed by [getRecord d] on the same store returns r. *)
Theorem C6_upsert_then_get_returns_record :
  forall (s : Db.store) (r : Db.record),
    Db.getRecord (Db.date r) (Db.upsertRecord r s) = Some r.
Proof. intros s r. apply DbFacts.get_put_same. Qed.

(** C7 (as amended): a save is turned down, with a blocking message and
    the store left as it was, when the entered value is not a number or
    breaks the bound of the mode, and goes through otherwise.  In both
    controllers the weight must be greater than 0.  The calorie value
    must be at least 0 in [handleSave] of part_000 (0 is accepted there)
    and greater than 0 in [saveCurrent] of part_001 (0 is turned down
    there). *)
Theorem C7_validation_of_entries :
  (forall w : Part000.World,
     let wv := JS.parseFloat_string (Part000.weightInput (Part000.ui w)) in
     let cv := JS.parseInt_string (Part000.calorieInput (Part000.ui w)) in
     let written :=
       SpecSave.recordOfInputs (Part000.currentDate (Part000.state w))
                               (Part000.weightInput (Part000.ui w))
                               (Part000.calorieInput (Part000.ui w)) in
     (Part000.mode (Part000.state w) = Part000.morning ->
      (JS.isNaN wv || JS.le wv (JS.ofZ 0) = true ->
       Part000.handleSave w = Part000.alert "正しい体重を入力してください。" w)
      /\ (Part000.currentRecord (Part000.state w) <> None ->
          JS.gt wv (JS.ofZ 0) = true ->
          Part000.db (Part000.handleSave w) = Db.upsertRecord written (Part000.db w)
          /\ Part000.alerts (Part000.handleSave w) = Part000.alerts w))
     /\
     (Part000.mode (Part000.state w) = Part000.night ->
      (JS.isNaN cv || JS.lt cv (JS.ofZ 0) = true ->
       Part000.handleSave w = Part000.alert "正しい総カロリーを入力してください。" w)
      /\ (Part000.currentRecord (Part000.state w) <> None ->
          JS.ge cv (JS.ofZ 0) = true ->
          Part000.db (Part000.handleSave w) = Db.upsertRecord written (Part000.db w)
          /\ Part000.alerts (Part000.handleSave w) = Part000.alerts w)))
  /\
  (forall (w : Part001.World) (d : string),
     Part001.saveDate w = Some d -> d <> ""%string ->
     let wv := Part001.safeNumber (JS.Str (Part001.weightInput (Part001.ui w))) in
     let cv := Part001.safeNumber (JS.Str (Part001.calorieInput (Part001.ui w))) in
     let base := SpecSave.baseRecord d (Part001.db w) in
     (Part001.mode (Part001.st w) = Part001.morning ->
      ((wv = None \/ exists x, wv = Some x /\ JS.le x (JS.ofZ 0) = true) ->
       Part001.saveCurrent w = Part001.alert "正しい体重を入力してください" w)
      /\ (forall x, wv = Some x -> JS.gt x (JS.ofZ 0) = true ->
          Part001.db (Part001.saveCurrent w)
          = Db.upsertRecord
              (Db.mkRecord d (JS.Num x)
                           (SpecSave.normalize (Db.total_calorie base)))
              (Part001.db w)
          /\ Part001.alerts (Part001.saveCurrent w) = Part001.alerts w))
     /\
     (Part001.mode (Part001.st w) = Part001.night ->
      ((cv = None \/ exists x, cv = Some x /\ JS.le x (JS.ofZ 0) = true) ->
       Part001.saveCurrent w = Part001.alert "正しいカロリーを入力してください" w)
      /\ (forall x, cv = Some x -> JS.gt x (JS.ofZ 0) = true ->
          Part001.db (Part001.saveCurrent w)
          = Db.upsertRecord
              (Db.mkRecord d (SpecSave.normalize (Db.weight base)) (JS.Num x))
              (Part001.db w)
          /\ Part001.alerts (Part001.saveCurrent w) = Part001.alerts w))).
Proof.
  split.
  - intros w. cbv zeta. split; intros Hm; split.
    + now apply SaveFacts.handleSave_morning_abort.
    + now apply SaveFacts.handleSave_morning_write.
    + now apply SaveFacts.handleSave_night_abort.
    + now apply SaveFacts.handleSave_night_write.
  - intros w d Hd Hne. cbv zeta. split; intros Hm; split.
    + now apply SaveFacts.saveCurrent_morning_abort with d.
    + intros x. now apply SaveFacts.saveCurrent_morning_write.
    + now apply SaveFacts.saveCurrent_night_abort with d.
    + intros x. now apply SaveFacts.saveCurrent_night_write.
Qed.

(** The statement above, on the sample runs. *)
Lemma C7_validation_of_entries_witness :
  (Examples.badWeight
   = Part000.alert "正しい体重を入力してください。"
                   (Part000.typeWeight "-3" Examples.started)
   /\ Part000.alerts Examples.weighed = Part000.alerts Examples.started
   /\ Examples.badCalorie
      = Part000.alert "正しい総カロリーを入力してください。"
          (Part000.typeCalorie "-5"
             (Part000.switchMode Part000.night Examples.weighed))
   /\ Part000.alerts Examples.zeroNight = Part000.alerts Examples.weighed)
  /\
  (Examples.badWeight001
   = Part001.alert "正しい体重を入力してください"
                   (Part001.typeWeight "0" Examples.started001)
   /\ Part001.alerts Examples.weighed001 = Part001.alerts Examples.started001
   /\ Examples.zeroNight001
      = Part001.alert "正しいカロリーを入力してください"
                      (Part001.typeCalorie "0" Examples.nightMode001)
   /\ Part001.alerts Examples.fedNight001 = Part001.alerts Examples.nightMode001).
Proof.
  destruct C7_validation_of_entries as [H0 H1].
  assert (Hday : Examples.day <> ""%string) by discriminate.
  split.
  - split; [| split; [| split]].
    + destruct (H0 (Part000.typeWeight "-3" Examples.started)) as [M _].
      destruct (M eq_refl) as [A _]. apply A. reflexivity.
    + destruct (H0 (Part000.typeWeight "70" Examples.started)) as [M _].
      destruct (M eq_refl) as [_ B].
      apply B; [vm_compute; discriminate | reflexivity].
    + destruct (H0 (Part000.typeCalorie "-5"
                      (Part000.switchMode Part000.night Examples.weighed)))
        as [_ N].
      destruct (N eq_refl) as [A _]. apply A. reflexivity.
    + destruct (H0 (Part000.typeCalorie "0"
                      (Part000.switchMode Part000.night Examples.weighed)))
        as [_ N].
      destruct (N eq_refl) as [_ B].
      apply B; [vm_compute; discriminate | reflexivity].
  - split; [| split; [| split]].
    + destruct (H1 (Part001.typeWeight "0" Examples.started001) Examples.day
                   eq_refl Hday) as [M _].
      destruct (M eq_refl) as [A _]. apply A.
      right. exists (JS.Fin 0). split; reflexivity.
    + destruct (H1 (Part001.typeWeight "75.26" Examples.started001)
                   Examples.day eq_refl Hday) as [M _].
      destruct (M eq_refl) as [_ B].
      apply (B (JS.Fin (3763 # 50))); reflexivity.
    + destruct (H1 (Part001.typeCalorie "0" Examples.nightMode001)
                   Examples.day eq_refl Hday) as [_ N].
      destruct (N eq_refl) as [A _]. apply A.
      right. exists (JS.Fin 0). split; reflexivity.
    + destruct (H1 (Part001.typeCalorie "1800" Examples.nightMode001)
                   Examples.day eq_refl Hday) as [_ N].
      destruct (N eq_refl) as [_ B].
      apply (B (JS.Fin 1800)); reflexivity.
Defined.

(** C7, the claim as stated fails on part_001: in night mode the entered
    calorie value 0 is turned down with a message and nothing is
    written. *)
Lemma C7_part001_zero_calorie_refused :
  Part001.mode (Part001.st Examples.nightMode001) = Part001.night
  /\ Part001.safeNumber (JS.Str "0") = Some (JS.Fin 0)
  /\ JS.ge (JS.Fin 0) (JS.ofZ 0) = true
  /\ Part001.alerts Examples.zeroNight001 = ["正しいカロリーを入力してください"%string]
  /\ Part001.db Examples.zeroNight001 = Part001.db Examples.nightMode001
  /\ Db.getRecord Examples.day (Part001.db Examples.zeroNight001)
     = Some (Db.mkRecord Examples.day (JS.Num (JS.Fin (3763 # 50))) JS.Null).
Proof. repeat split. Qed.

(** C8: after every sequence of getRecord / upsertRecord / getAllRecords
    operations from the empty store, no two records of the store share a
    date; an upsert under a date that is present replaces the record and
    leaves the number of records unchanged. *)
Theorem C8_one_record_per_date :
  forall ops : list Db.op,
    NoDup (map Db.date (Db.run ops))
    /\ (forall n : nat, NoDup (map Db.date (Db.run (firstn n ops))))
    /\ forall r : Db.record,
         Db.getRecord (Db.date r) (Db.run ops) <> None ->
         List.length (Db.upsertRecord r (Db.run ops)) = List.length (Db.run ops)
         /\ NoDup (map Db.date (Db.upsertRecord r (Db.run ops))).
Proof.
  intros ops. pose proof (DbFacts.run_keySorted ops) as K. split; [| split].
  - now apply DbFacts.keySorted_NoDup.
  - intros n. apply DbFacts.keySorted_NoDup, DbFacts.run_keySorted.
  - intros r Hr. split.
    + now apply DbFacts.put_length_present.
    + apply DbFacts.keySorted_NoDup. now apply DbFacts.put_keySorted.
Qed.

(** The statement above, on the sample runs. *)
Lemma C8_one_record_per_date_witness :
  List.length
    (Db.upsertRecord (Db.mkRecord "2024-01-02" JS.Null JS.Null) Examples.threeDays)
  = List.length Examples.threeDays
  /\ NoDup
       (map Db.date
            (Db.upsertRecord (Db.mkRecord "2024-01-02" JS.Null JS.Null)
                             Examples.threeDays)).
Proof.
  destruct (C8_one_record_per_date
              [Db.UpsertRecord Examples.rec3; Db.UpsertRecord Examples.rec1;
               Db.GetRecord Examples.day; Db.UpsertRecord Examples.rec2;
               Db.GetAllRecords]) as (_ & _ & H).
  apply H. vm_compute. discriminate.
Defined.

(** C9 (as amended): after a successful morning save in part_000
    ([handleSave]) the stored weight is the entered value rounded to one
    decimal place (the nearest tenth, the upper one at a tie); in
    part_001 ([saveCurrent]) the stored weight is the entered number as
    it is, without rounding. *)
Theorem C9_stored_weight_precision :
  (forall (w : Part000.World) (v : Q),
     Part000.mode (Part000.state w) = Part000.morning ->
     Part000.currentRecord (Part000.state w) <> None ->
     JS.parseFloat_string (Part000.weightInput (Part000.ui w)) = JS.Fin v ->
     JS.gt (JS.Fin v) (JS.ofZ 0) = true ->
     exists (x : Q) (c : JS.value),
       Db.getRecord (Part000.currentDate (Part000.state w))
                    (Part000.db (Part000.handleSave w))
       = Some (Db.mkRecord (Part000.currentDate (Part000.state w))
                           (JS.Num (JS.Fin x)) c)
       /\ SpecSave.nearestTenth x v /\ SpecSave.oneDecimal x)
  /\
  (forall (w : Part001.World) (d : string) (x : JS.number),
     Part001.saveDate w = Some d -> d <> ""%string ->
     Part001.mode (Part001.st w) = Part001.morning ->
     Part001.safeNumber (JS.Str (Part001.weightInput (Part001.ui w))) = Some x ->
     JS.gt x (JS.ofZ 0) = true ->
     x = JS.StringToNumber (Part001.weightInput (Part001.ui w))
     /\ exists c : JS.value,
          Db.getRecord d (Part001.db (Part001.saveCurrent w))
          = Some (Db.mkRecord d (JS.Num x) c)).
Proof.
  split.
  - intros w v Hm Hc Hp Hv.
    destruct (SaveFacts.handleSave_morning_write w Hm Hc) as [Hdb _];
      [now rewrite Hp |].
    rewrite Hdb. unfold SpecSave.recordOfInputs.
    rewrite SaveFacts.valid_weight_text by now rewrite Hp.
    rewrite Hp. destruct (SaveFacts.round1_fin v) as (x & Hx & Hn).
    rewrite Hx. eexists x, _. split; [| split].
    + apply (DbFacts.get_put_same (Db.mkRecord _ _ _)).
    + exact Hn.
    + now apply SaveFacts.nearestTenth_oneDecimal with v.
  - intros w d x Hd Hne Hm Hw Hx. split.
    + now apply MergeFacts.safeNumber_Str.
    + destruct (SaveFacts.saveCurrent_morning_write w d x Hd Hne Hm Hw Hx)
        as [Hdb _].
      rewrite Hdb. eexists.
      apply (DbFacts.get_put_same (Db.mkRecord _ _ _)).
Qed.

(** The statement above, on the sample runs. *)
Lemma C9_stored_weight_precision_witness :
  (exists (x : Q) (c : JS.value),
     Db.getRecord Examples.day
       (Part000.db (Part000.handleSave (Part000.typeWeight "75.26" Examples.started)))
     = Some (Db.mkRecord Examples.day (JS.Num (JS.Fin x)) c)
     /\ SpecSave.nearestTenth x (3763 # 50) /\ SpecSave.oneDecimal x)
  /\
  (JS.Fin (3763 # 50) = JS.StringToNumber "75.26"
   /\ exists c : JS.value,
        Db.getRecord Examples.day (Part001.db Examples.weighed001)
        = Some (Db.mkRecord Examples.day (JS.Num (JS.Fin (3763 # 50))) c)).
Proof.
  destruct C9_stored_weight_precision as [H0 H1]. split.
  - apply (H0 (Part000.typeWeight "75.26" Examples.started) (3763 # 50));
      [reflexivity | vm_compute; discriminate | reflexivity | reflexivity].
  - apply (H1 (Part001.typeWeight "75.26" Examples.started001) Examples.day
              (JS.Fin (3763 # 50)));
      [reflexivity | discriminate | reflexivity | reflexivity | reflexivity].
Defined.

(** C9, the claim as stated fails on part_001: the entered weight 75.26
    is stored as 75.26, which does not have one decimal place. *)
Lemma C9_part001_weight_stored_unrounded :
  Part001.weightInput (Part001.ui (Part001.typeWeight "75.26" Examples.started001))
  = "75.26"%string
  /\ Db.getRecord Examples.day (Part001.db Examples.weighed001)
     = Some (Db.mkRecord Examples.day (JS.Num (JS.Fin (3763 # 50))) JS.Null)
  /\ ~ SpecSave.oneDecimal (3763 # 50).
Proof.
  split; [reflexivity | split; [reflexivity |]].
  intros (k & Hk). unfold Qeq in Hk. simpl in Hk. lia.
Qed.

(** C10: in part_000, loading a date whose stored record has
    total_calorie equal to 0 leaves the calorie input empty; a save that
    then goes through (whatever weight is typed, in whatever mode) writes
    for that date a record whose total_calorie is null, and such saves
    exist (morning mode with a valid weight); a save that is turned down
    leaves the store as it was. *)
Theorem C10_zero_calorie_lost_on_load_then_save :
  forall (w : Part000.World) (d : string) (r : Db.record) (q : Q),
    Db.getRecord d (Part000.db w) = Some r ->
    Db.total_calorie r = JS.Num (JS.Fin q) -> (q == 0)%Q ->
    let w1 := Part000.handleDateChange d w in
    Part000.calorieInput (Part000.ui w1) = ""%string
    /\ forall (m : Part000.Mode) (wtxt : string),
         let w2 :=
           Part000.handleSave
             (Part000.typeWeight wtxt (Part000.switchMode m w1)) in
         (m = Part000.morning ->
          JS.gt (JS.parseFloat_string wtxt) (JS.ofZ 0) = true ->
          Part000.alerts w2 = Part000.alerts w1)
         /\ (Part000.alerts w2 = Part000.alerts w1 ->
             exists r' : Db.record,
               Db.date r' = d
               /\ Db.total_calorie r' = JS.Null
               /\ Part000.db w2 = Db.upsertRecord r' (Part000.db w)
               /\ Db.getRecord d (Part000.db w2) = Some r')
         /\ (Part000.alerts w2 <> Part000.alerts w1 ->
             Part000.db w2 = Part000.db w).
Proof.
  intros w d r q Hg Hc Hq. cbv zeta.
  pose proof (MergeFacts.load_zero_calorie w d r q Hg Hc Hq) as Hin.
  destruct (MergeFacts.handleDateChange_state w d r Hg) as (Hdb & Hd & Hcur & Hal).
  split; [exact Hin |].
  intros m wtxt.
  set (w1 := Part000.handleDateChange d w) in *.
  set (w' := Part000.typeWeight wtxt (Part000.switchMode m w1)).
  assert (Hm : Part000.mode (Part000.state w') = m) by reflexivity.
  assert (Hc' : Part000.currentRecord (Part000.state w') <> None).
  { change (Part000.currentRecord (Part000.state w1) <> None).
    rewrite Hcur. discriminate. }
  assert (Hw : Part000.weightInput (Part000.ui w') = wtxt) by reflexivity.
  assert (Hci : Part000.calorieInput (Part000.ui w') = ""%string) by exact Hin.
  assert (Hcd : Part000.currentDate (Part000.state w') = d) by exact Hd.
  assert (Hal' : Part000.alerts w' = Part000.alerts w1) by reflexivity.
  assert (Hdb' : Part000.db w' = Part000.db w) by exact Hdb.
  (* the save either goes through, writing null, or is turned down *)
  assert (Cases :
            (JS.gt (JS.parseFloat_string wtxt) (JS.ofZ 0) = true
             /\ m = Part000.morning
             /\ Part000.alerts (Part000.handleSave w') = Part000.alerts w1
             /\ exists r' : Db.record,
                  Db.date r' = d
                  /\ Db.total_calorie r' = JS.Null
                  /\ Part000.db (Part000.handleSave w')
                     = Db.upsertRecord r' (Part000.db w)
                  /\ Db.getRecord d (Part000.db (Part000.handleSave w'))
                     = Some r')
            \/ ((m = Part000.morning ->
                 JS.gt (JS.parseFloat_string wtxt) (JS.ofZ 0) = false)
                /\ exists msg : string,
                     Part000.handleSave w' = Part000.alert msg w')).
  { destruct m.
    - destruct (JS.isNaN (JS.parseFloat_string wtxt)
                || JS.le (JS.parseFloat_string wtxt) (JS.ofZ 0)) eqn:E.
      + right. split.
        * intros _. apply orb_true_iff in E. destruct E as [E | E].
          -- now destruct (JS.parseFloat_string wtxt).
          -- now apply SaveFacts.le0_not_gt0.
        * eexists. apply SaveFacts.handleSave_morning_abort;
            [exact Hm | now rewrite Hw].
      + left. pose proof (MergeFacts.not_valid_gt0 _ E) as Hv.
        destruct (SaveFacts.handleSave_morning_write w' Hm Hc') as [Hw2 Ha2];
          [now rewrite Hw |].
        split; [exact Hv |]. split; [reflexivity |].
        split; [now rewrite Ha2 |].
        rewrite Hw2, Hw, Hci, Hcd, Hdb'.
        exists (SpecSave.recordOfInputs d wtxt "").
        split; [reflexivity |]. split; [reflexivity |].
        split; [reflexivity |].
        apply (DbFacts.get_put_same (SpecSave.recordOfInputs d wtxt "")).
    - right. split; [discriminate |].
      eexists. apply SaveFacts.handleSave_night_abort;
        [exact Hm | now rewrite Hci]. }
  destruct Cases as [(Hv & -> & Ha & Hr) | (Hbad & msg & Habort)].
  - split; [now intros _ _ |]. split; [now intros _ |].
    intros Hneq. now contradiction Hneq.
  - rewrite Habort. cbn [Part000.alert Part000.alerts Part000.db].
    rewrite Hal', Hdb'.
    split; [| split].
    + intros Hmorn Hv. rewrite (Hbad Hmorn) in Hv. discriminate.
    + intros Hsame. exfalso. now apply MergeFacts.alert_grows in Hsame.
    + now intros _.
Qed.

(** The statement above, on the sample runs. *)
Lemma C10_zero_calorie_lost_on_load_then_save_witness :
  Part000.calorieInput (Part000.ui Examples.reloaded) = ""%string
  /\ Part000.alerts Examples.reweighed = Part000.alerts Examples.reloaded
  /\ (exists r' : Db.record,
        Db.date r' = Examples.day
        /\ Db.total_calorie r' = JS.Null
        /\ Part000.db Examples.reweighed
           = Db.upsertRecord r' (Part000.db Examples.awayNight)
        /\ Db.getRecord Examples.day (Part000.db Examples.reweighed) = Some r')
  /\ Part000.db
       (Part000.handleSave
          (Part000.typeWeight "0"
             (Part000.switchMode Part000.morning Examples.reloaded)))
     = Part000.db Examples.awayNight.
Proof.
  destruct (C10_zero_calorie_lost_on_load_then_save
              Examples.awayNight Examples.day
              (Db.mkRecord Examples.day (JS.Num (JS.Fin 70)) (JS.Num (JS.Fin 0)))
              0%Q eq_refl eq_refl (Qeq_refl 0)) as [Hin Hsave].
  split; [exact Hin |].
  destruct (Hsave Part000.morning "71"%string) as (Hok & Hnull & _).
  destruct (Hsave Part000.morning "0"%string) as (_ & _ & Hkeep).
  split; [apply Hok; reflexivity |].
  split; [apply Hnull; apply Hok; reflexivity |].
  apply Hkeep. vm_compute. discriminate.
Defined.

(* ================================================================== *)
(** * Further properties of the code, X1 onwards *)
(* ================================================================== *)

(** ** Runs of store operations *)

Module RunFacts.
Import SpecStore.

Lemma get_put (r : Db.record) (d : string) (s : Db.store) :
  Db.get d (Db.put r s)
  = if String.eqb (Db.date r) d then Some r else Db.get d s.
Proof.
  destruct (String.eqb_spec (Db.date r) d) as [<- | Hne].
  - apply DbFacts.get_put_same.
  - apply DbFacts.get_put_other. congruence.
Qed.

Lemma get_fold_step (d : string) (ops : list Db.op) (s : Db.store) :
  Db.get d (fold_left Db.step ops s)
  = fold_left
      (fun acc o =>
         match o with
         | Db.UpsertRecord r => if String.eqb (Db.date r) d then Some r else acc
         | Db.GetRecord _ | Db.GetAllRecords => acc
         end)
      ops (Db.get d s).
Proof.
  revert s. induction ops as [| o ops IH]; intros s; [reflexivity |].
  cbn [fold_left]. rewrite IH. f_equal.
  destruct o as [k | r |]; [reflexivity | apply get_put | reflexivity].
Qed.

Lemma run_get (ops : list Db.op) (d : string) :
  Db.get d (Db.run ops) = SpecRun.lastWrite d ops.
Proof. apply (get_fold_step d ops Db.empty). Qed.

(** In a store in key order, a record is found under its own date. *)
Lemma keySorted_In_get (s : Db.store) (r : Db.record) :
  keySorted s -> In r s -> Db.get (Db.date r) s = Some r.
Proof.
  unfold keySorted. induction 1 as [| y s Hs IH Hall]; [intros [] |].
  intros [-> | Hin]; cbn [Db.get].
  - now rewrite String.eqb_refl.
  - destruct (String.eqb_spec (Db.date y) (Db.date r)) as [E | _]; [| now apply IH].
    rewrite Forall_forall in Hall. specialize (Hall r Hin).
    rewrite E in Hall. now apply StrOrder.compare_lt_irrefl in Hall.
Qed.

End RunFacts.

(** X1: after any run of operations from the
    empty store, [getRecord d] returns the record of the last
    [upsertRecord] for date d in the run, and null when the run has none
    (reads and writes for other dates make no difference). *)
Theorem X1_lookup_is_last_write :
  forall (ops : list Db.op) (d : string),
    Db.getRecord d (Db.run ops) = SpecRun.lastWrite d ops.
Proof. intros ops d. apply RunFacts.run_get. Qed.

(** X2: after any run of operations from the
    empty store, [getAllRecords] returns the records in strictly
    ascending date order, and a record is among them exactly when it is
    the last one written for its date. *)
Theorem X2_getAll_is_last_writes :
  forall ops : list Db.op,
    SpecStore.keySorted (Db.getAllRecords (Db.run ops))
    /\ forall r : Db.record,
         In r (Db.getAllRecords (Db.run ops))
         <-> SpecRun.lastWrite (Db.date r) ops = Some r.
Proof.
  intros ops. pose proof (DbFacts.run_keySorted ops) as K.
  split; [exact K |]. intros r.
  rewrite <- RunFacts.run_get.
  split.
  - now apply RunFacts.keySorted_In_get.
  - intros H. now apply DbFacts.get_Some_date in H.
Qed.

(** ** Outcomes of a save *)

Module OutcomeFacts.
Import SpecSave.

(** part_000: the record written, when one is. *)
Lemma handleSave_outcome (w : Part000.World) :
  Part000.handleSave w = w
  \/ (exists msg : string, Part000.handleSave w = Part000.alert msg w)
  \/ (Part000.db (Part000.handleSave w)
      = Db.upsertRecord
          (recordOfInputs (Part000.currentDate (Part000.state w))
                          (Part000.weightInput (Part000.ui w))
                          (Part000.calorieInput (Part000.ui w)))
          (Part000.db w)
      /\ Part000.alerts (Part000.handleSave w) = Part000.alerts w
      /\ Part000.downloads (Part000.handleSave w) = Part000.downloads w).
Proof.
  unfold Part000.handleSave.
  destruct (Part000.mode (Part000.state w)).
  - destruct (JS.isNaN _ || JS.le _ _); [right; left; now eexists |].
    destruct (Part000.currentRecord (Part000.state w)); [| now left].
    right; right. rewrite SaveFacts.saveToDb_db, SaveFacts.saveToDb_alerts.
    split; [reflexivity |]. split; [reflexivity |].
    unfold Part000.saveToDb. now destruct (negb _).
  - destruct (JS.isNaN _ || JS.lt _ _); [right; left; now eexists |].
    destruct (Part000.currentRecord (Part000.state w)); [| now left].
    right; right. rewrite SaveFacts.saveToDb_db, SaveFacts.saveToDb_alerts.
    split; [reflexivity |]. split; [reflexivity |].
    unfold Part000.saveToDb. now destruct (negb _).
Qed.

(** part_001, with a date to save under: a message, or one record
    written and the date loaded again. *)
Lemma saveCurrent_with_date (w : Part001.World) (d : string) :
  Part001.saveDate w = Some d -> d <> ""%string ->
  (exists msg : string, Part001.saveCurrent w = Part001.alert msg w)
  \/ (exists next : Db.record,
        Db.date next = d
        /\ Part001.saveCurrent w
           = Part001.loadRecordForDate d
               (Part001.mkWorld (Db.upsertRecord next (Part001.db w))
                                (Part001.st w) (Part001.ui w)
                                (Part001.alerts w) (Part001.downloads w))).
Proof.
  intros Hd Hne. unfold Part001.saveCurrent. rewrite Hd.
  destruct d as [| c d]; [congruence |].
  match goal with
  | |- context [match ?inv with Some msg => _ | None => _ end] =>
      destruct inv as [msg |]
  end.
  - left. now exists msg.
  - right. eexists. split; [| reflexivity]. reflexivity.
Qed.

(** part_001: the record written, when one is. *)
Lemma saveCurrent_outcome (w : Part001.World) :
  Part001.saveCurrent w = w
  \/ (exists msg : string, Part001.saveCurrent w = Part001.alert msg w)
  \/ (exists (d : string) (next : Db.record),
        Part001.saveDate w = Some d /\ d <> ""%string
        /\ Db.date next = d
        /\ Part001.saveCurrent w
           = Part001.loadRecordForDate d
               (Part001.mkWorld (Db.upsertRecord next (Part001.db w))
                                (Part001.st w) (Part001.ui w)
                                (Part001.alerts w) (Part001.downloads w))).
Proof.
  unfold Part001.saveCurrent.
  destruct (Part001.saveDate w) as [[| c d] |] eqn:Hd; [now left | | now left].
  match goal with
  | |- context [match ?inv with Some msg => _ | None => _ end] =>
      destruct inv as [msg |]
  end.
  - right; left. now exists msg.
  - right; right. eexists (String c d), _.
    split; [reflexivity |]. split; [discriminate |].
    split; [| reflexivity]. reflexivity.
Qed.

End OutcomeFacts.

Module OutcomeFacts2.
Import SpecSave.

Lemma recordOfInputs_date (d wt ct : string) :
  Db.date (recordOfInputs d wt ct) = d.
Proof. reflexivity. Qed.

End OutcomeFacts2.

(** X3: a save never both writes and raises a
    message: either the store is untouched (and at most one message is
    added), or no message is added and exactly one record is written,
    under the current date ([handleSave]) or the date being saved
    ([saveCurrent]). *)
Theorem X3_save_writes_or_alerts :
  (forall w : Part000.World,
     let w' := Part000.handleSave w in
     (Part000.db w' = Part000.db w
      /\ (Part000.alerts w' = Part000.alerts w
          \/ exists msg : string, Part000.alerts w' = Part000.alerts w ++ [msg]))
     \/ (Part000.alerts w' = Part000.alerts w
         /\ exists r : Db.record,
              Db.date r = Part000.currentDate (Part000.state w)
              /\ Part000.db w' = Db.upsertRecord r (Part000.db w)))
  /\
  (forall w : Part001.World,
     let w' := Part001.saveCurrent w in
     (Part001.db w' = Part001.db w
      /\ (Part001.alerts w' = Part001.alerts w
          \/ exists msg : string, Part001.alerts w' = Part001.alerts w ++ [msg]))
     \/ (Part001.alerts w' = Part001.alerts w
         /\ exists r : Db.record,
              Part001.saveDate w = Some (Db.date r)
              /\ Part001.db w' = Db.upsertRecord r (Part001.db w))).
Proof.
  split; intros w; cbv zeta.
  - destruct (OutcomeFacts.handleSave_outcome w) as [-> | [(msg & ->) | (D & A & _)]].
    + left. split; [reflexivity | now left].
    + left. split; [reflexivity | right; now exists msg].
    + right. split; [exact A |]. eexists. split; [| exact D]. reflexivity.
  - destruct (OutcomeFacts.saveCurrent_outcome w)
      as [-> | [(msg & ->) | (d & next & Hd & _ & Hn & ->)]].
    + left. split; [reflexivity | now left].
    + left. split; [reflexivity | right; now exists msg].
    + right. split; [reflexivity |]. exists next. now rewrite Hn.
Qed.

(** X4: whatever its outcome, a save leaves
    the stored record of every other date as it was. *)
Theorem X4_save_leaves_other_dates :
  (forall (w : Part000.World) (d : string),
     d <> Part000.currentDate (Part000.state w) ->
     Db.getRecord d (Part000.db (Part000.handleSave w))
     = Db.getRecord d (Part000.db w))
  /\
  (forall (w : Part001.World) (d : string),
     Part001.saveDate w <> Some d ->
     Db.getRecord d (Part001.db (Part001.saveCurrent w))
     = Db.getRecord d (Part001.db w)).
Proof.
  split; intros w d Hd.
  - destruct (OutcomeFacts.handleSave_outcome w) as [-> | [(msg & ->) | (D & _)]];
      [reflexivity | reflexivity |].
    rewrite D. now apply DbFacts.get_put_other.
  - destruct (OutcomeFacts.saveCurrent_outcome w)
      as [-> | [(msg & ->) | (d' & next & Hd' & _ & Hn & ->)]];
      [reflexivity | reflexivity |].
    cbn [Part001.loadRecordForDate Part001.db].
    apply DbFacts.get_put_other. rewrite Hn. congruence.
Qed.

(** The statement above, on the sample runs. *)
Lemma X4_save_leaves_other_dates_witness :
  Db.getRecord "2024-01-02" (Part000.db Examples.reweighed)
  = Db.getRecord "2024-01-02" (Part000.db Examples.reloaded)
  /\ Db.getRecord "2024-01-02" (Part001.db Examples.fedNight001)
     = Db.getRecord "2024-01-02" (Part001.db Examples.nightMode001).
Proof.
  destruct X4_save_leaves_other_dates as [H0 H1]. split.
  - apply (H0 (Part000.typeWeight "71"
                 (Part000.switchMode Part000.morning Examples.reloaded))).
    discriminate.
  - apply (H1 (Part001.typeCalorie "1800" Examples.nightMode001)).
    discriminate.
Defined.

Module AfterSaveFacts.
Import SpecSave.

(** part_000: what a save that writes leaves in the controller. *)
Lemma saveToDb_state (w : Part000.World) :
  let written :=
    recordOfInputs (Part000.currentDate (Part000.state w))
                   (Part000.weightInput (Part000.ui w))
                   (Part000.calorieInput (Part000.ui w)) in
  Part000.currentRecord (Part000.state (Part000.saveToDb w)) = Some written
  /\ Part000.isExistingRecord (Part000.state (Part000.saveToDb w)) = true
  /\ Part000.currentDate (Part000.state (Part000.saveToDb w))
     = Part000.currentDate (Part000.state w)
  /\ Part000.mode (Part000.state (Part000.saveToDb w))
     = Part000.mode (Part000.state w)
  /\ Part000.calorieInput (Part000.ui (Part000.saveToDb w))
     = Part000.calorieInput (Part000.ui w).
Proof.
  cbv zeta. unfold Part000.saveToDb, recordOfInputs, round1.
  destruct (String.eqb (Part000.weightInput (Part000.ui w)) "");
    destruct (String.eqb (Part000.calorieInput (Part000.ui w)) "");
    repeat split.
Qed.

Lemma handleSave_success (w : Part000.World) :
  Part000.currentRecord (Part000.state w) <> None ->
  Part000.alerts (Part000.handleSave w) = Part000.alerts w ->
  exists w0 : Part000.World,
    Part000.handleSave w = Part000.saveToDb w0
    /\ Part000.db w0 = Part000.db w
    /\ Part000.ui w0 = Part000.ui w
    /\ Part000.currentDate (Part000.state w0) = Part000.currentDate (Part000.state w)
    /\ Part000.mode (Part000.state w0) = Part000.mode (Part000.state w).
Proof.
  intros Hc Ha. unfold Part000.handleSave in *.
  destruct (Part000.currentRecord (Part000.state w)) as [cur |]; [| congruence].
  destruct (Part000.mode (Part000.state w)) eqn:Hm.
  - destruct (JS.isNaN _ || JS.le _ _).
    + cbn [Part000.alert Part000.alerts] in Ha.
      now apply MergeFacts.alert_grows in Ha.
    + eexists. split; [reflexivity |]. cbn. now rewrite Hm.
  - destruct (JS.isNaN _ || JS.lt _ _).
    + cbn [Part000.alert Part000.alerts] in Ha.
      now apply MergeFacts.alert_grows in Ha.
    + eexists. split; [reflexivity |]. cbn. now rewrite Hm.
Qed.

End AfterSaveFacts.

(** X5: after a save that goes through, the current
    record held by the controller is the record now stored for the date
    (part_000 also marks it as existing; part_001 has loaded the date
    again, its date input showing the date). *)
Theorem X5_state_after_save :
  (forall w : Part000.World,
     Part000.currentRecord (Part000.state w) <> None ->
     Part000.alerts (Part000.handleSave w) = Part000.alerts w ->
     let w' := Part000.handleSave w in
     let d := Part000.currentDate (Part000.state w) in
     Part000.currentRecord (Part000.state w') = Db.getRecord d (Part000.db w')
     /\ Part000.currentRecord (Part000.state w') <> None
     /\ Part000.isExistingRecord (Part000.state w') = true
     /\ Part000.currentDate (Part000.state w') = d)
  /\
  (forall (w : Part001.World) (d : string),
     Part001.saveDate w = Some d -> d <> ""%string ->
     Part001.alerts (Part001.saveCurrent w) = Part001.alerts w ->
     let w' := Part001.saveCurrent w in
     Part001.currentRecord (Part001.st w') = Db.getRecord d (Part001.db w')
     /\ Part001.currentRecord (Part001.st w') <> None
     /\ Part001.currentDate (Part001.st w') = Some d
     /\ Part001.dateInput (Part001.ui w') = d).
Proof.
  split.
  - intros w Hc Ha. cbv zeta.
    destruct (AfterSaveFacts.handleSave_success w Hc Ha)
      as (w0 & -> & Hdb & Hui & Hcd & Hm).
    destruct (AfterSaveFacts.saveToDb_state w0) as (C & E & D & _).
    rewrite C, E, D, SaveFacts.saveToDb_db, Hcd.
    split; [| split; [discriminate | split; reflexivity]].
    symmetry. rewrite <- Hcd.
    apply (DbFacts.get_put_same
             (SpecSave.recordOfInputs (Part000.currentDate (Part000.state w0)) _ _)).
  - intros w d Hd Hne Ha. cbv zeta.
    destruct (OutcomeFacts.saveCurrent_with_date w d Hd Hne)
      as [(msg & E) | (next & Hn & E)].
    + rewrite E in Ha. cbn [Part001.alert Part001.alerts] in Ha.
      now apply MergeFacts.alert_grows in Ha.
    + rewrite E.
      cbn [Part001.loadRecordForDate Part001.db Part001.st Part001.ui
           Part001.currentRecord Part001.currentDate Part001.dateInput].
      assert (G : Db.getRecord d (Db.upsertRecord next (Part001.db w))
                  = Some next).
      { rewrite <- Hn. apply DbFacts.get_put_same. }
      rewrite G. split; [reflexivity |]. split; [discriminate |]. now split.
Qed.


(** The statement above, on the sample runs. *)
Lemma X5_state_after_save_witness :
  (Part000.currentRecord (Part000.state Examples.weighed)
   = Db.getRecord Examples.day (Part000.db Examples.weighed)
   /\ Part000.isExistingRecord (Part000.state Examples.weighed) = true)
  /\ (Part001.currentRecord (Part001.st Examples.weighed001)
      = Db.getRecord Examples.day (Part001.db Examples.weighed001)
      /\ Part001.dateInput (Part001.ui Examples.weighed001) = Examples.day).
Proof.
  destruct X5_state_after_save as [H0 H1]. split.
  - destruct (H0 (Part000.typeWeight "70" Examples.started))
      as (A & _ & B & _); [vm_compute; discriminate | reflexivity |].
    split; [exact A | exact B].
  - destruct (H1 (Part001.typeWeight "75.26" Examples.started001) Examples.day)
      as (A & _ & _ & B); [reflexivity | discriminate | reflexivity |].
    split; [exact A | exact B].
Defined.

(** X6: in part_001 the text of the input of
    the other mode plays no part in a save, neither in the check nor in
    the record written. *)
Theorem X6_other_input_ignored_001 :
  forall (w : Part001.World) (text : string),
    (Part001.mode (Part001.st w) = Part001.morning ->
     Part001.db (Part001.saveCurrent (Part001.typeCalorie text w))
     = Part001.db (Part001.saveCurrent w)
     /\ Part001.alerts (Part001.saveCurrent (Part001.typeCalorie text w))
        = Part001.alerts (Part001.saveCurrent w))
    /\
    (Part001.mode (Part001.st w) = Part001.night ->
     Part001.db (Part001.saveCurrent (Part001.typeWeight text w))
     = Part001.db (Part001.saveCurrent w)
     /\ Part001.alerts (Part001.saveCurrent (Part001.typeWeight text w))
        = Part001.alerts (Part001.saveCurrent w)).
Proof.
  intros w text. split; intros Hm.
  - unfold Part001.saveCurrent.
    change (Part001.saveDate (Part001.typeCalorie text w)) with (Part001.saveDate w).
    destruct (Part001.saveDate w) as [[| c d] |]; [now split | | now split].
    cbn [Part001.typeCalorie Part001.st Part001.ui Part001.weightInput
         Part001.calorieInput Part001.db Part001.alerts].
    rewrite Hm.
    destruct (Part001.safeNumber (JS.Str (Part001.weightInput (Part001.ui w))))
      as [x |]; [| now split].
    destruct (JS.le x (JS.ofZ 0)); [now split |].
    now split.
  - unfold Part001.saveCurrent.
    change (Part001.saveDate (Part001.typeWeight text w)) with (Part001.saveDate w).
    destruct (Part001.saveDate w) as [[| c d] |]; [now split | | now split].
    cbn [Part001.typeWeight Part001.st Part001.ui Part001.weightInput
         Part001.calorieInput Part001.db Part001.alerts].
    rewrite Hm.
    destruct (Part001.safeNumber (JS.Str (Part001.calorieInput (Part001.ui w))))
      as [x |]; [| now split].
    destruct (JS.le x (JS.ofZ 0)); [now split |].
    now split.
Qed.

(** The statement above, on the sample runs. *)
Lemma X6_other_input_ignored_001_witness :
  Part001.db (Part001.saveCurrent
                (Part001.typeCalorie "-5" (Part001.typeWeight "75.26"
                                                              Examples.started001)))
  = Part001.db Examples.weighed001.
Proof.
  destruct (X6_other_input_ignored_001
              (Part001.typeWeight "75.26" Examples.started001) "-5") as [M _].
  destruct (M eq_refl) as [D _]. exact D.
Defined.

(** X7: in part_000 a negative calorie
    text that the night save turned down stays in the input, and the next
    morning save with a valid weight writes it to the store without a
    check. *)
Theorem X7_refused_calorie_written_000 :
  forall (w : Part000.World) (ctxt wtxt : string) (z : Q),
    Part000.currentRecord (Part000.state w) <> None ->
    JS.parseInt_string ctxt = JS.Fin z -> (z < 0)%Q ->
    JS.gt (JS.parseFloat_string wtxt) (JS.ofZ 0) = true ->
    let w1 :=
      Part000.handleSave
        (Part000.typeCalorie ctxt (Part000.switchMode Part000.night w)) in
    let w2 :=
      Part000.handleSave
        (Part000.typeWeight wtxt (Part000.switchMode Part000.morning w1)) in
    Part000.db w1 = Part000.db w
    /\ Part000.alerts w1
       = Part000.alerts w ++ ["正しい総カロリーを入力してください。"%string]
    /\ Part000.alerts w2 = Part000.alerts w1
    /\ exists wv : JS.value,
         Db.getRecord (Part000.currentDate (Part000.state w)) (Part000.db w2)
         = Some (Db.mkRecord (Part000.currentDate (Part000.state w)) wv
                             (JS.Num (JS.Fin z))).
Proof.
  intros w ctxt wtxt z Hc Hp Hz Hv. cbv zeta.
  set (wn := Part000.typeCalorie ctxt (Part000.switchMode Part000.night w)).
  assert (E1 : Part000.handleSave wn
               = Part000.alert "正しい総カロリーを入力してください。" wn).
  { apply SaveFacts.handleSave_night_abort; [reflexivity |].
    cbv zeta. change (Part000.calorieInput (Part000.ui wn)) with ctxt.
    rewrite Hp. unfold JS.isNaN, JS.lt, JS.Qltb, JS.ofZ. cbn [orb].
    apply negb_true_iff. destruct (Qle_bool (inject_Z 0) z) eqn:L; [| reflexivity].
    apply Qle_bool_iff in L. exfalso. apply (Qlt_not_le _ _ Hz).
    exact L. }
  rewrite E1.
  split; [reflexivity |]. split; [reflexivity |].
  set (w1 := Part000.alert _ wn).
  set (wm := Part000.typeWeight wtxt (Part000.switchMode Part000.morning w1)).
  destruct (SaveFacts.handleSave_morning_write wm) as [D A];
    [reflexivity | exact Hc | exact Hv |].
  split; [exact A |]. rewrite D.
  change (Part000.calorieInput (Part000.ui wm)) with ctxt.
  change (Part000.weightInput (Part000.ui wm)) with wtxt.
  change (Part000.currentDate (Part000.state wm))
    with (Part000.currentDate (Part000.state w)).
  unfold SpecSave.recordOfInputs.
  assert (Hne : String.eqb ctxt "" = false).
  { destruct ctxt; [discriminate Hp | reflexivity]. }
  rewrite Hne, Hp. eexists.
  apply (DbFacts.get_put_same (Db.mkRecord _ _ _)).
Qed.

(** The statement above, on the sample runs. *)
Lemma X7_refused_calorie_written_000_witness :
  exists wv : JS.value,
    Db.getRecord Examples.day
      (Part000.db
         (Part000.handleSave
            (Part000.typeWeight "70"
               (Part000.switchMode Part000.morning
                  (Part000.handleSave
                     (Part000.typeCalorie "-5"
                        (Part000.switchMode Part000.night Examples.started)))))))
    = Some (Db.mkRecord Examples.day wv (JS.Num (JS.Fin (-5 # 1)))).
Proof.
  destruct (X7_refused_calorie_written_000 Examples.started "-5" "70" (-5 # 1))
    as (_ & _ & _ & H);
    [vm_compute; discriminate | reflexivity | reflexivity | reflexivity |].
  exact H.
Defined.

(** ** Sorting what is in order already *)

Section SortOfSorted.
Context {A : Type}.
Variable key : A -> string.
Local Abbreviation byKey := (SpecSort.byKey key).
Local Abbreviation key_le := (SpecSort.key_le key).






End SortOfSorted.

Module OrderFacts.



End OrderFacts.


(** ** The lines of the report *)

Module RowFacts.

Lemma tableRows_dates (prev : option JS.number) (records : list Db.record) :
  map Part000.dr_date (Part000.tableRows prev records)
  = map Db.date
        (filter (fun r => negb (JS.isNullish (Db.weight r))) records).
Proof.
  revert prev. induction records as [| r rs IH]; intros prev;
    cbn [Part000.tableRows filter]; [reflexivity |].
  unfold Part000.weightOf.
  destruct (negb (JS.isNullish (Db.weight r))); cbn [map Part000.dr_date];
    now rewrite IH.
Qed.

Lemma tableRows_listed_weights (prev : option JS.number) (records : list Db.record) :
  map Part000.dr_weight (Part000.tableRows prev records)
  = map (fun r => JS.parseFloat (Db.weight r))
        (filter (fun r => negb (JS.isNullish (Db.weight r))) records).
Proof.
  revert prev. induction records as [| r rs IH]; intros prev;
    cbn [Part000.tableRows filter]; [reflexivity |].
  unfold Part000.weightOf.
  destruct (negb (JS.isNullish (Db.weight r))); cbn [map Part000.dr_weight];
    now rewrite IH.
Qed.

Lemma summaryWeights_length (records : list Db.record) :
  (List.length (Part000.summaryWeights records)
   <= List.length
        (filter (fun r => negb (JS.isNullish (Db.weight r))) records))%nat.
Proof.
  unfold Part000.summaryWeights.
  induction records as [| r rs IH]; cbn [map Part000.positives filter];
    [constructor |].
  unfold Part000.weightOf at 1.
  destruct (negb (JS.isNullish (Db.weight r))); [| exact IH].
  destruct (JS.gt _ _); cbn [List.length]; lia.
Qed.

Lemma reportRows_dates (prev : option JS.number) (records : list Db.record) :
  map Part001.dr_date (Part001.reportRows prev records) = map Db.date records.
Proof.
  revert prev. induction records as [| r rs IH]; intros prev;
    cbn [Part001.reportRows map Part001.dr_date]; [reflexivity |].
  now rewrite IH.
Qed.

Lemma reportRows_all_weights (prev : option JS.number) (records : list Db.record) :
  map Part001.dr_weight (Part001.reportRows prev records)
  = map (fun r => Part001.safeNumber (Db.weight r)) records.
Proof.
  revert prev. induction records as [| r rs IH]; intros prev;
    cbn [Part001.reportRows map Part001.dr_weight]; [reflexivity |].
  now rewrite IH.
Qed.

Lemma reportWeights_length (prev : option JS.number) (records : list Db.record) :
  List.length (Part001.reportWeights records)
  = List.length (filter Spec.hasWeight (Part001.reportRows prev records)).
Proof.
  unfold Part001.reportWeights.
  revert prev. induction records as [| r rs IH]; intros prev;
    cbn [map Part001.present Part001.reportRows filter]; [reflexivity |].
  unfold Spec.hasWeight at 1. cbn [Part001.dr_weight].
  destruct (Part001.safeNumber (Db.weight r)); cbn [Spec.isSome List.length];
    [f_equal |]; apply IH.
Qed.





End RowFacts.

(** X9: which records get a line in the report.
    part_000 lists the records whose weight is neither null nor
    undefined, in the order given, each with its date and its parsed
    weight, and shows the single line [データがありません] exactly when there is
    none; the weight summary counts at most as many values as there are
    lines.  part_001 gives every record a line, with a weight where
    [safeNumber] finds one, and its weight summary counts exactly the
    lines that have a weight. *)
Theorem X9_report_table_lines :
  forall records : list Db.record,
    let listed :=
      filter (fun r => negb (JS.isNullish (Db.weight r))) records in
    (Part000.renderReportTable records
     = match listed with
       | [] => [Part000.EmptyRow "データがありません"]
       | _ :: _ => map Part000.renderRow (Part000.tableRows None records)
       end)
    /\ map Part000.dr_date (Part000.tableRows None records)
       = map Db.date listed
    /\ map Part000.dr_weight (Part000.tableRows None records)
       = map (fun r => JS.parseFloat (Db.weight r)) listed
    /\ (List.length (Part000.summaryWeights records)
        <= List.length (Part000.tableRows None records))%nat
    /\ map Part001.dr_date (Part001.reportRows None records)
       = map Db.date records
    /\ map Part001.dr_weight (Part001.reportRows None records)
       = map (fun r => Part001.safeNumber (Db.weight r)) records
    /\ List.length (Part001.reportWeights records)
       = List.length
           (filter Spec.hasWeight (Part001.reportRows None records)).
Proof.
  intros records listed.
  pose proof (RowFacts.tableRows_dates None records) as D.
  fold listed in D.
  split; [| split; [exact D | split; [apply RowFacts.tableRows_listed_weights |
    split; [| split; [apply RowFacts.reportRows_dates |
    split; [apply RowFacts.reportRows_all_weights |
            apply RowFacts.reportWeights_length]]]]]].
  - unfold Part000.renderReportTable.
    destruct listed as [| l ls];
      destruct (Part000.tableRows None records) as [| x xs];
      try discriminate D; reflexivity.
  - rewrite <- (length_map Part000.dr_date), D, length_map.
    apply RowFacts.summaryWeights_length.
Qed.

(** ** Bounds of the weight summary *)

Module BoundFacts.
Import SpecSummary.





End BoundFacts.



(** ** A saved weight in the report *)

Module ShownFacts.
Import SpecSave.


End ShownFacts.



(** ** Calendar fields *)

Module CalFacts.
Import JSDate JSCal.

Lemma DayFromYear_est_lo (d : Z) :
  DayFromYear (1970 + (d * 400) / 146097 - 1) <= d.
Proof. unfold DayFromYear. Z.div_mod_to_equations. lia. Qed.

Lemma DayFromYear_est_hi (d : Z) :
  d < DayFromYear (1970 + (d * 400) / 146097 + 2).
Proof. unfold DayFromYear. Z.div_mod_to_equations. lia. Qed.

Lemma YearFromDay_spec (d : Z) :
  DayFromYear (YearFromDay d) <= d < DayFromYear (YearFromDay d + 1).
Proof.
  unfold YearFromDay. cbv zeta.
  set (y := 1970 + (d * 400) / 146097).
  pose proof (DayFromYear_est_lo d) as L. pose proof (DayFromYear_est_hi d) as U.
  fold y in L, U.
  destruct (Z.ltb_spec d (DayFromYear y)).
  - replace (y - 1 + 1) with y by lia. lia.
  - destruct (Z.leb_spec (DayFromYear (y + 1)) d).
    + replace (y + 1 + 1) with (y + 2) by lia. lia.
    + lia.
Qed.

Lemma DayWithinYear_range (d : Z) :
  0 <= DayWithinYear d < DaysInYear (YearFromDay d).
Proof.
  unfold DayWithinYear. pose proof (YearFromDay_spec d) as H.
  rewrite DateFacts.DayFromYear_succ in H. lia.
Qed.

Lemma YearFromDay_unique (y d : Z) :
  DayFromYear y <= d < DayFromYear (y + 1) -> YearFromDay d = y.
Proof.
  intros H. pose proof (YearFromDay_spec d) as S.
  rewrite DateFacts.DayFromYear_succ in H, S.
  destruct (Z.lt_trichotomy (YearFromDay d) y) as [L | [E | G]]; [| exact E |].
  - pose proof (DateFacts.DayFromYear_lt _ _ L). lia.
  - pose proof (DateFacts.DayFromYear_lt _ _ G). lia.
Qed.

Lemma MonthFromDay_cases (d : Z) :
  let y := YearFromDay d in
  let n := DayWithinYear d in
  let m := MonthFromDay d in
  1 <= m <= 12
  /\ DaysBeforeMonth y m <= n < DaysBeforeMonth y m + DaysInMonth y m.
Proof.
  cbv zeta. pose proof (DayWithinYear_range d) as R.
  rewrite DateFacts.InLeapYear_days in R.
  unfold MonthFromDay. cbv zeta.
  set (n := DayWithinYear d) in *. set (y := YearFromDay d) in *.
  unfold DaysBeforeMonth, DaysInMonth.
  destruct (InLeapYear y);
    repeat match goal with
           | |- context [?a <? ?b] => destruct (Z.ltb_spec a b)
           end; cbn; lia.
Qed.

Lemma DateFromDay_range (d : Z) :
  1 <= DateFromDay d <= DaysInMonth (YearFromDay d) (MonthFromDay d).
Proof.
  unfold DateFromDay. pose proof (MonthFromDay_cases d) as H. cbv zeta in H. lia.
Qed.

Lemma MonthFromDay_range (d : Z) : 1 <= MonthFromDay d <= 12.
Proof. apply (MonthFromDay_cases d). Qed.

(** The three fields of a day give the day back. *)
Lemma MakeDay_fields (d : Z) :
  MakeDay (YearFromDay d) (MonthFromDay d) (DateFromDay d) = d.
Proof. unfold MakeDay, DateFromDay, DayWithinYear. lia. Qed.

(** The day of a calendar date has that date's fields. *)
Lemma fields_MakeDay (y m dd : Z) :
  1 <= m <= 12 -> 1 <= dd <= DaysInMonth y m ->
  YearFromDay (MakeDay y m dd) = y
  /\ MonthFromDay (MakeDay y m dd) = m
  /\ DateFromDay (MakeDay y m dd) = dd.
Proof.
  intros Hm Hd.
  pose proof (DateFacts.dayInYear_range y m dd Hm Hd) as R.
  assert (Y : YearFromDay (MakeDay y m dd) = y).
  { apply YearFromDay_unique. rewrite DateFacts.DayFromYear_succ.
    unfold MakeDay. lia. }
  pose proof (MonthFromDay_cases (MakeDay y m dd)) as C. cbv zeta in C.
  pose proof (DateFromDay_range (MakeDay y m dd)) as Dr.
  unfold DateFromDay in *. unfold DayWithinYear in *. rewrite Y in *.
  set (m' := MonthFromDay (MakeDay y m dd)) in *.
  destruct C as [Cm Cn].
  assert (M : m' = m).
  { unfold MakeDay in Cn.
    destruct (Z.lt_trichotomy m' m) as [L | [E | G]]; [| exact E |].
    - pose proof (DateFacts.dayInYear_month_lt y m'
                    (DaysInMonth y m') m 1 Cm) as Q.
      assert (1 <= DaysInMonth y m' <= DaysInMonth y m')
        by (clear - Cm; DateFacts.months m' Cm; unfold DaysInMonth;
            try destruct (InLeapYear y); lia).
      specialize (Q H Hm). lia.
    - pose proof (DateFacts.dayInYear_month_lt y m dd m' 1 Hm Hd Cm) as Q.
      assert (1 <= 1 <= DaysInMonth y m')
        by (clear - Cm; DateFacts.months m' Cm; unfold DaysInMonth;
            try destruct (InLeapYear y); lia).
      specialize (Q H). lia. }
  split; [reflexivity | split; [exact M |]].
  rewrite M. unfold MakeDay. lia.
Qed.

End CalFacts.

(** ** Date texts *)

Module TextFacts.
Import JSDate JSCal.

(** Numbers of four digits are written with their four digits. *)
Lemma string_of_Z_4 (y : Z) :
  1000 <= y <= 9999 ->
  exists (c1 c2 c3 c4 : ascii) (a b c d : Z),
    JS.string_of_Z y = String c1 (String c2 (String c3 (String c4 EmptyString)))
    /\ JS.digit_of c1 = Some a /\ JS.digit_of c2 = Some b
    /\ JS.digit_of c3 = Some c /\ JS.digit_of c4 = Some d
    /\ num4 a b c d = y.
Proof.
  intros H.
  pose (check := fun y : Z =>
    match JS.string_of_Z y with
    | String c1 (String c2 (String c3 (String c4 EmptyString))) =>
        match JS.digit_of c1, JS.digit_of c2, JS.digit_of c3, JS.digit_of c4 with
        | Some a, Some b, Some c, Some d => num4 a b c d =? y
        | _, _, _, _ => false
        end
    | _ => false
    end).
  assert (A : forallb (fun n => check (1000 + Z.of_nat n)) (seq 0 (Z.to_nat 9000)) = true)
    by (vm_compute; reflexivity).
  rewrite forallb_forall in A.
  specialize (A (Z.to_nat (y - 1000))).
  rewrite Z2Nat.id in A by lia. replace (1000 + (y - 1000)) with y in A by lia.
  assert (C : check y = true) by (apply A, in_seq; lia).
  unfold check in C.
  destruct (JS.string_of_Z y) as [| c1 [| c2 [| c3 [| c4 [| c5 s]]]]];
    try discriminate C.
  destruct (JS.digit_of c1) as [a |] eqn:Ea; [| discriminate C].
  destruct (JS.digit_of c2) as [b |] eqn:Eb; [| discriminate C].
  destruct (JS.digit_of c3) as [c |] eqn:Ec; [| discriminate C].
  destruct (JS.digit_of c4) as [d |] eqn:Ed; [| discriminate C].
  apply Z.eqb_eq in C.
  exists c1, c2, c3, c4, a, b, c, d. repeat split; assumption || reflexivity.
Qed.

(** Numbers below a hundred are padded to their two digits. *)
Lemma padStart0_2 (n : Z) :
  0 <= n <= 99 ->
  exists (c1 c2 : ascii) (a b : Z),
    padStart0 2 (JS.string_of_Z n) = String c1 (String c2 EmptyString)
    /\ JS.digit_of c1 = Some a /\ JS.digit_of c2 = Some b
    /\ num2 a b = n.
Proof.
  intros H.
  pose (check := fun n : Z =>
    match padStart0 2 (JS.string_of_Z n) with
    | String c1 (String c2 EmptyString) =>
        match JS.digit_of c1, JS.digit_of c2 with
        | Some a, Some b => num2 a b =? n
        | _, _ => false
        end
    | _ => false
    end).
  assert (A : forallb (fun k => check (Z.of_nat k)) (seq 0 100) = true)
    by (vm_compute; reflexivity).
  rewrite forallb_forall in A.
  specialize (A (Z.to_nat n)).
  rewrite Z2Nat.id in A by lia.
  assert (C : check n = true) by (apply A, in_seq; lia).
  unfold check in C.
  destruct (padStart0 2 (JS.string_of_Z n)) as [| c1 [| c2 [| c3 s]]];
    try discriminate C.
  destruct (JS.digit_of c1) as [a |] eqn:Ea; [| discriminate C].
  destruct (JS.digit_of c2) as [b |] eqn:Eb; [| discriminate C].
  apply Z.eqb_eq in C.
  exists c1, c2, a, b. repeat split; assumption || reflexivity.
Qed.

Lemma DaysInMonth_le (y m : Z) : DaysInMonth y m <= 31.
Proof.
  unfold DaysInMonth. destruct (InLeapYear y);
    destruct m as [| p | p]; try lia;
    do 4 (try destruct p as [p | p |]; try lia).
Qed.

(** The text of a calendar date with a year of four digits reads back
    as that date. *)
Lemma parseYMD_ymdString (y m d : Z) :
  1000 <= y <= 9999 -> 1 <= m <= 12 -> 1 <= d <= DaysInMonth y m ->
  parseYMD (ymdString y m d) = Some (y, m, d).
Proof.
  intros Hy Hm Hd. pose proof (DaysInMonth_le y m) as Hd'.
  destruct (string_of_Z_4 y Hy)
    as (c1 & c2 & c3 & c4 & a & b & c & e & Ey & Ea & Eb & Ec & Ee & Ny).
  destruct (padStart0_2 m) as (m1 & m2 & f & g & Em & Ef & Eg & Nm); [lia |].
  destruct (padStart0_2 d) as (d1 & d2 & h & i & Ed & Eh & Ei & Nd); [lia |].
  unfold ymdString. rewrite Ey, Em, Ed.
  unfold parseYMD. cbn [append list_ascii_of_string].
  cbn [Ascii.eqb Bool.eqb andb].
  rewrite Ea, Eb, Ec, Ee, Ef, Eg, Eh, Ei, Ny, Nm, Nd.
  assert (V : validYMD y m d = true).
  { unfold validYMD. repeat (apply andb_true_intro; split); apply Z.leb_le; lia. }
  now rewrite V.
Qed.

End TextFacts.

(** ** Local time *)

Module LocalFacts.
Import JSDate JSCal.

Lemma LocalDay_setHours0 (tza t : Z) :
  LocalDay tza (setHours0 tza t) = LocalDay tza t.
Proof.
  unfold LocalDay, Day, setHours0.
  replace ((t + tza) / msPerDay * msPerDay - tza + tza)
    with ((t + tza) / msPerDay * msPerDay) by lia.
  apply Z.div_mul. discriminate.
Qed.

Lemma TimeWithinDay_setHours0 (tza t : Z) :
  TimeWithinDay (setHours0 tza t + tza) = 0.
Proof.
  unfold TimeWithinDay, setHours0.
  replace ((t + tza) / msPerDay * msPerDay - tza + tza)
    with ((t + tza) / msPerDay * msPerDay) by lia.
  apply Z.mod_mul. discriminate.
Qed.

Lemma LocalDay_make (tza D r : Z) :
  0 <= r < msPerDay -> LocalDay tza (D * msPerDay + r - tza) = D.
Proof.
  intros H. unfold LocalDay, Day.
  replace (D * msPerDay + r - tza + tza) with (r + D * msPerDay) by lia.
  rewrite Z.div_add by discriminate. rewrite Z.div_small by exact H. lia.
Qed.

Lemma TimeWithinDay_range (t : Z) : 0 <= TimeWithinDay t < msPerDay.
Proof. apply Z.mod_pos_bound. reflexivity. Qed.

Lemma LocalDay_setDate (tza dt t : Z) :
  LocalDay tza (setDate tza dt t)
  = MakeDay0 (getFullYear tza t) (getMonth tza t) dt.
Proof. unfold setDate. apply LocalDay_make, TimeWithinDay_range. Qed.

Lemma LocalDay_setMonth (tza m t : Z) :
  LocalDay tza (setMonth tza m t)
  = MakeDay0 (getFullYear tza t) m (getDate tza t).
Proof. unfold setMonth. apply LocalDay_make, TimeWithinDay_range. Qed.

Lemma MakeDay0_month (y m dt : Z) :
  1 <= m <= 12 -> MakeDay0 y (m - 1) dt = MakeDay y m dt.
Proof.
  intros H. unfold MakeDay0.
  rewrite Z.div_small, Z.mod_small by lia. f_equal; lia.
Qed.

(** Setting the day of the month [k] days back goes [k] days back. *)
Lemma LocalDay_setDate_back (tza k t : Z) :
  LocalDay tza (setDate tza (getDate tza t - k) t) = LocalDay tza t - k.
Proof.
  rewrite LocalDay_setDate. unfold getFullYear, getMonth, getDate.
  rewrite MakeDay0_month by apply CalFacts.MonthFromDay_range.
  pose proof (CalFacts.MakeDay_fields (LocalDay tza t)) as F.
  unfold MakeDay in *. lia.
Qed.

Lemma YearFromDay_bounds (a b d : Z) :
  DayFromYear a <= d < DayFromYear b -> a <= YearFromDay d < b.
Proof.
  intros H. pose proof (CalFacts.YearFromDay_spec d) as S.
  rewrite DateFacts.DayFromYear_succ in S.
  pose proof (DateFacts.DaysInYear_range (YearFromDay d)) as R.
  split.
  - destruct (Z.lt_ge_cases (YearFromDay d) a) as [L | G]; [| lia].
    pose proof (DateFacts.DayFromYear_lt _ _ L). lia.
  - destruct (Z.lt_ge_cases (YearFromDay d) b) as [L | G]; [exact L |].
    destruct (Z.eq_dec b (YearFromDay d)) as [-> | N]; [lia |].
    assert (L : b < YearFromDay d) by lia.
    pose proof (DateFacts.DayFromYear_lt _ _ L).
    pose proof (DateFacts.DaysInYear_range b). lia.
Qed.

(** The text of the local date of [t] reads back as the calendar date of
    the local day. *)
Lemma ymd_of_day (D : Z) :
  DayFromYear 1000 <= D < DayFromYear 10000 ->
  exists y m d : Z,
    ymdString (YearFromDay D) (MonthFromDay D) (DateFromDay D)
    = ymdString y m d
    /\ parseYMD (ymdString y m d) = Some (y, m, d)
    /\ MakeDay y m d = D.
Proof.
  intros H. exists (YearFromDay D), (MonthFromDay D), (DateFromDay D).
  split; [reflexivity |]. split; [| apply CalFacts.MakeDay_fields].
  apply TextFacts.parseYMD_ymdString.
  - pose proof (YearFromDay_bounds 1000 10000 D H). lia.
  - apply CalFacts.MonthFromDay_range.
  - apply CalFacts.DateFromDay_range.
Qed.

Lemma toISODate_parse (tza t : Z) :
  DayFromYear 1000 <= LocalDay tza t < DayFromYear 10000 ->
  exists y m d : Z,
    parseYMD (Dates001.toISODate tza t) = Some (y, m, d)
    /\ MakeDay y m d = LocalDay tza t.
Proof.
  intros H. destruct (ymd_of_day _ H) as (y & m & d & E & P & M).
  exists y, m, d. split; [| exact M].
  unfold Dates001.toISODate, getFullYear, getMonth, getDate.
  replace (MonthFromDay (LocalDay tza t) - 1 + 1)
    with (MonthFromDay (LocalDay tza t)) by lia.
  now rewrite E.
Qed.

Lemma parseISODate_of_parseYMD (tza : Z) (s : string) (y m d : Z) :
  parseYMD s = Some (y, m, d) ->
  Part001.parseISODate tza s
  = Some (setHours0 tza (MakeDay y m d * msPerDay)).
Proof.
  intros H. unfold Part001.parseISODate, parse. rewrite H.
  destruct s; [discriminate H | reflexivity].
Qed.

End LocalFacts.

(** X12: the text that [toISODate] gives for a time
    in the years 1000 to 9999 is read by [parseISODate]; east of
    Greenwich and at it the result is the local midnight of the same
    day, west of it the local midnight of the day before. *)
Theorem X12_toISODate_parse_back :
  forall tza t : Z,
    JSDate.DayFromYear 1000 <= JSCal.LocalDay tza t < JSDate.DayFromYear 10000 ->
    (0 <= tza < JSDate.msPerDay ->
     Part001.parseISODate tza (Dates001.toISODate tza t)
     = Some (JSDate.setHours0 tza t))
    /\ (- JSDate.msPerDay <= tza < 0 ->
        Part001.parseISODate tza (Dates001.toISODate tza t)
        = Some (JSDate.setHours0 tza t - JSDate.msPerDay)).
Proof.
  intros tza t H.
  destruct (LocalFacts.toISODate_parse tza t H) as (y & m & d & P & M).
  rewrite (LocalFacts.parseISODate_of_parseYMD tza _ y m d P), M.
  rewrite DateFacts.setHours0_day.
  unfold JSDate.setHours0, JSCal.LocalDay, JSCal.Day.
  split; intros Z0; f_equal.
  - rewrite (Z.div_small tza) by lia. lia.
  - replace (tza / JSDate.msPerDay) with (-1); [lia |].
    apply Z.div_unique with (r := tza + JSDate.msPerDay);
      unfold JSDate.msPerDay in *; lia.
Qed.

Lemma X12_toISODate_parse_back_witness :
  Part001.parseISODate Examples.jst (Dates001.toISODate Examples.jst 1704100000000)
  = Some (JSDate.setHours0 Examples.jst 1704100000000)
  /\ Part001.parseISODate (- Examples.jst)
                          (Dates001.toISODate (- Examples.jst) 1704100000000)
     = Some (JSDate.setHours0 (- Examples.jst) 1704100000000 - JSDate.msPerDay).
Proof.
  split.
  - apply (X12_toISODate_parse_back Examples.jst 1704100000000);
      vm_compute; split; discriminate || reflexivity.
  - apply (X12_toISODate_parse_back (- Examples.jst) 1704100000000);
      vm_compute; split; discriminate || reflexivity.
Defined.

Module QuickFacts.
Import JSDate JSCal.

(** The two dates of a range of [k + 1] days that ends on the local day
    of [now]: both texts are read, in order. *)
Lemma quick_dates (tza now k : Z) :
  0 <= k ->
  DayFromYear 1000 <= LocalDay tza now - k ->
  LocalDay tza now < DayFromYear 10000 ->
  let end_ := setHours0 tza now in
  let start := setDate tza (getDate tza end_ - k) end_ in
  exists ys ms ds ye me de : Z,
    parseYMD (Dates001.toISODate tza start) = Some (ys, ms, ds)
    /\ MakeDay ys ms ds = LocalDay tza now - k
    /\ parseYMD (Dates001.toISODate tza end_) = Some (ye, me, de)
    /\ MakeDay ye me de = LocalDay tza now.
Proof.
  intros Hk Lo Hi end_ start.
  assert (De : LocalDay tza end_ = LocalDay tza now)
    by apply LocalFacts.LocalDay_setHours0.
  assert (Ds : LocalDay tza start = LocalDay tza now - k).
  { unfold start. rewrite LocalFacts.LocalDay_setDate_back. now rewrite De. }
  destruct (LocalFacts.toISODate_parse tza start) as (ys & ms & ds & Ps & Ms);
    [rewrite Ds; lia |].
  destruct (LocalFacts.toISODate_parse tza end_) as (ye & me & de & Pe & Me);
    [rewrite De; lia |].
  exists ys, ms, ds, ye, me, de. rewrite <- Ds, <- De. now repeat split.
Qed.

Lemma clamp_of_days (tza : Z) (a b : string) (ya ma da yb mb db : Z) :
  parseYMD a = Some (ya, ma, da) -> parseYMD b = Some (yb, mb, db) ->
  MakeDay ya ma da <= MakeDay yb mb db ->
  exists ta tb : Z,
    Part001.parseISODate tza a = Some ta
    /\ Part001.parseISODate tza b = Some tb
    /\ Part001.clampDateRange tza a b = Some (ta, tb).
Proof.
  intros Pa Pb L.
  pose proof (LocalFacts.parseISODate_of_parseYMD tza a _ _ _ Pa) as Ha.
  pose proof (LocalFacts.parseISODate_of_parseYMD tza b _ _ _ Pb) as Hb.
  eexists. eexists. split; [exact Ha | split; [exact Hb |]].
  unfold Part001.clampDateRange. rewrite Ha, Hb.
  rewrite !DateFacts.setHours0_day.
  match goal with |- (if ?c then _ else _) = _ => destruct c eqn:E end;
    [| reflexivity].
  apply Z.gtb_lt in E. unfold msPerDay in *. lia.
Qed.

(** The report over a range that the check lets through. *)
Lemma updateReport001_typed (tza : Z) (a b : string) (w : Part001.World)
      (ta tb : Z) :
  Part001.clampDateRange tza a b = Some (ta, tb) ->
  let w' := Part001.updateReport tza (Part001.typeRange a b w) in
  Part001.alerts w' = Part001.alerts w
  /\ Part001.reportStart (Part001.ui w') = a
  /\ Part001.reportEnd (Part001.ui w') = b
  /\ Part001.reportTableBody (Part001.ui w')
     = map Part001.renderRow
           (Part001.reportRows None
              (Part001.rangeQuery tza ta tb (Part001.db w))).
Proof.
  intros H. unfold Part001.updateReport.
  cbn [Part001.ui Part001.typeRange Part001.reportStart Part001.reportEnd].
  rewrite H. cbn. repeat split; reflexivity.
Qed.

End QuickFacts.

(** X13: a quick range of the report of part_001, the
    local date of the click lying in the years 1000 to 9999 with the
    whole range: the end input takes the local date, the start input the
    date [max(0, days - 1)] days before; the range passes the check, so
    no message is raised, and the table shows the stored records of that
    window.  Opening the report is the quick range of 30 days. *)
Theorem X13_quick_report_window :
  forall (tza now days : Z) (w : Part001.World),
    let D := JSCal.LocalDay tza now in
    let k := Z.max 0 (days - 1) in
    JSDate.DayFromYear 1000 <= D - k -> D < JSDate.DayFromYear 10000 ->
    let w' := Dates001.applyQuickReport tza now days w in
    Part001.alerts w' = Part001.alerts w
    /\ (exists ys ms ds ye me de : Z,
          JSDate.parseYMD (Part001.reportStart (Part001.ui w'))
          = Some (ys, ms, ds)
          /\ JSDate.MakeDay ys ms ds = D - k
          /\ JSDate.parseYMD (Part001.reportEnd (Part001.ui w'))
             = Some (ye, me, de)
          /\ JSDate.MakeDay ye me de = D)
    /\ (Forall (fun r => SpecRange.isISODate (Db.date r) = true)
               (Part001.db w) ->
        exists filtered : list Db.record,
          SpecRange.isRangeResult (Part001.reportStart (Part001.ui w'))
                                  (Part001.reportEnd (Part001.ui w'))
                                  (Part001.db w) filtered
          /\ Part001.reportTableBody (Part001.ui w')
             = map Part001.renderRow (Part001.reportRows None filtered))
    /\ Dates001.openReport tza now w = Dates001.applyQuickReport tza now 30 w.
Proof.
  intros tza now days w D k Lo Hi w'.
  assert (Hk : 0 <= k) by apply Z.le_max_l.
  destruct (QuickFacts.quick_dates tza now k Hk Lo Hi)
    as (ys & ms & ds & ye & me & de & Ps & Ms & Pe & Me).
  cbv zeta in Ps, Pe.
  destruct (QuickFacts.clamp_of_days tza _ _ _ _ _ _ _ _ Ps Pe)
    as (ta & tb & Ha & Hb & Hc); [fold D; lia |].
  destruct (QuickFacts.updateReport001_typed tza _ _ w ta tb Hc)
    as (A1 & A2 & A3 & A4).
  unfold w', Dates001.applyQuickReport. fold k.
  rewrite A1, A2, A3, A4.
  split; [reflexivity |]. split.
  - exists ys, ms, ds, ye, me, de. now repeat split.
  - split;
      [| unfold Dates001.openReport, Dates001.applyQuickReport;
         change (Z.max 0 (30 - 1)) with 29; reflexivity].
    intros Hall. eexists. split; [| reflexivity].
    apply (RangeFacts.rangeQuery001_spec tza _ _ ta tb _ Ha Hb Hall).
Qed.

Lemma X13_quick_report_window_witness :
  Part001.alerts
    (Dates001.applyQuickReport Examples.jst 1704100000000 7
       (Part001.init Examples.day Examples.threeDays))
  = [].
Proof.
  destruct (X13_quick_report_window Examples.jst 1704100000000 7
              (Part001.init Examples.day Examples.threeDays)) as [A _].
  - vm_compute. discriminate.
  - vm_compute. reflexivity.
  - exact A.
Defined.

(** ** Months *)

Module MonthFacts.
Import JSDate JSCal.

(** The month after month [m] of year [y]. *)
Lemma MakeDay_next_month (y m j : Z) :
  1 <= m <= 12 ->
  MakeDay y m (DaysInMonth y m + j)
  = MakeDay (if m =? 12 then y + 1 else y) (if m =? 12 then 1 else m + 1) j.
Proof.
  intros H. unfold MakeDay.
  destruct (Z.eqb_spec m 12) as [-> | N].
  - rewrite DateFacts.DayFromYear_succ, DateFacts.InLeapYear_days.
    unfold DaysBeforeMonth, DaysInMonth. cbv beta iota zeta.
    destruct (InLeapYear y); lia.
  - DateFacts.months m H; try lia;
      match goal with
      | |- context [DaysBeforeMonth y (?a + 1)] =>
          let v := eval vm_compute in (a + 1) in change (a + 1) with v
      end;
      unfold DaysBeforeMonth, DaysInMonth; cbv beta iota zeta;
      destruct (InLeapYear y); lia.
Qed.

Lemma DaysInMonth_ge (y m : Z) : 28 <= DaysInMonth y m.
Proof.
  unfold DaysInMonth. destruct (InLeapYear y);
    destruct m as [| p | p]; try lia;
    do 4 (try destruct p as [p | p |]; try lia).
Qed.

Lemma TimeWithinDay_make (tza D r : Z) :
  0 <= r < msPerDay -> TimeWithinDay (D * msPerDay + r - tza + tza) = r.
Proof.
  intros H. unfold TimeWithinDay.
  replace (D * msPerDay + r - tza + tza) with (r + D * msPerDay) by lia.
  rewrite Z.mod_add by discriminate. now apply Z.mod_small.
Qed.

Lemma TimeWithinDay_setDate (tza dt t : Z) :
  TimeWithinDay (setDate tza dt t + tza) = TimeWithinDay (t + tza).
Proof. unfold setDate. apply TimeWithinDay_make, LocalFacts.TimeWithinDay_range. Qed.

Lemma TimeWithinDay_setMonth (tza m t : Z) :
  TimeWithinDay (setMonth tza m t + tza) = TimeWithinDay (t + tza).
Proof. unfold setMonth. apply TimeWithinDay_make, LocalFacts.TimeWithinDay_range. Qed.

(** The fields of a local day made from a calendar date. *)
Lemma local_fields (tza t y m d : Z) :
  1 <= m <= 12 -> 1 <= d <= DaysInMonth y m ->
  LocalDay tza t = MakeDay y m d ->
  getFullYear tza t = y /\ getMonth tza t + 1 = m /\ getDate tza t = d.
Proof.
  intros Hm Hd E. unfold getFullYear, getMonth, getDate. rewrite E.
  destruct (CalFacts.fields_MakeDay y m d Hm Hd) as (A & B & C).
  rewrite A, B, C. repeat split; lia.
Qed.

(** [addMonths] after its [setMonth]: [d1] is the date reached, on the
    day [d] of a month that may be shorter. *)
Lemma addMonths_core (tza t y' m' d d1 r : Z) :
  1 <= m' + 1 <= 12 -> 1 <= d <= 31 ->
  LocalDay tza d1 = MakeDay y' (m' + 1) d ->
  TimeWithinDay (d1 + tza) = TimeWithinDay (t + tza) ->
  r = (if negb (getDate tza d1 =? d) then setDate tza 0 d1 else d1) ->
  getFullYear tza r = y'
  /\ getMonth tza r = m'
  /\ getDate tza r = Z.min d (DaysInMonth y' (m' + 1))
  /\ TimeWithinDay (r + tza) = TimeWithinDay (t + tza).
Proof.
  intros Hm' Hd L1 T1 R.
  pose proof (DaysInMonth_ge y' (m' + 1)) as Hge.
  destruct (Z.le_gt_cases d (DaysInMonth y' (m' + 1))) as [Le | Gt].
  - destruct (local_fields tza d1 y' (m' + 1) d Hm')
      as (A & B & C); [lia | exact L1 |].
    rewrite C, Z.eqb_refl in R. cbn [negb] in R. subst r.
    rewrite Z.min_l by exact Le.
    split; [exact A | split; [lia | split; [exact C | exact T1]]].
  - set (j := d - DaysInMonth y' (m' + 1)).
    set (yn := if m' + 1 =? 12 then y' + 1 else y').
    set (mn := if m' + 1 =? 12 then 1 else m' + 1 + 1).
    assert (Hmn : 1 <= mn <= 12)
      by (unfold mn; destruct (Z.eqb_spec (m' + 1) 12); lia).
    pose proof (DaysInMonth_ge yn mn) as Hgn.
    assert (L1' : LocalDay tza d1 = MakeDay yn mn j).
    { rewrite L1. unfold yn, mn.
      rewrite <- (MakeDay_next_month y' (m' + 1) j Hm').
      f_equal. unfold j. lia. }
    destruct (local_fields tza d1 yn mn j Hmn)
      as (A & B & C); [unfold j; lia | exact L1' |].
    assert (N : (getDate tza d1 =? d) = false)
      by (apply Z.eqb_neq; rewrite C; unfold j; lia).
    rewrite N in R. cbn [negb] in R. subst r.
    assert (L2 : LocalDay tza (setDate tza 0 d1)
                 = MakeDay y' (m' + 1) (DaysInMonth y' (m' + 1))).
    { rewrite LocalFacts.LocalDay_setDate, A.
      replace (getMonth tza d1) with (mn - 1) by lia.
      rewrite (LocalFacts.MakeDay0_month yn mn 0 Hmn).
      unfold yn, mn.
      rewrite <- (MakeDay_next_month y' (m' + 1) 0 Hm').
      f_equal. lia. }
    destruct (local_fields tza (setDate tza 0 d1) y' (m' + 1)
                (DaysInMonth y' (m' + 1)) Hm')
      as (A2 & B2 & C2); [lia | exact L2 |].
    rewrite Z.min_r by lia.
    split; [exact A2 | split; [lia | split; [exact C2 |]]].
    now rewrite TimeWithinDay_setDate.
Qed.

End MonthFacts.

(** X14: [addMonths] of part_000 moves a date by the
    given number of months, keeping the time of day; the day of the
    month is kept when the month reached has it and is the last day of
    that month otherwise (31 March less one month is the last day of
    February). *)
Theorem X14_addMonths_clamps :
  forall tza t months : Z,
    let y := JSCal.getFullYear tza t in
    let m := JSCal.getMonth tza t in
    let d := JSCal.getDate tza t in
    let y' := (y * 12 + m + months) / 12 in
    let m' := (y * 12 + m + months) mod 12 in
    let r := Dates000.addMonths tza t months in
    JSCal.getFullYear tza r = y'
    /\ JSCal.getMonth tza r = m'
    /\ JSCal.getDate tza r = Z.min d (JSDate.DaysInMonth y' (m' + 1))
    /\ JSCal.TimeWithinDay (r + tza) = JSCal.TimeWithinDay (t + tza).
Proof.
  intros tza t months y m d y' m' r.
  apply (MonthFacts.addMonths_core tza t y' m' d
           (JSCal.setMonth tza (m + months) t) r).
  - unfold m'. pose proof (Z.mod_pos_bound (y * 12 + m + months) 12). lia.
  - pose proof (CalFacts.DateFromDay_range (JSCal.LocalDay tza t)) as R.
    pose proof (TextFacts.DaysInMonth_le
                  (JSCal.YearFromDay (JSCal.LocalDay tza t))
                  (JSCal.MonthFromDay (JSCal.LocalDay tza t))).
    unfold d, JSCal.getDate. lia.
  - rewrite LocalFacts.LocalDay_setMonth. fold y d.
    unfold JSCal.MakeDay0, y', m'.
    replace (y * 12 + m + months) with (m + months + y * 12) by lia.
    rewrite Z.div_add, Z.mod_add by discriminate.
    f_equal; lia.
  - apply MonthFacts.TimeWithinDay_setMonth.
  - reflexivity.
Qed.

(** ** Date labels *)

Module LabelFacts.
Import JSDate JSCal.

Lemma parseYMD_valid (s : string) (y m d : Z) :
  parseYMD s = Some (y, m, d) ->
  1 <= m <= 12 /\ 1 <= d <= DaysInMonth y m.
Proof.
  intros H. apply DateFacts.parseYMD_shape in H. destruct H.
  match goal with V : validYMD _ _ _ = true |- _ =>
    apply DateFacts.validYMD_spec in V; tauto end.
Qed.

Lemma LocalDay_of_day (tza D : Z) :
  LocalDay tza (D * msPerDay) = D + tza / msPerDay.
Proof.
  unfold LocalDay, Day. rewrite Z.add_comm, Z.div_add by discriminate. lia.
Qed.

Lemma tza_east (tza : Z) : 0 <= tza < msPerDay -> tza / msPerDay = 0.
Proof. intros H. now apply Z.div_small. Qed.

Lemma tza_west (tza : Z) : - msPerDay <= tza < 0 -> tza / msPerDay = -1.
Proof.
  intros H. symmetry.
  apply Z.div_unique with (r := tza + msPerDay); unfold msPerDay in *; lia.
Qed.

(** The M/D text of a local day. *)
Lemma md_of_local (tza t y m d : Z) :
  1 <= m <= 12 -> 1 <= d <= DaysInMonth y m ->
  LocalDay tza t = MakeDay y m d ->
  (JS.string_of_Z (getMonth tza t + 1) ++ "/" ++ JS.string_of_Z (getDate tza t))%string
  = (JS.string_of_Z m ++ "/" ++ JS.string_of_Z d)%string.
Proof.
  intros Hm Hd E.
  destruct (MonthFacts.local_fields tza t y m d Hm Hd E) as (_ & B & C).
  now rewrite B, C.
Qed.

End LabelFacts.

(** X15: the M/D text that the report table of part_000
    and the graph of part_001 show for a record dated YYYY-MM-DD is that
    month and day where local time is at or east of Greenwich; west of
    it, it is the month and day of the day before. *)
Theorem X15_date_label_shift :
  forall (tza : Z) (r : Db.record) (y m d : Z),
    JSDate.parseYMD (Db.date r) = Some (y, m, d) ->
    (0 <= tza < JSDate.msPerDay ->
     Dates000.dateStr tza (Db.date r)
     = (JS.string_of_Z m ++ "/" ++ JS.string_of_Z d)%string
     /\ Graph001.labelOf tza r
        = (JS.string_of_Z m ++ "/" ++ JS.string_of_Z d)%string)
    /\ (- JSDate.msPerDay <= tza < 0 ->
        Dates000.dateStr tza (Db.date r)
        = (JS.string_of_Z (JSCal.MonthFromDay (JSDate.MakeDay y m d - 1)) ++ "/"
             ++ JS.string_of_Z (JSCal.DateFromDay (JSDate.MakeDay y m d - 1)))%string
        /\ Graph001.labelOf tza r = Dates000.dateStr tza (Db.date r)
        /\ (1 < d ->
            Dates000.dateStr tza (Db.date r)
            = (JS.string_of_Z m ++ "/" ++ JS.string_of_Z (d - 1))%string)).
Proof.
  intros tza r y m d P.
  destruct (LabelFacts.parseYMD_valid _ _ _ _ P) as [Hm Hd].
  assert (E0 : JSDate.parse (Db.date r)
               = Some (JSDate.MakeDay y m d * JSDate.msPerDay))
    by (unfold JSDate.parse; now rewrite P).
  pose proof (LocalFacts.parseISODate_of_parseYMD tza _ _ _ _ P) as E1.
  unfold Dates000.dateStr, Graph001.labelOf. rewrite E0, E1.
  split.
  - intros East.
    assert (L : JSCal.LocalDay tza (JSDate.MakeDay y m d * JSDate.msPerDay)
                = JSDate.MakeDay y m d)
      by (rewrite LabelFacts.LocalDay_of_day, LabelFacts.tza_east by exact East;
          lia).
    split; apply (LabelFacts.md_of_local tza _ y m d Hm Hd);
      [| rewrite LocalFacts.LocalDay_setHours0]; exact L.
  - intros West.
    assert (L : JSCal.LocalDay tza (JSDate.MakeDay y m d * JSDate.msPerDay)
                = JSDate.MakeDay y m d - 1)
      by (rewrite LabelFacts.LocalDay_of_day, LabelFacts.tza_west by exact West;
          lia).
    unfold JSCal.getMonth, JSCal.getDate.
    rewrite LocalFacts.LocalDay_setHours0, L.
    replace (JSCal.MonthFromDay (JSDate.MakeDay y m d - 1) - 1 + 1)
      with (JSCal.MonthFromDay (JSDate.MakeDay y m d - 1)) by lia.
    split; [reflexivity | split; [reflexivity |]].
    intros Hd1.
    assert (B : JSDate.MakeDay y m d - 1 = JSDate.MakeDay y m (d - 1))
      by (unfold JSDate.MakeDay; lia).
    destruct (CalFacts.fields_MakeDay y m (d - 1) Hm) as (_ & F2 & F3);
      [lia |].
    now rewrite B, F2, F3.
Qed.

Lemma X15_date_label_shift_witness :
  Dates000.dateStr Examples.jst (Db.date Examples.rec2) = "1/2"%string
  /\ Graph001.labelOf (- Examples.jst) Examples.rec2 = "1/1"%string.
Proof.
  destruct (X15_date_label_shift Examples.jst Examples.rec2 2024 1 2 eq_refl)
    as [E _].
  destruct (X15_date_label_shift (- Examples.jst) Examples.rec2 2024 1 2 eq_refl)
    as [_ W].
  split.
  - destruct E as [E _]; [vm_compute; split; discriminate || reflexivity |].
    exact E.
  - destruct W as (_ & W & S); [vm_compute; split; discriminate || reflexivity |].
    rewrite W. apply S. reflexivity.
Defined.

(** ** Opening the report of part_000 *)

Module OpenFacts.
Import JSDate JSCal.

Lemma leb_of_days (a b : string) (ya ma da yb mb db : Z) :
  parseYMD a = Some (ya, ma, da) -> parseYMD b = Some (yb, mb, db) ->
  String.leb a b = (MakeDay ya ma da <=? MakeDay yb mb db).
Proof.
  intros Pa Pb. unfold String.leb, Z.leb.
  rewrite (DateFacts.parseYMD_compare a b _ _ _ _ _ _ Pa Pb).
  now destruct (_ ?= _).
Qed.

Lemma parseYMD_nonempty (s : string) (y m d : Z) :
  parseYMD s = Some (y, m, d) -> String.eqb s "" = false.
Proof. destruct s; [discriminate | reflexivity]. Qed.

(** [setDate] with the day of the month read from another time of the
    same local day. *)
Lemma LocalDay_setDate_same_day (tza k t u : Z) :
  LocalDay tza u = LocalDay tza t ->
  LocalDay tza (setDate tza (getDate tza t - k) u) = LocalDay tza t - k.
Proof.
  intros E. rewrite LocalFacts.LocalDay_setDate.
  unfold getFullYear, getMonth, getDate. rewrite E.
  rewrite LocalFacts.MakeDay0_month by apply CalFacts.MonthFromDay_range.
  pose proof (CalFacts.MakeDay_fields (LocalDay tza t)) as F.
  unfold MakeDay in *. lia.
Qed.

(** The report of part_000 over two dates that are not empty. *)
Lemma updateReport000_typed (a b : string) (w : Part000.World) :
  String.eqb a "" = false -> String.eqb b "" = false ->
  let w' := Part000.updateReport (Part000.typeRange a b w) in
  Part000.reportStartDate (Part000.ui w') = a
  /\ Part000.reportEndDate (Part000.ui w') = b
  /\ Part000.reportTableBody (Part000.ui w')
     = Part000.renderReportTable
         (Part000.rangeQuery a b (Db.getAllRecords (Part000.db w)))
  /\ Part000.alerts w' = Part000.alerts w
  /\ Part000.db w' = Part000.db w.
Proof.
  intros Ha Hb. unfold Part000.updateReport.
  cbn [Part000.ui Part000.typeRange Part000.reportStartDate
       Part000.reportEndDate Part000.db].
  rewrite Ha, Hb. cbn [orb].
  destruct (Part000.renderSummary _) as [sw sc]. cbn. repeat split; reflexivity.
Qed.

Lemma padStart0_4 (y : Z) :
  1000 <= y <= 9999 -> padStart0 4 (JS.string_of_Z y) = JS.string_of_Z y.
Proof.
  intros H.
  destruct (TextFacts.string_of_Z_4 y H)
    as (c1 & c2 & c3 & c4 & a & b & c & d & E & _).
  rewrite E. reflexivity.
Qed.

(** The UTC date text of a time in the years 1000 to 9999. *)
Lemma initialDate_parse (now : Z) :
  DayFromYear 1000 <= Day now < DayFromYear 10000 ->
  exists y m d : Z,
    parseYMD (Dates000.initialDate now) = Some (y, m, d)
    /\ MakeDay y m d = Day now.
Proof.
  intros H. pose proof (LocalFacts.YearFromDay_bounds 1000 10000 _ H) as Y.
  destruct (LocalFacts.ymd_of_day _ H) as (y & m & d & E & P & M).
  exists y, m, d. split; [| exact M].
  unfold Dates000.initialDate, toISOString_date. cbv zeta.
  replace ((0 <=? YearFromDay (Day now)) && (YearFromDay (Day now) <=? 9999))
    with true
    by (symmetry; apply andb_true_intro; split; apply Z.leb_le; lia).
  rewrite padStart0_4 by lia.
  unfold ymdString in E, P. rewrite E. exact P.
Qed.

Lemma formatDate_parse (tza t : Z) :
  DayFromYear 1000 <= LocalDay tza t < DayFromYear 10000 ->
  exists y m d : Z,
    parseYMD (Dates000.formatDate tza t) = Some (y, m, d)
    /\ MakeDay y m d = LocalDay tza t.
Proof. exact (LocalFacts.toISODate_parse tza t). Qed.

(** The dates and the table that [openReport] of part_000 leaves. *)
Lemma openReport_dates :
  forall (tza today ago7 : Z) (w : Part000.World),
    JSCal.LocalDay tza ago7 = JSCal.LocalDay tza today ->
    JSDate.DayFromYear 1000 <= JSCal.LocalDay tza today - 6 ->
    JSCal.LocalDay tza today < JSDate.DayFromYear 10000 ->
    exists (start end_ : string) (ys ms ds ye me de : Z),
      Part000.reportStartDate
        (Part000.ui (Dates000.openReport tza today ago7 w)) = start
      /\ Part000.reportEndDate
           (Part000.ui (Dates000.openReport tza today ago7 w)) = end_
      /\ JSDate.parseYMD start = Some (ys, ms, ds)
      /\ JSDate.MakeDay ys ms ds = JSCal.LocalDay tza today - 6
      /\ JSDate.parseYMD end_ = Some (ye, me, de)
      /\ JSDate.MakeDay ye me de = JSCal.LocalDay tza today
      /\ Part000.reportTableBody
           (Part000.ui (Dates000.openReport tza today ago7 w))
         = Part000.renderReportTable
             (Part000.rangeQuery start end_
                (Db.getAllRecords (Part000.db w)))
      /\ Part000.alerts (Dates000.openReport tza today ago7 w)
         = Part000.alerts w.
Proof.
  intros tza today ago7 w Same Lo Hi.
  pose proof (OpenFacts.LocalDay_setDate_same_day tza 6 today ago7 Same) as Ds.
  destruct (OpenFacts.formatDate_parse tza
              (JSCal.setDate tza (JSCal.getDate tza today - 6) ago7))
    as (ys & ms & ds & Ps & Ms); [rewrite Ds; lia |].
  destruct (OpenFacts.formatDate_parse tza today)
    as (ye & me & de & Pe & Me); [lia |].
  destruct (OpenFacts.updateReport000_typed _ _ w
              (OpenFacts.parseYMD_nonempty _ _ _ _ Ps)
              (OpenFacts.parseYMD_nonempty _ _ _ _ Pe))
    as (A1 & A2 & A3 & A4 & _).
  eexists. eexists. exists ys, ms, ds, ye, me, de.
  unfold Dates000.openReport.
  split; [exact A1 | split; [exact A2 |]].
  split; [exact Ps | split; [now rewrite Ms, Ds |]].
  split; [exact Pe | split; [exact Me |]].
  split; [exact A3 | exact A4].
Qed.

End OpenFacts.

(** X16: opening the report of part_000, its two clock
    readings falling on one local day in the years 1000 to 9999: the end
    input takes the local date, the start input the date six days
    before, and the table is that of the records between the two; no
    message is raised. *)
Theorem X16_open_report_000 :
  forall (tza today ago7 : Z) (w : Part000.World),
    JSCal.LocalDay tza ago7 = JSCal.LocalDay tza today ->
    JSDate.DayFromYear 1000 <= JSCal.LocalDay tza today - 6 ->
    JSCal.LocalDay tza today < JSDate.DayFromYear 10000 ->
    exists (start end_ : string) (ys ms ds ye me de : Z),
      Part000.reportStartDate
        (Part000.ui (Dates000.openReport tza today ago7 w)) = start
      /\ Part000.reportEndDate
           (Part000.ui (Dates000.openReport tza today ago7 w)) = end_
      /\ JSDate.parseYMD start = Some (ys, ms, ds)
      /\ JSDate.MakeDay ys ms ds = JSCal.LocalDay tza today - 6
      /\ JSDate.parseYMD end_ = Some (ye, me, de)
      /\ JSDate.MakeDay ye me de = JSCal.LocalDay tza today
      /\ Part000.reportTableBody
           (Part000.ui (Dates000.openReport tza today ago7 w))
         = Part000.renderReportTable
             (Part000.rangeQuery start end_
                (Db.getAllRecords (Part000.db w)))
      /\ Part000.alerts (Dates000.openReport tza today ago7 w)
         = Part000.alerts w.
Proof. exact OpenFacts.openReport_dates. Qed.

Lemma X16_open_report_000_witness :
  Part000.alerts
    (Dates000.openReport Examples.jst 1704100000000 1704100000001
       (Part000.init Examples.day Examples.threeDays))
  = [].
Proof.
  destruct (X16_open_report_000 Examples.jst 1704100000000 1704100000001
              (Part000.init Examples.day Examples.threeDays))
    as (start & end_ & ys & ms & ds & ye & me & de & H).
  - vm_compute. reflexivity.
  - vm_compute. discriminate.
  - vm_compute. reflexivity.
  - apply H.
Defined.

(** X17: the date under which part_000 starts is the
    UTC date of the clock, the window of its report ends on the local
    date.  At or east of Greenwich the starting date always lies in the
    window that [openReport] sets; when the UTC day is ahead of the local
    day (west of Greenwich, in the evening) the starting date lies after
    the end of that window, so that what was saved under it is not
    listed. *)
Theorem X17_initial_date_window :
  forall (tza now : Z) (w : Part000.World),
    - JSDate.msPerDay < tza < JSDate.msPerDay ->
    JSDate.DayFromYear 1000 <= JSCal.LocalDay tza now - 6 ->
    JSCal.LocalDay tza now < JSDate.DayFromYear 10000 ->
    JSDate.DayFromYear 1000 <= JSCal.Day now < JSDate.DayFromYear 10000 ->
    let cur := Dates000.initialDate now in
    let u := Part000.ui (Dates000.openReport tza now now w) in
    JS.str_ge cur (Part000.reportStartDate u) = true
    /\ JS.str_le cur (Part000.reportEndDate u)
       = (JSCal.Day now <=? JSCal.LocalDay tza now)
    /\ (0 <= tza -> JS.str_le cur (Part000.reportEndDate u) = true)
    /\ (JS.str_le cur (Part000.reportEndDate u) = false ->
        forall r : Db.record,
          Db.date r = cur ->
          ~ In r (Part000.rangeQuery (Part000.reportStartDate u)
                                     (Part000.reportEndDate u)
                                     (Db.getAllRecords (Part000.db w)))).
Proof.
  intros tza now w Tz Lo Hi Hu.
  destruct (OpenFacts.openReport_dates tza now now w eq_refl Lo Hi)
    as (start & end_ & ys & ms & ds & ye & me & de
        & A1 & A2 & Ps & Ms & Pe & Me & _).
  destruct (OpenFacts.initialDate_parse now Hu) as (yc & mc & dc & Pc & Mc).
  cbv zeta. rewrite A1, A2. unfold JS.str_ge, JS.str_le.
  rewrite (OpenFacts.leb_of_days _ _ _ _ _ _ _ _ Ps Pc).
  rewrite (OpenFacts.leb_of_days _ _ _ _ _ _ _ _ Pc Pe).
  rewrite Ms, Mc, Me.
  assert (R : JSCal.LocalDay tza now - 1 <= JSCal.Day now
              /\ (0 <= tza -> JSCal.Day now <= JSCal.LocalDay tza now)).
  { unfold JSCal.LocalDay, JSCal.Day, JSDate.msPerDay in *.
    Z.div_mod_to_equations. lia. }
  split; [apply Z.leb_le; lia |].
  split; [reflexivity |].
  split; [intros E; apply Z.leb_le; now apply R |].
  intros F r Hr Hin.
  unfold Part000.rangeQuery in Hin.
  apply (proj1 (sort_In Db.date _ _)) in Hin. apply filter_In in Hin.
  destruct Hin as [_ Hin]. apply andb_true_iff in Hin. destruct Hin as [_ Hin].
  unfold JS.str_le in Hin. rewrite Hr in Hin.
  rewrite (OpenFacts.leb_of_days _ _ _ _ _ _ _ _ Pc Pe), Mc, Me in Hin.
  congruence.
Qed.

Lemma X17_initial_date_window_witness :
  JS.str_le (Dates000.initialDate 1704157200000)
            (Part000.reportEndDate
               (Part000.ui
                  (Dates000.openReport (- Examples.jst) 1704157200000
                     1704157200000 Examples.started)))
  = false.
Proof.
  destruct (X17_initial_date_window (- Examples.jst) 1704157200000
              Examples.started) as (_ & E & _).
  - vm_compute. split; reflexivity.
  - vm_compute. discriminate.
  - vm_compute. reflexivity.
  - vm_compute. split; discriminate || reflexivity.
  - rewrite E. vm_compute. reflexivity.
Defined.

(** ** The graph of part_001, quick ranges *)

Module GraphFacts.

Lemma existsb_false_None (vs : list (option JS.number)) :
  existsb (fun v => match v with Some _ => true | None => false end) vs = false
  <-> Forall (fun v => v = None) vs.
Proof.
  induction vs as [| [x |] vs IH]; cbn [existsb orb].
  - split; [constructor | reflexivity].
  - split; [discriminate |]. intros H. inversion H. discriminate.
  - rewrite IH. split; [now constructor | intros H; now inversion H].
Qed.

(** The graph over a range that the check lets through. *)
Lemma updateGraph_clamped (tza : Z) (w : Graph001.World) (s e : Z) :
  Part001.clampDateRange tza (Graph001.graphStartDate w)
                         (Graph001.graphEndDate w) = Some (s, e) ->
  Graph001.updateGraph tza w
  = Graph001.renderGraph tza
      (Part001.rangeQuery tza s e (Part001.db (Graph001.page w))) w.
Proof. intros H. unfold Graph001.updateGraph. now rewrite H. Qed.

Lemma renderGraph_spec (tza : Z) (records : list Db.record)
      (w : Graph001.World) :
  let values :=
    map (fun r => Part001.safeNumber
                    match Graph001.metric w with
                    | Graph001.weight => Db.weight r
                    | Graph001.calorie => Db.total_calorie r
                    end) records in
  let w' := Graph001.renderGraph tza records w in
  Graph001.page w' = Graph001.page w
  /\ Graph001.metric w' = Graph001.metric w
  /\ Graph001.canvasDisplayed w' = Graph001.emptyNoteHidden w'
  /\ (Graph001.emptyNoteHidden w' = false <-> Forall (fun v => v = None) values)
  /\ (Graph001.chart w' = None <-> Graph001.emptyNoteHidden w' = false)
  /\ (forall c : Graph001.Chart,
        Graph001.chart w' = Some c ->
        Graph001.data c = values
        /\ Graph001.labels c = map (Graph001.labelOf tza) records
        /\ List.length (Graph001.labels c) = List.length (Graph001.data c)).
Proof.
  cbv zeta. unfold Graph001.renderGraph.
  assert (V : map (fun r => Part001.safeNumber
                     (if match Graph001.metric w with
                          | Graph001.weight => true
                          | Graph001.calorie => false
                          end
                      then Db.weight r else Db.total_calorie r)) records
              = map (fun r => Part001.safeNumber
                       match Graph001.metric w with
                       | Graph001.weight => Db.weight r
                       | Graph001.calorie => Db.total_calorie r
                       end) records)
    by (apply map_ext; intros r; now destruct (Graph001.metric w)).
  rewrite V.
  destruct (existsb _ _) eqn:E; cbn [negb Graph001.page Graph001.metric
    Graph001.canvasDisplayed Graph001.emptyNoteHidden Graph001.chart].
  - split; [reflexivity | split; [reflexivity | split; [reflexivity |]]].
    split; [split; [discriminate |] |].
    { intros H. apply existsb_false_None in H. congruence. }
    split; [split; discriminate |].
    intros c [= <-]. cbn [Graph001.labels Graph001.data].
    split; [reflexivity | split; [reflexivity |]].
    now rewrite !length_map.
  - split; [reflexivity | split; [reflexivity | split; [reflexivity |]]].
    split; [split; [intros _; now apply existsb_false_None | reflexivity] |].
    split; [split; reflexivity |].
    intros c H. discriminate H.
Qed.

End GraphFacts.

(** X18: [updateGraph] of part_001.  Over a range that the
    check turns down a message is raised and the chart on screen stays.
    Otherwise nothing is raised and, for the records of the range in
    date order: exactly one of the canvas and the note for an empty graph
    is shown, the note when no record has a finite value for the chosen
    metric, and then there is no chart; a chart has one label and one
    value (or null) per record, in the order of the records. *)
Theorem X18_graph_update :
  forall (tza : Z) (w : Graph001.World),
    (Part001.clampDateRange tza (Graph001.graphStartDate w)
                            (Graph001.graphEndDate w) = None ->
     Graph001.chart (Graph001.updateGraph tza w) = Graph001.chart w
     /\ Part001.alerts (Graph001.page (Graph001.updateGraph tza w))
        = (Part001.alerts (Graph001.page w)
             ++ ["開始日・終了日を正しく入力してください"%string])%list)
    /\ (forall s e : Z,
          Part001.clampDateRange tza (Graph001.graphStartDate w)
                                 (Graph001.graphEndDate w) = Some (s, e) ->
          let records :=
            Part001.rangeQuery tza s e (Part001.db (Graph001.page w)) in
          let values :=
            map (fun r => Part001.safeNumber
                            match Graph001.metric w with
                            | Graph001.weight => Db.weight r
                            | Graph001.calorie => Db.total_calorie r
                            end) records in
          let w' := Graph001.updateGraph tza w in
          Graph001.page w' = Graph001.page w
          /\ Graph001.canvasDisplayed w' = Graph001.emptyNoteHidden w'
          /\ (Graph001.emptyNoteHidden w' = false
              <-> Forall (fun v => v = None) values)
          /\ (Graph001.chart w' = None <-> Graph001.emptyNoteHidden w' = false)
          /\ (forall c : Graph001.Chart,
                Graph001.chart w' = Some c ->
                Graph001.data c = values
                /\ Graph001.labels c = map (Graph001.labelOf tza) records
                /\ List.length (Graph001.labels c)
                   = List.length (Graph001.data c))).
Proof.
  intros tza w. split.
  - intros H. unfold Graph001.updateGraph. rewrite H. split; reflexivity.
  - intros s e H. cbv zeta.
    rewrite (GraphFacts.updateGraph_clamped tza w s e H).
    destruct (GraphFacts.renderGraph_spec tza
                (Part001.rangeQuery tza s e (Part001.db (Graph001.page w))) w)
      as (A & _ & B & C & D & E).
    split; [exact A | split; [exact B | split; [exact C | split; [exact D | exact E]]]].
Qed.

Lemma X18_graph_update_witness :
  let w := Graph001.mkWorld (Part001.init Examples.day Examples.threeDays)
                            "2024-01-01" "2024-01-03" Graph001.weight
                            None false true in
  Graph001.canvasDisplayed (Graph001.updateGraph Examples.jst w)
  = Graph001.emptyNoteHidden (Graph001.updateGraph Examples.jst w)
  /\ Graph001.chart
       (Graph001.updateGraph Examples.jst
          (Graph001.set_dates "2024-01-03" "2024-01-01" w))
     = Graph001.chart w.
Proof.
  intros w. split.
  - destruct (X18_graph_update Examples.jst w) as [_ H].
    destruct (H 1704034800000 1704207600000 eq_refl) as (_ & B & _).
    exact B.
  - destruct (X18_graph_update Examples.jst
                (Graph001.set_dates "2024-01-03" "2024-01-01" w)) as [H _].
    destruct (H eq_refl) as [A _]. exact A.
Defined.

Module QuickGraphFacts.
Import JSDate JSCal.

(** The fields of local midnight are those of the day. *)
Lemma fields_setHours0 (tza t : Z) :
  getFullYear tza (setHours0 tza t) = getFullYear tza t
  /\ getMonth tza (setHours0 tza t) = getMonth tza t
  /\ getDate tza (setHours0 tza t) = getDate tza t.
Proof.
  unfold getFullYear, getMonth, getDate.
  now rewrite LocalFacts.LocalDay_setHours0.
Qed.

Lemma toISODate_of_fields (tza t y m d : Z) :
  getFullYear tza t = y -> getMonth tza t = m -> getDate tza t = d ->
  1000 <= y <= 9999 ->
  parseYMD (Dates000.toISODate tza t) = Some (y, m + 1, d).
Proof.
  intros <- <- <- Hy. unfold Dates000.toISODate.
  apply TextFacts.parseYMD_ymdString; [exact Hy | |].
  - unfold getMonth. pose proof (CalFacts.MonthFromDay_range (LocalDay tza t)). lia.
  - unfold getMonth, getDate, getFullYear.
    replace (MonthFromDay (LocalDay tza t) - 1 + 1)
      with (MonthFromDay (LocalDay tza t)) by lia.
    apply CalFacts.DateFromDay_range.
Qed.

Lemma getDate_range (tza t : Z) : 1 <= getDate tza t <= 31.
Proof.
  unfold getDate.
  pose proof (CalFacts.DateFromDay_range (LocalDay tza t)).
  pose proof (TextFacts.DaysInMonth_le (YearFromDay (LocalDay tza t))
                                       (MonthFromDay (LocalDay tza t))).
  lia.
Qed.

(** The fields of [addMonths]. *)
Lemma addMonths_fields (tza t months : Z) :
  getFullYear tza (Dates000.addMonths tza t months)
  = (getFullYear tza t * 12 + getMonth tza t + months) / 12
  /\ getMonth tza (Dates000.addMonths tza t months)
     = (getFullYear tza t * 12 + getMonth tza t + months) mod 12
  /\ getDate tza (Dates000.addMonths tza t months)
     = Z.min (getDate tza t)
             (DaysInMonth
                ((getFullYear tza t * 12 + getMonth tza t + months) / 12)
                ((getFullYear tza t * 12 + getMonth tza t + months) mod 12 + 1)).
Proof.
  destruct (MonthFacts.addMonths_core tza t
              ((getFullYear tza t * 12 + getMonth tza t + months) / 12)
              ((getFullYear tza t * 12 + getMonth tza t + months) mod 12)
              (getDate tza t)
              (setMonth tza (getMonth tza t + months) t)
              (Dates000.addMonths tza t months)) as (A & B & C & _).
  - pose proof (Z.mod_pos_bound
                  (getFullYear tza t * 12 + getMonth tza t + months) 12). lia.
  - apply getDate_range.
  - rewrite LocalFacts.LocalDay_setMonth. unfold MakeDay0.
    replace (getFullYear tza t * 12 + getMonth tza t + months)
      with (getMonth tza t + months + getFullYear tza t * 12) by lia.
    rewrite Z.div_add, Z.mod_add by discriminate.
    f_equal; lia.
  - apply MonthFacts.TimeWithinDay_setMonth.
  - reflexivity.
  - now repeat split.
Qed.

End QuickGraphFacts.

(** X19: a quick button of the report of part_000 sets the
    two date inputs and nothing else: the table and the summary stay as
    they were until the report is updated.  The end input takes the local
    date of the click; for [1m], [3m] and [1y] the start input takes the
    date one, three and twelve months before, on the same day of the
    month or the last day of a shorter month (years 1000 to 9999). *)
Theorem X19_quick_range_000 :
  forall (tza now n : Z) (key : string) (w : Part000.World),
    (key = "1m"%string /\ n = 1) \/ (key = "3m"%string /\ n = 3)
    \/ (key = "1y"%string /\ n = 12) ->
    let y := JSCal.getFullYear tza now in
    let m := JSCal.getMonth tza now in
    let d := JSCal.getDate tza now in
    let y' := (y * 12 + m - n) / 12 in
    let m' := (y * 12 + m - n) mod 12 in
    1000 <= y' -> y <= 9999 ->
    let w' := Dates000.applyQuickRange tza now key w in
    Part000.reportTableBody (Part000.ui w')
    = Part000.reportTableBody (Part000.ui w)
    /\ Part000.summaryWeight (Part000.ui w')
       = Part000.summaryWeight (Part000.ui w)
    /\ Part000.summaryCalorie (Part000.ui w')
       = Part000.summaryCalorie (Part000.ui w)
    /\ Part000.alerts w' = Part000.alerts w
    /\ JSDate.parseYMD (Part000.reportEndDate (Part000.ui w'))
       = Some (y, m + 1, d)
    /\ JSDate.parseYMD (Part000.reportStartDate (Part000.ui w'))
       = Some (y', m' + 1, Z.min d (JSDate.DaysInMonth y' (m' + 1))).
Proof.
  intros tza now n key w K y m d y' m' Lo Hi.
  destruct (QuickGraphFacts.fields_setHours0 tza now) as (F1 & F2 & F3).
  assert (Hy' : y' <= y).
  { unfold y'. pose proof (CalFacts.MonthFromDay_range (JSCal.LocalDay tza now)).
    assert (0 <= m <= 11) by (unfold m, JSCal.getMonth; lia).
    assert (1 <= n) by (destruct K as [[_ ->] | [[_ ->] | [_ ->]]]; lia).
    Z.div_mod_to_equations. lia. }
  assert (S : Dates000.quickRange tza now key
              = (Dates000.addMonths tza (JSDate.setHours0 tza now) (- n),
                 JSDate.setHours0 tza now))
    by (destruct K as [[-> ->] | [[-> ->] | [-> ->]]]; reflexivity).
  destruct (QuickGraphFacts.addMonths_fields tza (JSDate.setHours0 tza now) (- n))
    as (A & B & C).
  rewrite F1, F2 in A, B. rewrite F1, F2, F3 in C.
  replace (JSCal.getFullYear tza now * 12 + JSCal.getMonth tza now + - n)
    with (y * 12 + m - n) in A, B, C by (unfold y, m; lia).
  fold y' in A, C. fold m' in B, C. fold d in C.
  cbv zeta. unfold Dates000.applyQuickRange. rewrite S.
  cbn [Part000.typeRange Part000.ui Part000.reportTableBody
       Part000.summaryWeight Part000.summaryCalorie Part000.alerts
       Part000.reportStartDate Part000.reportEndDate].
  split; [reflexivity | split; [reflexivity | split; [reflexivity |]]].
  split; [reflexivity |]. split.
  - apply (QuickGraphFacts.toISODate_of_fields tza _ y m d F1 F2 F3). lia.
  - apply (QuickGraphFacts.toISODate_of_fields tza _ y' m' _ A B C). lia.
Qed.

Lemma X19_quick_range_000_witness :
  JSDate.parseYMD
    (Part000.reportStartDate
       (Part000.ui
          (Dates000.applyQuickRange Examples.jst 1711843200000 "1m"
                                    Examples.started)))
  = Some (2024, 2, 29).
Proof.
  destruct (X19_quick_range_000 Examples.jst 1711843200000 1 "1m"%string
              Examples.started) as (_ & _ & _ & _ & _ & E).
  - left. split; reflexivity.
  - vm_compute. discriminate.
  - vm_compute. discriminate.
  - rewrite E. vm_compute. reflexivity.
Defined.

(** X20: a quick range of the graph of part_001, the
    local date of the click lying in the years 1000 to 9999 with the
    whole range: the end input takes the local date, the start input the
    date [max(0, days - 1)] days before; the range passes the check, so
    no message is raised and the graph is drawn or the note shown.
    Opening the graph is the quick range of 7 days on the weight
    metric. *)
Theorem X20_quick_graph_window :
  forall (tza now days : Z) (w : Graph001.World),
    JSDate.DayFromYear 1000 <= JSCal.LocalDay tza now - Z.max 0 (days - 1) ->
    JSCal.LocalDay tza now < JSDate.DayFromYear 10000 ->
    Graph001.page (Graph001.applyQuickRangeDays tza now days w)
    = Graph001.page w
    /\ (exists ys ms ds ye me de : Z,
          JSDate.parseYMD
            (Graph001.graphStartDate
               (Graph001.applyQuickRangeDays tza now days w))
          = Some (ys, ms, ds)
          /\ JSDate.MakeDay ys ms ds
             = JSCal.LocalDay tza now - Z.max 0 (days - 1)
          /\ JSDate.parseYMD
               (Graph001.graphEndDate
                  (Graph001.applyQuickRangeDays tza now days w))
             = Some (ye, me, de)
          /\ JSDate.MakeDay ye me de = JSCal.LocalDay tza now)
    /\ Graph001.canvasDisplayed (Graph001.applyQuickRangeDays tza now days w)
       = Graph001.emptyNoteHidden (Graph001.applyQuickRangeDays tza now days w)
    /\ Graph001.openGraph tza now w
       = Graph001.applyQuickRangeDays tza now 7
           (Graph001.setGraphTab Graph001.weight w).
Proof.
  intros tza now days w Lo Hi.
  assert (Hk : 0 <= Z.max 0 (days - 1)) by apply Z.le_max_l.
  destruct (QuickFacts.quick_dates tza now _ Hk Lo Hi)
    as (ys & ms & ds & ye & me & de & Ps & Ms & Pe & Me).
  cbv zeta in Ps, Pe.
  destruct (QuickFacts.clamp_of_days tza _ _ _ _ _ _ _ _ Ps Pe)
    as (ta & tb & Ha & Hb & Hc); [lia |].
  unfold Graph001.applyQuickRangeDays.
  match goal with
  | |- context [Graph001.updateGraph tza ?w0] =>
      pose proof (GraphFacts.updateGraph_clamped tza w0 ta tb Hc) as U;
      destruct (GraphFacts.renderGraph_spec tza
                  (Part001.rangeQuery tza ta tb
                     (Part001.db (Graph001.page w0))) w0)
        as (A & _ & B & _)
  end.
  rewrite U.
  split; [exact A |]. split.
  - exists ys, ms, ds, ye, me, de.
    unfold Graph001.renderGraph.
    destruct (negb _);
      cbn [Graph001.graphStartDate Graph001.graphEndDate Graph001.set_dates];
      now repeat split.
  - split; [exact B |].
    unfold Graph001.openGraph, Graph001.applyQuickRangeDays.
    change (Z.max 0 (7 - 1)) with 6. reflexivity.
Qed.

Lemma X20_quick_graph_window_witness :
  Graph001.canvasDisplayed
    (Graph001.applyQuickRangeDays Examples.jst 1704100000000 7
       (Graph001.mkWorld (Part001.init Examples.day Examples.threeDays)
                         "2024-01-01" "2024-01-03" Graph001.weight
                         None false true))
  = Graph001.emptyNoteHidden
      (Graph001.applyQuickRangeDays Examples.jst 1704100000000 7
         (Graph001.mkWorld (Part001.init Examples.day Examples.threeDays)
                           "2024-01-01" "2024-01-03" Graph001.weight
                           None false true)).
Proof.
  destruct (X20_quick_graph_window Examples.jst 1704100000000 7
              (Graph001.mkWorld (Part001.init Examples.day Examples.threeDays)
                                "2024-01-01" "2024-01-03" Graph001.weight
                                None false true))
    as (_ & _ & B & _).
  - vm_compute. discriminate.
  - vm_compute. reflexivity.
  - exact B.
Defined.

(** ** Numbers written and read back *)

Module DigitFacts.

(** A text that does not go on with a digit. *)
Local Abbreviation stops rest :=
  (forall (c : ascii) (s : string), rest = String c s -> JS.digit_of c = None).

Ltac read_digit :=
  cbn [JS.scanDigits];
  match goal with
  | |- context [JS.digit_of ?c] =>
      let v := eval vm_compute in (JS.digit_of c) in
      change (JS.digit_of c) with v
  end;
  cbv beta iota.

Lemma scan_stop (rest : string) (acc : Z) (cnt : nat) :
  stops rest -> JS.scanDigits rest acc cnt = (acc, cnt, rest).
Proof.
  intros H. destruct rest as [| c s]; [reflexivity |].
  cbn [JS.scanDigits]. now rewrite (H c s eq_refl).
Qed.

Lemma scan_uint_acc (d : Decimal.uint) (rest : string) (acc : positive)
      (cnt : nat) :
  stops rest ->
  JS.scanDigits (NilEmpty.string_of_uint d ++ rest) (Z.pos acc) cnt
  = (Z.pos (Pos.of_uint_acc d acc), (cnt + Decimal.nb_digits d)%nat, rest).
Proof.
  intros Hr. revert acc cnt.
  induction d as [| d IH | d IH | d IH | d IH | d IH | d IH | d IH | d IH
                  | d IH | d IH]; intros acc cnt;
    cbn [NilEmpty.string_of_uint append Decimal.nb_digits Pos.of_uint_acc].
  - rewrite (scan_stop rest _ _ Hr). now rewrite Nat.add_0_r.
  - read_digit. replace (Z.pos acc * 10 + 0) with (Z.pos (10 * acc)) by lia.
    rewrite IH. f_equal. f_equal. lia.
  - read_digit. replace (Z.pos acc * 10 + 1) with (Z.pos (1 + 10 * acc)) by lia.
    rewrite IH. f_equal. f_equal. lia.
  - read_digit. replace (Z.pos acc * 10 + 2) with (Z.pos (2 + 10 * acc)) by lia.
    rewrite IH. f_equal. f_equal. lia.
  - read_digit. replace (Z.pos acc * 10 + 3) with (Z.pos (3 + 10 * acc)) by lia.
    rewrite IH. f_equal. f_equal. lia.
  - read_digit. replace (Z.pos acc * 10 + 4) with (Z.pos (4 + 10 * acc)) by lia.
    rewrite IH. f_equal. f_equal. lia.
  - read_digit. replace (Z.pos acc * 10 + 5) with (Z.pos (5 + 10 * acc)) by lia.
    rewrite IH. f_equal. f_equal. lia.
  - read_digit. replace (Z.pos acc * 10 + 6) with (Z.pos (6 + 10 * acc)) by lia.
    rewrite IH. f_equal. f_equal. lia.
  - read_digit. replace (Z.pos acc * 10 + 7) with (Z.pos (7 + 10 * acc)) by lia.
    rewrite IH. f_equal. f_equal. lia.
  - read_digit. replace (Z.pos acc * 10 + 8) with (Z.pos (8 + 10 * acc)) by lia.
    rewrite IH. f_equal. f_equal. lia.
  - read_digit. replace (Z.pos acc * 10 + 9) with (Z.pos (9 + 10 * acc)) by lia.
    rewrite IH. f_equal. f_equal. lia.
Qed.

Ltac first_digit k :=
  read_digit; change (0 * 10 + Z.pos k) with (Z.pos k);
  rewrite scan_uint_acc by assumption; f_equal; f_equal; lia.

Lemma scan_uint (d : Decimal.uint) (rest : string) (cnt : nat) :
  stops rest ->
  JS.scanDigits (NilEmpty.string_of_uint d ++ rest) 0 cnt
  = (Z.of_N (Pos.of_uint d), (cnt + Decimal.nb_digits d)%nat, rest).
Proof.
  intros Hr. revert cnt.
  induction d as [| d IH | d IH | d IH | d IH | d IH | d IH | d IH | d IH
                  | d IH | d IH]; intros cnt;
    cbn [NilEmpty.string_of_uint append Decimal.nb_digits Pos.of_uint Z.of_N].
  - rewrite (scan_stop rest _ _ Hr). now rewrite Nat.add_0_r.
  - read_digit. change (0 * 10 + 0) with 0. rewrite IH. f_equal. f_equal. lia.
  - first_digit 1%positive.
  - first_digit 2%positive.
  - first_digit 3%positive.
  - first_digit 4%positive.
  - first_digit 5%positive.
  - first_digit 6%positive.
  - first_digit 7%positive.
  - first_digit 8%positive.
  - first_digit 9%positive.
Qed.

Lemma to_uint_not_Nil (p : positive) : Pos.to_uint p <> Decimal.Nil.
Proof.
  intros E. pose proof (DecimalPos.Unsigned.of_to p) as H.
  rewrite E in H. discriminate H.
Qed.

(** The decimal text of a number that is not negative: a first digit,
    and the digits are read back as the number. *)
Lemma string_of_Z_nonneg (z : Z) :
  0 <= z ->
  exists d : Decimal.uint,
    JS.string_of_Z z = NilEmpty.string_of_uint d
    /\ d <> Decimal.Nil /\ Z.of_N (Pos.of_uint d) = z.
Proof.
  intros H. destruct z as [| p | p]; [| | lia].
  - exists (Decimal.D0 Decimal.Nil). repeat split; discriminate.
  - exists (Pos.to_uint p). unfold JS.string_of_Z. cbn [Z.to_int NilZero.string_of_int].
    pose proof (to_uint_not_Nil p) as N.
    split; [| split; [exact N |]].
    + unfold NilZero.string_of_uint. now destruct (Pos.to_uint p).
    + now rewrite DecimalPos.Unsigned.of_to.
Qed.

Lemma scan_string_of_Z (z : Z) (rest : string) :
  0 <= z -> stops rest ->
  exists n : nat,
    JS.scanDigits (JS.string_of_Z z ++ rest) 0 0 = (z, S n, rest).
Proof.
  intros Hz Hr. destruct (string_of_Z_nonneg z Hz) as (d & E & N & V).
  rewrite E, (scan_uint d rest 0 Hr), V.
  destruct d; [congruence | ..]; cbn [Decimal.nb_digits Nat.add];
    eexists; reflexivity.
Qed.

(** A digit is neither white space nor a sign. *)
Lemma digit_plain (c : ascii) (d : Z) :
  JS.digit_of c = Some d ->
  JS.isWhiteSpace c = false /\ c <> "-"%char /\ c <> "+"%char.
Proof.
  destruct c as [[] [] [] [] [] [] [] []]; cbv; intros H;
    try discriminate H; repeat split; discriminate.
Qed.

Lemma string_of_Z_first (z : Z) :
  0 <= z ->
  exists (c : ascii) (s : string) (k : Z),
    JS.string_of_Z z = String c s /\ JS.digit_of c = Some k.
Proof.
  intros Hz. destruct (string_of_Z_nonneg z Hz) as (d & E & N & _).
  rewrite E. destruct d; [congruence | ..];
    cbn [NilEmpty.string_of_uint]; do 3 eexists; split; reflexivity.
Qed.

(** A text that starts with a digit is left as it is by the trimming and
    has no sign. *)
Lemma trim_sign_digit (c : ascii) (s : string) (k : Z) :
  JS.digit_of c = Some k ->
  JS.trimStart (String c s) = String c s
  /\ JS.scanSign (String c s) = (false, String c s).
Proof.
  intros H. destruct (digit_plain c k H) as (W & M & P).
  split.
  - cbn [JS.trimStart]. now rewrite W.
  - unfold JS.scanSign.
    destruct c as [[] [] [] [] [] [] [] []]; try reflexivity; congruence.
Qed.

(** [parseInt] reads the decimal text of a number that is not negative. *)
Lemma parseInt_string_of_Z (z : Z) :
  0 <= z -> JS.parseInt_string (JS.string_of_Z z) = JS.ofZ z.
Proof.
  intros Hz. destruct (string_of_Z_first z Hz) as (c & s & k & E & D).
  destruct (trim_sign_digit c s k D) as [T S].
  unfold JS.parseInt_string. rewrite E, T, S, <- E.
  destruct (scan_string_of_Z z EmptyString Hz) as (n & Hn); [discriminate |].
  rewrite CsvFacts.append_empty_r in Hn. now rewrite Hn.
Qed.

End DigitFacts.

Module RoundTripFacts.
Import SpecSave.

Lemma Qfloor_half (k : Z) (x : Q) :
  (x == inject_Z k)%Q -> Qfloor (x + (1 # 2)) = k.
Proof.
  intros E. rewrite E. unfold Qfloor, Qplus, inject_Z. cbn [Qnum Qden].
  change (Z.pos (1 * 2)) with 2.
  replace (k * 2 + 1 * 1) with (1 + k * 2) by lia.
  rewrite Z.div_add by discriminate. reflexivity.
Qed.

Lemma tenths_value (k : Z) :
  JS.div (JS.ofZ k) (JS.ofZ 10) = JS.Fin (Qred (inject_Z k / inject_Z 10)).
Proof. reflexivity. Qed.

Lemma one_digit (f : Z) :
  0 <= f <= 9 -> JS.scanDigits (JS.string_of_Z f) 0 0 = (f, 1%nat, EmptyString).
Proof.
  intros H.
  assert (C : f = 0 \/ f = 1 \/ f = 2 \/ f = 3 \/ f = 4 \/ f = 5 \/ f = 6
              \/ f = 7 \/ f = 8 \/ f = 9) by lia.
  repeat (destruct C as [-> | C]; [reflexivity |]). now subst f.
Qed.

(** [parseFloat] reads a whole part, a point and one digit. *)
Lemma parseFloat_int_dec (i f : Z) :
  0 <= i -> 0 <= f <= 9 ->
  exists v : Q,
    JS.parseFloat_string (JS.string_of_Z i ++ "." ++ JS.string_of_Z f)
    = JS.Fin v
    /\ (v == inject_Z i + inject_Z f / inject_Z 10)%Q.
Proof.
  intros Hi Hf.
  destruct (DigitFacts.string_of_Z_first i Hi) as (c & s & k & E & D).
  destruct (DigitFacts.trim_sign_digit c (s ++ "." ++ JS.string_of_Z f) k D)
    as [T S].
  destruct (DigitFacts.scan_string_of_Z i ("." ++ JS.string_of_Z f) Hi)
    as (n & Hn).
  { intros c0 s0 [= <- _]. reflexivity. }
  unfold JS.parseFloat_string, JS.scanDecimal.
  rewrite E in *. cbn [append] in *. rewrite T, S, Hn.
  cbn [append]. rewrite (one_digit f Hf).
  cbn [JS.scanExponent].
  eexists. split; [reflexivity |].
  rewrite Qred_correct. unfold JS.pow10. cbn [Z.leb Z.compare Z.of_nat Z.pow].
  change (inject_Z (10 ^ 0)) with 1%Q.
  change (Z.pow_pos 10 (Pos.of_succ_nat 0)) with 10.
  rewrite Qmult_1_r. reflexivity.
Qed.

Lemma tenths_parts (k : Z) :
  (inject_Z (k / 10) + inject_Z (k mod 10) / inject_Z 10
   == inject_Z k / inject_Z 10)%Q.
Proof.
  rewrite (Z.div_mod k 10) at 3 by discriminate.
  rewrite inject_Z_plus, inject_Z_mult. field.
Qed.

Lemma toFixed1_tenths (k : Z) :
  0 <= k ->
  JS.toFixed1 (JS.div (JS.ofZ k) (JS.ofZ 10))
  = (JS.string_of_Z (k / 10) ++ "." ++ JS.string_of_Z (k mod 10))%string.
Proof.
  intros Hk. rewrite tenths_value. unfold JS.toFixed1.
  assert (N : (0 <= Qred (inject_Z k / inject_Z 10))%Q).
  { rewrite Qred_correct. apply Qle_shift_div_l; [reflexivity |].
    rewrite Qmult_0_l. change 0%Q with (inject_Z 0). now rewrite <- Zle_Qle. }
  assert (L : JS.Qltb (Qred (inject_Z k / inject_Z 10)) 0 = false).
  { unfold JS.Qltb. apply negb_false_iff. now apply Qle_bool_iff. }
  rewrite L.
  assert (T : Qfloor (Qabs (Qred (inject_Z k / inject_Z 10)) * 10 + (1 # 2)) = k).
  { apply Qfloor_half. rewrite Qabs_pos by exact N. rewrite Qred_correct.
    field. }
  rewrite T. reflexivity.
Qed.

(** A weight of [k] tenths, shown to one decimal, read and rounded, is
    the weight of [k] tenths. *)
Lemma round_trip_tenths (k : Z) :
  0 <= k ->
  round1 (JS.parseFloat_string (JS.toFixed1 (JS.div (JS.ofZ k) (JS.ofZ 10))))
  = JS.div (JS.ofZ k) (JS.ofZ 10).
Proof.
  intros Hk. rewrite (toFixed1_tenths k Hk).
  destruct (parseFloat_int_dec (k / 10) (k mod 10)) as (v & P & V).
  { apply Z.div_pos; lia. }
  { pose proof (Z.mod_pos_bound k 10). lia. }
  rewrite P. rewrite tenths_parts in V.
  unfold round1, JS.mul, JS.lift2, JS.ofZ, JS.Math_round.
  rewrite (Qfloor_half k); [reflexivity |].
  rewrite Qred_correct, V. field.
Qed.

(** The text of a whole number that is positive, and its reading. *)
Lemma ToString_whole (c : Z) :
  0 < c -> JS.NumberToString (JS.ofZ c) = JS.string_of_Z c.
Proof.
  intros H. unfold JS.NumberToString, JS.ofZ, inject_Z. cbn [Qnum Qden].
  rewrite Z.mod_1_r, Z.div_1_r.
  replace (c <? 0) with false by (symmetry; apply Z.ltb_ge; lia).
  rewrite Z.abs_eq by lia. cbn [JS.frac_digits Z.eqb append].
  apply CsvFacts.append_empty_r.
Qed.

(** Writing a record over itself leaves a store in key order as it is. *)
Lemma put_same (r : Db.record) (s : Db.store) :
  SpecStore.keySorted s -> Db.get (Db.date r) s = Some r -> Db.put r s = s.
Proof.
  unfold SpecStore.keySorted.
  induction 1 as [| y s Hs IH Hall]; cbn [Db.get Db.put]; [discriminate |].
  destruct (String.eqb_spec (Db.date y) (Db.date r)) as [E | N].
  - intros [= ->]. now rewrite StrOrder.compare_refl.
  - intros G. destruct (String.compare (Db.date r) (Db.date y)) eqn:C.
    + apply StrOrder.compare_eq in C. congruence.
    + exfalso. destruct (DbFacts.get_Some_date _ _ _ G) as [_ Hin].
      rewrite Forall_forall in Hall. specialize (Hall r Hin).
      apply (StrOrder.compare_lt_irrefl (Db.date r)).
      now apply StrOrder.compare_lt_trans with (Db.date y).
    + now rewrite IH.
Qed.

End RoundTripFacts.

Module ReSaveFacts.
Import SpecSave.

Lemma tenths_text_valid (k : Z) :
  0 < k ->
  JS.gt (JS.parseFloat_string (JS.toFixed1 (JS.div (JS.ofZ k) (JS.ofZ 10))))
        (JS.ofZ 0) = true.
Proof.
  intros Hk. rewrite (RoundTripFacts.toFixed1_tenths k) by lia.
  destruct (RoundTripFacts.parseFloat_int_dec (k / 10) (k mod 10))
    as (v & P & V).
  { apply Z.div_pos; lia. }
  { pose proof (Z.mod_pos_bound k 10). lia. }
  rewrite P. rewrite RoundTripFacts.tenths_parts in V.
  unfold JS.gt, JS.lt, JS.ofZ, JS.Qltb. apply negb_true_iff.
  destruct (Qle_bool v (inject_Z 0)) eqn:E; [| reflexivity].
  apply Qle_bool_iff in E. rewrite V in E. exfalso.
  assert (0 < inject_Z k / inject_Z 10)%Q.
  { apply Qlt_shift_div_l; [reflexivity |]. rewrite Qmult_0_l.
    change 0%Q with (inject_Z 0). now rewrite <- Zlt_Qlt. }
  change (inject_Z 0) with 0%Q in E.
  apply (Qlt_irrefl 0). eapply Qlt_le_trans; eassumption.
Qed.

(** The inputs of part_000 once a date with a weight of [k] tenths and
    [c] calories is loaded. *)
Lemma loaded_inputs (w : Part000.World) (d : string) (r : Db.record)
      (k c : Z) (m : Part000.Mode) :
  Db.getRecord d (Part000.db w) = Some r ->
  Db.weight r = JS.Num (JS.div (JS.ofZ k) (JS.ofZ 10)) ->
  Db.total_calorie r = JS.Num (JS.ofZ c) -> 0 < c ->
  let w1 := Part000.switchMode m (Part000.handleDateChange d w) in
  Part000.db w1 = Part000.db w
  /\ Part000.alerts w1 = Part000.alerts w
  /\ Part000.mode (Part000.state w1) = m
  /\ Part000.currentDate (Part000.state w1) = d
  /\ Part000.currentRecord (Part000.state w1) = Some r
  /\ Part000.weightInput (Part000.ui w1)
     = JS.toFixed1 (JS.div (JS.ofZ k) (JS.ofZ 10))
  /\ Part000.calorieInput (Part000.ui w1) = JS.string_of_Z c.
Proof.
  intros G Hw Hc Hpos. cbv zeta.
  unfold Part000.switchMode, Part000.handleDateChange, Part000.loadDataForDate.
  cbn [Part000.db Part000.state Part000.ui Part000.alerts Part000.mode
       Part000.currentDate Part000.currentRecord Part000.set_inputs
       Part000.weightInput Part000.calorieInput].
  rewrite G, Hw, Hc.
  repeat split.
  unfold JS.or.
  assert (B : JS.ToBoolean (JS.Num (JS.ofZ c)) = true).
  { unfold JS.ToBoolean, JS.ofZ. apply negb_true_iff.
    destruct (Qeq_bool (inject_Z c) 0) eqn:E; [| reflexivity].
    apply Qeq_bool_iff in E. unfold Qeq, inject_Z in E.
    cbn [Qnum Qden] in E. lia. }
  rewrite B. cbn [JS.ToString]. now apply RoundTripFacts.ToString_whole.
Qed.

Lemma string_of_Z_nonempty (z : Z) :
  0 <= z -> String.eqb (JS.string_of_Z z) "" = false.
Proof.
  intros H. destruct (DigitFacts.string_of_Z_first z H) as (c & s & k & E & _).
  now rewrite E.
Qed.

Lemma reload_save000 (w : Part000.World) (d : string) (r : Db.record)
      (k c : Z) (m : Part000.Mode) :
  SpecStore.keySorted (Part000.db w) ->
  Db.getRecord d (Part000.db w) = Some r ->
  Db.weight r = JS.Num (JS.div (JS.ofZ k) (JS.ofZ 10)) -> 0 < k ->
  Db.total_calorie r = JS.Num (JS.ofZ c) -> 0 < c ->
  Part000.db (Part000.handleSave
                (Part000.switchMode m (Part000.handleDateChange d w)))
  = Part000.db w
  /\ Part000.alerts (Part000.handleSave
                       (Part000.switchMode m (Part000.handleDateChange d w)))
     = Part000.alerts w.
Proof.
  intros K G Hw Hk Hc Hpos.
  destruct (loaded_inputs w d r k c m G Hw Hc Hpos)
    as (L1 & L2 & L3 & L4 & L5 & L6 & L7).
  set (w1 := Part000.switchMode m (Part000.handleDateChange d w)) in *.
  clearbody w1.
  assert (R : recordOfInputs (Part000.currentDate (Part000.state w1))
                             (Part000.weightInput (Part000.ui w1))
                             (Part000.calorieInput (Part000.ui w1)) = r).
  { unfold recordOfInputs. rewrite L4, L6, L7.
    rewrite (SaveFacts.valid_weight_text _ (tenths_text_valid k Hk)).
    rewrite string_of_Z_nonempty by lia.
    rewrite RoundTripFacts.round_trip_tenths by lia.
    rewrite DigitFacts.parseInt_string_of_Z by lia.
    destruct (DbFacts.get_Some_date _ _ _ G) as [Hd _].
    destruct r as [rd rw rc]. cbn [Db.date Db.weight Db.total_calorie] in *.
    now subst. }
  assert (P : Db.upsertRecord r (Part000.db w1) = Part000.db w).
  { rewrite L1. apply RoundTripFacts.put_same; [exact K |].
    destruct (DbFacts.get_Some_date _ _ _ G) as [-> _]. exact G. }
  destruct m.
  - destruct (SaveFacts.handleSave_morning_write w1 L3) as [A B].
    + rewrite L5. discriminate.
    + rewrite L6. now apply tenths_text_valid.
    + rewrite A, B, R, P, L2. now split.
  - destruct (SaveFacts.handleSave_night_write w1 L3) as [A B].
    + rewrite L5. discriminate.
    + rewrite L7, DigitFacts.parseInt_string_of_Z by lia.
      unfold JS.ge, JS.le, JS.ofZ. apply Qle_bool_iff.
      rewrite <- Zle_Qle. lia.
    + rewrite A, B, R, P, L2. now split.
Qed.

End ReSaveFacts.

Module NumberTextFacts.
Import SpecSave.

(** [Number] reads a whole part, a point and one digit, and a whole
    number. *)
Lemma StringToNumber_int_dec (i f : Z) :
  0 <= i -> 0 <= f <= 9 ->
  exists v : Q,
    JS.StringToNumber (JS.string_of_Z i ++ "." ++ JS.string_of_Z f)
    = JS.Fin (Qred v)
    /\ (v == inject_Z i + inject_Z f / inject_Z 10)%Q.
Proof.
  intros Hi Hf.
  destruct (DigitFacts.string_of_Z_first i Hi) as (c & s & k & E & D).
  destruct (DigitFacts.trim_sign_digit c (s ++ "." ++ JS.string_of_Z f) k D)
    as [T S].
  destruct (DigitFacts.scan_string_of_Z i ("." ++ JS.string_of_Z f) Hi)
    as (n & Hn).
  { intros c0 s0 [= <- _]. reflexivity. }
  unfold JS.StringToNumber, JS.scanDecimal.
  rewrite E in *. cbn [append] in *. rewrite T, S, Hn.
  cbn [append]. rewrite (RoundTripFacts.one_digit f Hf).
  cbn [JS.scanExponent JS.allWhiteSpace].
  eexists. split; [reflexivity |].
  unfold JS.pow10. cbn [Z.leb Z.compare Z.of_nat Z.pow].
  change (inject_Z (10 ^ 0)) with 1%Q.
  change (Z.pow_pos 10 (Pos.of_succ_nat 0)) with 10.
  rewrite Qmult_1_r. reflexivity.
Qed.

Lemma Qred_whole (i : Z) : Qred (inject_Z i) = inject_Z i.
Proof.
  unfold Qred, inject_Z. cbn [Qnum Qden].
  pose proof (Z.ggcd_gcd i 1) as G.
  pose proof (Z.ggcd_correct_divisors i 1) as D.
  destruct (Z.ggcd i 1) as (g & aa & bb). cbn [fst snd] in *.
  rewrite Z.gcd_1_r in G. subst g. destruct D as [Da Db].
  replace aa with i by lia. replace bb with 1 by lia. reflexivity.
Qed.

Lemma StringToNumber_int (i : Z) :
  0 <= i -> JS.StringToNumber (JS.string_of_Z i) = JS.ofZ i.
Proof.
  intros Hi.
  destruct (DigitFacts.string_of_Z_first i Hi) as (c & s & k & E & D).
  destruct (DigitFacts.trim_sign_digit c s k D) as [T S].
  destruct (DigitFacts.scan_string_of_Z i EmptyString Hi) as (n & Hn);
    [discriminate |].
  rewrite CsvFacts.append_empty_r in Hn.
  unfold JS.StringToNumber, JS.scanDecimal.
  rewrite E in *. rewrite T, S, Hn.
  cbn [JS.scanExponent JS.allWhiteSpace]. unfold JS.ofZ. f_equal.
  transitivity (Qred (inject_Z i)); [| apply Qred_whole].
  apply Qred_complete.
  unfold JS.pow10. cbn [Z.leb Z.compare Z.of_nat Z.pow].
  change (inject_Z (10 ^ 0)) with 1%Q. change (inject_Z 0) with 0%Q.
  unfold Qdiv. rewrite Qmult_0_l, Qplus_0_r, Qmult_1_r. reflexivity.
Qed.

Lemma digit_text (j : Z) :
  0 <= j <= 9 ->
  String (JS.digit_char j) EmptyString = JS.string_of_Z j.
Proof.
  intros H.
  assert (C : j = 0 \/ j = 1 \/ j = 2 \/ j = 3 \/ j = 4 \/ j = 5 \/ j = 6
              \/ j = 7 \/ j = 8 \/ j = 9) by lia.
  repeat (destruct C as [-> | C]; [reflexivity |]). now subst j.
Qed.

(** The numerator and denominator of [k] tenths in lowest terms. *)
Lemma tenths_frac (k : Z) :
  0 <= k ->
  let q := Qred (inject_Z k / inject_Z 10) in
  0 <= Qnum q
  /\ Qnum q / Z.pos (Qden q) = k / 10
  /\ (Qnum q mod Z.pos (Qden q)) * 10 = Z.pos (Qden q) * (k mod 10).
Proof.
  intros Hk q.
  assert (E : Qnum q * 10 = k * Z.pos (Qden q)).
  { pose proof (Qred_correct (inject_Z k / inject_Z 10)) as C.
    fold q in C. unfold Qeq in C.
    change (Qnum (inject_Z k / inject_Z 10)) with (k * 1) in C.
    change (QDen (inject_Z k / inject_Z 10)) with 10 in C. lia. }
  set (n := Qnum q) in *. set (d := Z.pos (Qden q)) in *.
  assert (Hd : 0 < d) by (unfold d; lia).
  assert (Hn : 0 <= n) by nia.
  pose proof (Z.div_mod k 10 ltac:(lia)) as Dk.
  pose proof (Z.mod_pos_bound k 10 ltac:(lia)) as Bk.
  assert (R : 0 <= n - d * (k / 10) < d) by nia.
  assert (Q : n / d = k / 10).
  { symmetry. apply Z.div_unique with (r := n - d * (k / 10)); lia. }
  split; [exact Hn | split; [exact Q |]].
  rewrite Z.mod_eq by lia. rewrite Q. nia.
Qed.

(** The text of [k] tenths. *)
Lemma NumberToString_tenths (k : Z) :
  0 <= k ->
  JS.NumberToString (JS.div (JS.ofZ k) (JS.ofZ 10))
  = if k mod 10 =? 0 then JS.string_of_Z (k / 10)
    else (JS.string_of_Z (k / 10) ++ "." ++ JS.string_of_Z (k mod 10))%string.
Proof.
  intros Hk. rewrite RoundTripFacts.tenths_value.
  destruct (tenths_frac k Hk) as (Hn & Q & R). cbv zeta in Hn, Q, R.
  unfold JS.NumberToString.
  set (q := Qred (inject_Z k / inject_Z 10)) in *.
  set (n := Qnum q) in *. set (d := Z.pos (Qden q)) in *.
  assert (Hd : 0 < d) by (unfold d; lia).
  pose proof (Z.mod_pos_bound k 10 ltac:(lia)) as Bk.
  replace (n <? 0) with false by (symmetry; apply Z.ltb_ge; lia).
  rewrite (Z.abs_eq n) by lia. rewrite Q.
  cbn [append].
  destruct (Z.eqb_spec (k mod 10) 0) as [Z0 | NZ].
  - replace (n mod d) with 0 by nia.
    cbn [JS.frac_digits Z.eqb]. apply CsvFacts.append_empty_r.
  - assert (Rn : n mod d <> 0) by nia.
    change 20%nat with (S 19). cbn [JS.frac_digits].
    replace (n mod d =? 0) with false by (symmetry; now apply Z.eqb_neq).
    rewrite R. rewrite (Z.mul_comm d), Z.div_mul, Z.mod_mul by lia.
    cbn [JS.frac_digits Z.eqb].
    rewrite digit_text by lia. reflexivity.
Qed.

(** [k] tenths, written and read back by [Number]. *)
Lemma StringToNumber_tenths (k : Z) :
  0 <= k ->
  JS.StringToNumber (JS.NumberToString (JS.div (JS.ofZ k) (JS.ofZ 10)))
  = JS.div (JS.ofZ k) (JS.ofZ 10).
Proof.
  intros Hk. rewrite (NumberToString_tenths k Hk).
  pose proof (Z.mod_pos_bound k 10 ltac:(lia)) as Bk.
  rewrite RoundTripFacts.tenths_value.
  destruct (Z.eqb_spec (k mod 10) 0) as [Z0 | NZ].
  - rewrite StringToNumber_int by (apply Z.div_pos; lia).
    unfold JS.ofZ. f_equal. symmetry.
    transitivity (Qred (inject_Z (k / 10))); [| apply Qred_whole].
    apply Qred_complete.
    rewrite <- (RoundTripFacts.tenths_parts k), Z0.
    change (inject_Z 0) with 0%Q.
    unfold Qdiv. now rewrite Qmult_0_l, Qplus_0_r.
  - destruct (StringToNumber_int_dec (k / 10) (k mod 10)) as (v & P & V);
      [apply Z.div_pos; lia | lia |].
    rewrite P. f_equal. apply Qred_complete.
    now rewrite V, RoundTripFacts.tenths_parts.
Qed.

End NumberTextFacts.

Module ReSave001Facts.
Import SpecSave.

Lemma tenths_pos (k : Z) :
  0 < k -> JS.gt (JS.div (JS.ofZ k) (JS.ofZ 10)) (JS.ofZ 0) = true.
Proof.
  intros Hk. rewrite RoundTripFacts.tenths_value.
  unfold JS.gt, JS.lt, JS.ofZ, JS.Qltb. apply negb_true_iff.
  destruct (Qle_bool _ _) eqn:E; [| reflexivity].
  apply Qle_bool_iff in E. rewrite Qred_correct in E. exfalso.
  assert (0 < inject_Z k / inject_Z 10)%Q.
  { apply Qlt_shift_div_l; [reflexivity |]. rewrite Qmult_0_l.
    change 0%Q with (inject_Z 0). now rewrite <- Zlt_Qlt. }
  change (inject_Z 0) with 0%Q in E.
  apply (Qlt_irrefl 0). eapply Qlt_le_trans; eassumption.
Qed.

Lemma whole_pos (c : Z) : 0 < c -> JS.gt (JS.ofZ c) (JS.ofZ 0) = true.
Proof.
  intros Hc. unfold JS.gt, JS.lt, JS.ofZ, JS.Qltb. apply negb_true_iff.
  destruct (Qle_bool _ _) eqn:E; [| reflexivity].
  apply Qle_bool_iff in E. rewrite <- Zle_Qle in E. lia.
Qed.

(** [safeNumber] of the text of a finite number that [Number] reads
    back. *)
Lemma safeNumber_text (n : JS.number) (q : Q) :
  n = JS.Fin q ->
  JS.StringToNumber (JS.NumberToString n) = n ->
  Part001.safeNumber (JS.Str (JS.NumberToString n)) = Some n.
Proof.
  intros -> H. unfold Part001.safeNumber.
  destruct (JS.NumberToString (JS.Fin q)) eqn:E.
  - exfalso. unfold JS.NumberToString in E.
    destruct (Qnum q <? 0); cbn [append] in E.
    + discriminate E.
    + destruct (DigitFacts.string_of_Z_first
                  (Z.abs (Qnum q) / Z.pos (Qden q)))
        as (c & s & k & Es & _);
        [apply Z.div_pos; lia |].
      rewrite Es in E. discriminate E.
  - cbn [JS.ToNumber]. now rewrite H.
Qed.

Lemma reload_save001 (w : Part001.World) (d : string) (r : Db.record)
      (k c : Z) (m : Part001.Mode) :
  SpecStore.keySorted (Part001.db w) ->
  Db.getRecord d (Part001.db w) = Some r ->
  Db.weight r = JS.Num (JS.div (JS.ofZ k) (JS.ofZ 10)) -> 0 < k ->
  Db.total_calorie r = JS.Num (JS.ofZ c) -> 0 < c ->
  Part001.db (Part001.saveCurrent
                (Part001.loadRecordForDate d (Part001.switchMode m w)))
  = Part001.db w
  /\ Part001.alerts (Part001.saveCurrent
                       (Part001.loadRecordForDate d (Part001.switchMode m w)))
     = Part001.alerts w.
Proof.
  intros K G Hw Hk Hc Hpos.
  set (w1 := Part001.loadRecordForDate d (Part001.switchMode m w)).
  assert (L1 : Part001.db w1 = Part001.db w) by reflexivity.
  assert (L2 : Part001.alerts w1 = Part001.alerts w) by reflexivity.
  assert (L3 : Part001.mode (Part001.st w1) = m) by reflexivity.
  assert (L4 : Part001.dateInput (Part001.ui w1) = d) by reflexivity.
  assert (L4' : Part001.currentDate (Part001.st w1) = Some d) by reflexivity.
  assert (L6 : Part001.weightInput (Part001.ui w1)
               = JS.NumberToString (JS.div (JS.ofZ k) (JS.ofZ 10))).
  { unfold w1, Part001.loadRecordForDate, Part001.switchMode.
    cbn [Part001.db Part001.ui Part001.weightInput]. now rewrite G, Hw. }
  assert (L7 : Part001.calorieInput (Part001.ui w1)
               = JS.NumberToString (JS.ofZ c)).
  { unfold w1, Part001.loadRecordForDate, Part001.switchMode.
    cbn [Part001.db Part001.ui Part001.calorieInput]. now rewrite G, Hc. }
  clearbody w1.
  destruct (DbFacts.get_Some_date _ _ _ G) as [Hd _].
  destruct (String.eqb_spec d "") as [E | N].
  - assert (S : Part001.saveCurrent w1 = w1).
    { unfold Part001.saveCurrent, Part001.saveDate.
      rewrite L4, L4', E. reflexivity. }
    rewrite S. now split.
  - assert (S : Part001.saveDate w1 = Some d).
    { unfold Part001.saveDate. rewrite L4.
      destruct (String.eqb_spec d ""); [congruence | reflexivity]. }
    assert (B : baseRecord d (Part001.db w1) = r)
      by (unfold baseRecord; now rewrite L1, G).
    assert (P : Db.upsertRecord r (Part001.db w1) = Part001.db w).
    { rewrite L1. apply RoundTripFacts.put_same; [exact K |].
      now rewrite Hd. }
    assert (R : Db.mkRecord d (JS.Num (JS.div (JS.ofZ k) (JS.ofZ 10)))
                            (JS.Num (JS.ofZ c)) = r).
    { destruct r as [rd rw rc]. cbn [Db.date Db.weight Db.total_calorie] in *.
      now subst. }
    destruct m.
    + destruct (SaveFacts.saveCurrent_morning_write w1 d
                  (JS.div (JS.ofZ k) (JS.ofZ 10)) S N L3) as [A A'].
      * rewrite L6.
        apply (safeNumber_text _ _ (RoundTripFacts.tenths_value k)).
        apply NumberTextFacts.StringToNumber_tenths. lia.
      * now apply tenths_pos.
      * rewrite A, A', B, Hc. unfold normalize, JS.coalesce.
        cbn [JS.isNullish]. rewrite R, P, L2. now split.
    + destruct (SaveFacts.saveCurrent_night_write w1 d (JS.ofZ c) S N L3)
        as [A A'].
      * rewrite L7. apply (safeNumber_text _ (inject_Z c) eq_refl).
        change (JS.Fin (inject_Z c)) with (JS.ofZ c).
        rewrite RoundTripFacts.ToString_whole by lia.
        apply NumberTextFacts.StringToNumber_int. lia.
      * now apply whole_pos.
      * rewrite A, A', B, Hw. unfold normalize, JS.coalesce.
        cbn [JS.isNullish]. rewrite R, P, L2. now split.
Qed.

End ReSave001Facts.

(** X21: when the record of a date holds a
    positive weight of whole tenths and a positive whole number of
    calories, picking the date and saving at once, in either mode,
    raises no message and leaves the store as it was, in both
    controllers: the texts put into the inputs are read back as the
    stored values. *)
Theorem X21_load_then_save_unchanged :
  forall (s : Db.store) (d : string) (r : Db.record) (k c : Z),
    SpecStore.keySorted s ->
    Db.getRecord d s = Some r ->
    Db.weight r = JS.Num (JS.div (JS.ofZ k) (JS.ofZ 10)) -> 0 < k ->
    Db.total_calorie r = JS.Num (JS.ofZ c) -> 0 < c ->
    (forall (w : Part000.World) (m : Part000.Mode),
       Part000.db w = s ->
       let w' :=
         Part000.handleSave
           (Part000.switchMode m (Part000.handleDateChange d w)) in
       Part000.db w' = s /\ Part000.alerts w' = Part000.alerts w)
    /\ (forall (w : Part001.World) (m : Part001.Mode),
          Part001.db w = s ->
          let w' :=
            Part001.saveCurrent
              (Part001.loadRecordForDate d (Part001.switchMode m w)) in
          Part001.db w' = s /\ Part001.alerts w' = Part001.alerts w).
Proof.
  intros s d r k c K G Hw Hk Hc Hpos. split.
  - intros w m <-. apply (ReSaveFacts.reload_save000 w d r k c m); assumption.
  - intros w m <-. apply (ReSave001Facts.reload_save001 w d r k c m); assumption.
Qed.

Lemma X21_load_then_save_unchanged_witness :
  Part000.db
    (Part000.handleSave
       (Part000.switchMode Part000.night
          (Part000.handleDateChange "2024-01-02"
             (Part000.init Examples.day Examples.threeDays))))
  = Examples.threeDays
  /\ Part001.db
       (Part001.saveCurrent
          (Part001.loadRecordForDate "2024-01-02"
             (Part001.switchMode Part001.morning
                (Part001.init Examples.day Examples.threeDays))))
     = Examples.threeDays.
Proof.
  destruct (X21_load_then_save_unchanged Examples.threeDays
              "2024-01-02"%string Examples.rec2 695 1800) as [H0 H1].
  - apply DbFacts.run_keySorted.
  - reflexivity.
  - reflexivity.
  - reflexivity.
  - reflexivity.
  - reflexivity.
  - split.
    + apply (H0 (Part000.init Examples.day Examples.threeDays) Part000.night).
      reflexivity.
    + apply (H1 (Part001.init Examples.day Examples.threeDays) Part001.morning).
      reflexivity.
Defined.

(** ** Export *)

Module ExportFacts.

Lemma csvLines_length (records : list Db.record) :
  List.length (Part001.csvLines records) = S (List.length records).
Proof.
  unfold Part001.csvLines. cbn [List.length].
  now rewrite length_map, (sort_length Db.date).
Qed.

End ExportFacts.

(** X22: the export never touches the store.  From an
    empty store part_000 raises a message and offers no file, while
    part_001 offers a file that holds the header line alone; from any
    other store part_000 offers one file, named after the current date,
    and raises nothing.  The file of part_001 has one line more than
    there are records. *)
Theorem X22_export_outcome :
  (forall w : Part000.World,
     let w' := Part000.handleExport w in
     Part000.db w' = Part000.db w
     /\ Part000.state w' = Part000.state w
     /\ (Part000.db w = [] ->
         Part000.alerts w'
         = (Part000.alerts w ++ ["エクスポートするデータがありません。"%string])%list
         /\ Part000.downloads w' = Part000.downloads w)
     /\ (Part000.db w <> [] ->
         Part000.alerts w' = Part000.alerts w
         /\ exists f : Part000.download,
              Part000.downloads w' = (Part000.downloads w ++ [f])%list
              /\ Part000.filename f
                 = ("weight_calorie_export_"
                      ++ Part000.currentDate (Part000.state w) ++ ".csv")%string
              /\ Part000.content f
                 = ("data:text/csv;charset=utf-8,"
                      ++ Part000.csvText (Part000.db w))%string))
  /\ (forall w : Part001.World,
        let w' := Part001.exportCSV w in
        Part001.db w' = Part001.db w
        /\ Part001.alerts w' = Part001.alerts w
        /\ Part001.downloads w'
           = (Part001.downloads w ++ [Part001.csvText (Part001.db w)])%list
        /\ List.length (Part001.csvLines (Part001.db w))
           = S (List.length (Part001.db w))
        /\ (Part001.db w = [] ->
            Part001.csvText (Part001.db w) = "date,weight,total_calorie"%string)).
Proof.
  split.
  - intros w. cbv zeta. unfold Part000.handleExport, Db.getAllRecords, Db.getAll.
    destruct (Part000.db w) as [| r rs] eqn:E.
    + cbn [Part000.alert Part000.db Part000.state Part000.alerts
           Part000.downloads].
      rewrite E. split; [reflexivity | split; [reflexivity | split]].
      * intros _. split; reflexivity.
      * intros H. exfalso. now apply H.
    + cbn [Part000.db Part000.state Part000.alerts Part000.downloads].
      split; [reflexivity | split; [reflexivity |]].
      split; [discriminate |]. intros _. split; [reflexivity |].
      eexists. split; [reflexivity |]. split; reflexivity.
  - intros w. cbv zeta. unfold Part001.exportCSV, Db.getAllRecords, Db.getAll.
    cbn [Part001.db Part001.alerts Part001.downloads].
    split; [reflexivity | split; [reflexivity | split; [reflexivity |]]].
    split; [apply ExportFacts.csvLines_length |].
    intros ->. reflexivity.
Qed.

Lemma X22_export_outcome_witness :
  Part000.downloads (Part000.handleExport Examples.started) = []
  /\ Part001.downloads (Part001.exportCSV Examples.started001)
     = ["date,weight,total_calorie"%string].
Proof.
  destruct X22_export_outcome as [H0 H1]. split.
  - destruct (H0 Examples.started) as (_ & _ & E & _).
    destruct (E eq_refl) as [_ D]. exact D.
  - destruct (H1 Examples.started001) as (_ & _ & D & _ & E).
    rewrite D, (E eq_refl). reflexivity.
Defined.

(** ** Switching the mode *)

(** X23: switching the mode.  In part_000 it
    changes the mode alone: what was typed stays in both inputs.  In
    part_001 the mode buttons load the date again, so that what was
    typed and not saved is thrown away: after the click the world is the
    same whatever had been typed. *)
Theorem X23_mode_switch_and_inputs :
  (forall (w : Part000.World) (m : Part000.Mode),
     Part000.ui (Part000.switchMode m w) = Part000.ui w
     /\ Part000.db (Part000.switchMode m w) = Part000.db w
     /\ Part000.currentRecord (Part000.state (Part000.switchMode m w))
        = Part000.currentRecord (Part000.state w))
  /\ (forall (w : Part001.World) (today wtxt ctxt : string)
             (m : Part001.Mode),
        Part001.clickMode today m
          (Part001.typeWeight wtxt (Part001.typeCalorie ctxt w))
        = Part001.clickMode today m w)
  /\ (forall (w : Part001.World) (today : string) (m : Part001.Mode),
        let d := if negb (String.eqb (Part001.dateInput (Part001.ui w)) "")
                 then Part001.dateInput (Part001.ui w) else today in
        Part001.currentRecord (Part001.st (Part001.clickMode today m w))
        = Db.getRecord d (Part001.db w)
        /\ (Db.getRecord d (Part001.db w) = None ->
            Part001.weightInput (Part001.ui (Part001.clickMode today m w))
            = ""%string
            /\ Part001.calorieInput (Part001.ui (Part001.clickMode today m w))
               = ""%string)).
Proof.
  split; [| split].
  - intros w m. repeat split.
  - intros w today wtxt ctxt m. reflexivity.
  - intros w today m. cbv zeta. unfold Part001.clickMode.
    cbn [Part001.switchMode Part001.ui Part001.dateInput].
    split; [reflexivity |].
    intros N. unfold Part001.loadRecordForDate.
    cbn [Part001.db Part001.ui Part001.weightInput Part001.calorieInput
         Part001.switchMode Part001.dateInput].
    rewrite N. split; reflexivity.
Qed.

Lemma X23_mode_switch_and_inputs_witness :
  Part001.weightInput
    (Part001.ui (Part001.clickMode Examples.day Part001.night
                   (Part001.typeWeight "70" Examples.started001)))
  = ""%string.
Proof.
  destruct X23_mode_switch_and_inputs as (_ & _ & H).
  destruct (H (Part001.typeWeight "70" Examples.started001) Examples.day
              Part001.night) as [_ E].
  destruct (E eq_refl) as [A _]. exact A.
Defined.

(** ** Entries that the checks let through *)

Module CheckFacts.
Import SpecSave.






End CheckFacts.





(** ** The differences add up *)

Module TelescopeFacts.
Import SpecSummary.




End TelescopeFacts.


